(** * nhl_due: the daily "due" goal-scorer tracker

    A shallow embedding of [nhl_due.py] and the properties of its
    due-detection pipeline.

    Conventions of the embedding.
    - A Python [int] is a [Z].  A Python [float] is an IEEE 754 binary64
      value, represented by [spec_float] with [prec = 53], [emax = 1024].
    - A Python [str] is a [string]; only ASCII text is covered.
    - What [response.json()] returns is a [json] value whose numbers are
      integers (the provider's identifiers, goal and game counts); the
      decoder reads an integer with [int], so it has at most 4300 digits.
    - A raised exception is the [Raise] branch of [result]; network access
      and the system clock are explicit state passing over a world [W]. *)

From Stdlib Require Import ZArith List String Ascii Bool Lia.
From Stdlib Require Import Permutation Sorted.
From Stdlib Require Import DecimalString DecimalPos DecimalZ.
From Stdlib Require Import SpecFloat.
Import ListNotations.

Local Open Scope Z_scope.
Local Open Scope string_scope.
Local Set Warnings "-register-all".

(** ** Exceptions and the error monad *)

Inductive exn : Type :=
| KeyError (key : string)
| IndexError
| TypeError
| ValueError
| AttributeError
| ZeroDivisionError
| OverflowError
| NhlApiError (msg : string).

Inductive result (A : Type) : Type :=
| Ok (a : A)
| Raise (e : exn).

Arguments Ok {A} a.
Arguments Raise {A} e.

Definition rbind {A B : Type} (m : result A) (k : A -> result B) : result B :=
  match m with
  | Ok a => k a
  | Raise e => Raise e
  end.

Declare Scope result_scope.
Delimit Scope result_scope with result.
Notation "x <- m ;; k" := (rbind m (fun x => k))
  (at level 61, m at next level, right associativity) : result_scope.
Local Open Scope result_scope.

(** ** JSON documents, as [response.json()] hands them to the program *)

Inductive json : Type :=
| JNull
| JBool (b : bool)
| JInt (n : Z)
| JStr (s : string)
| JArr (items : list json)
| JObj (fields : list (string * json)).

(** A dict keeps its keys in insertion order; lookup takes the first binding. *)
Fixpoint dict_lookup (fields : list (string * json)) (key : string) : option json :=
  match fields with
  | [] => None
  | (k, v) :: rest => if String.eqb k key then Some v else dict_lookup rest key
  end.

(** [o.get(key, default)] *)
Definition py_get (o : json) (key : string) (default : json) : result json :=
  match o with
  | JObj fields =>
      match dict_lookup fields key with
      | Some v => Ok v
      | None => Ok default
      end
  | _ => Raise AttributeError
  end.

(** [o.get(key)], whose default is [None] *)
Definition py_get_none (o : json) (key : string) : result json :=
  py_get o key JNull.

(** [o[key]] for a string key *)
Definition py_getitem (o : json) (key : string) : result json :=
  match o with
  | JObj fields =>
      match dict_lookup fields key with
      | Some v => Ok v
      | None => Raise (KeyError key)
      end
  | _ => Raise TypeError
  end.

Fixpoint string_chars (s : string) : list json :=
  match s with
  | EmptyString => []
  | String c rest => JStr (String c EmptyString) :: string_chars rest
  end.

(** [o[0]] *)
Definition py_getitem0 (o : json) : result json :=
  match o with
  | JArr (x :: _) => Ok x
  | JArr [] => Raise IndexError
  | JStr (String c _) => Ok (JStr (String c EmptyString))
  | JStr EmptyString => Raise IndexError
  | JObj _ => Raise (KeyError "0")
  | _ => Raise TypeError
  end.

(** The items a [for] loop over [o] visits. *)
Definition py_iter (o : json) : result (list json) :=
  match o with
  | JArr items => Ok items
  | JObj fields => Ok (map (fun kv => JStr (fst kv)) fields)
  | JStr s => Ok (string_chars s)
  | _ => Raise TypeError
  end.

(** Truth value of an object, as tested by [if o] and [not o]. *)
Definition py_truthy (o : json) : bool :=
  match o with
  | JNull => false
  | JBool b => b
  | JInt n => negb (n =? 0)%Z
  | JStr s => negb (String.eqb s "")
  | JArr items => match items with [] => false | _ => true end
  | JObj fields => match fields with [] => false | _ => true end
  end.

(** [o == n] for an [int] [n] *)
Definition py_eq_int (o : json) (n : Z) : bool :=
  match o with
  | JInt m => (m =? n)%Z
  | JBool b => ((if b then 1 else 0) =? n)%Z
  | _ => false
  end.

(** ** [int(...)] and [str(...)] *)

Definition is_space (c : ascii) : bool :=
  let n := nat_of_ascii c in
  ((9 <=? n)%nat && (n <=? 13)%nat) || ((28 <=? n)%nat && (n <=? 32)%nat).

Fixpoint lstrip (s : string) : string :=
  match s with
  | EmptyString => EmptyString
  | String c rest => if is_space c then lstrip rest else s
  end.

Fixpoint rstrip (s : string) : string :=
  match s with
  | EmptyString => EmptyString
  | String c rest =>
      match rstrip rest with
      | EmptyString => if is_space c then EmptyString else String c EmptyString
      | r => String c r
      end
  end.

Definition strip (s : string) : string := rstrip (lstrip s).

(** Decimal digits with single underscores allowed between two digits. *)
Fixpoint py_digits (after_digit : bool) (s : string) : option Decimal.uint :=
  match s with
  | EmptyString => if after_digit then Some Decimal.Nil else None
  | String c rest =>
      if Ascii.eqb c "_" then
        if after_digit then py_digits false rest else None
      else uint_of_char c (py_digits true rest)
  end.

(** [sys.int_max_str_digits], the interpreter's default: the most digits
    that [int(s)] reads and that [str(n)] writes. *)
Definition INT_MAX_STR_DIGITS : Z := 4300.

(** [int(s)] for a [str] [s], base 10: surrounding white space, an optional
    sign, digits; [ValueError] also when there are more digits (leading
    zeros counted, underscores not) than the limit. *)
Definition int_of_str (s : string) : result Z :=
  let body := strip s in
  let '(negative, digits) :=
    match body with
    | String "-" rest => (true, rest)
    | String "+" rest => (false, rest)
    | _ => (false, body)
    end in
  match py_digits false digits with
  | Some u =>
      if (Z.of_nat (Decimal.nb_digits u) <=? INT_MAX_STR_DIGITS)%Z
      then Ok (if negative then - Z.of_uint u else Z.of_uint u)
      else Raise ValueError
  | None => Raise ValueError
  end.

(** [int(o)] *)
Definition py_int (o : json) : result Z :=
  match o with
  | JInt n => Ok n
  | JBool b => Ok (if b then 1 else 0)
  | JStr s => int_of_str s
  | _ => Raise TypeError
  end.

(** The decimal text of an [int] [n]: what [str(n)] and an f-string field
    give when [n] is within the limit of digits, as the integers that the
    program formats are (a status code, an identifier read from a document,
    a number of days, the parts of a date). *)
Definition str_of_int (n : Z) : string :=
  NilZero.string_of_int (Z.to_int n).

(** The number of decimal digits of [n], its sign apart. *)
Definition int_digits (n : Z) : nat :=
  match Z.to_int n with
  | Decimal.Pos u | Decimal.Neg u => Decimal.nb_digits u
  end.

(** [str(n)] for any [int] [n]: [ValueError] when [n] has more digits than
    the limit, which the result of an arithmetic operation can have. *)
Definition py_str_of_int (n : Z) : result string :=
  if (Z.of_nat (int_digits n) <=? INT_MAX_STR_DIGITS)%Z then Ok (str_of_int n)
  else Raise ValueError.

(** [repr(s)] for a [str] [s]: single quotes unless the text has a single
    quote and no double quote; backslash escapes for the quote, the
    backslash and control characters. *)
Fixpoint has_char (c : ascii) (s : string) : bool :=
  match s with
  | EmptyString => false
  | String d rest => Ascii.eqb c d || has_char c rest
  end.

Definition hex_digit (n : nat) : ascii :=
  match n with
  | 0 => "0" | 1 => "1" | 2 => "2" | 3 => "3" | 4 => "4" | 5 => "5"
  | 6 => "6" | 7 => "7" | 8 => "8" | 9 => "9" | 10 => "a" | 11 => "b"
  | 12 => "c" | 13 => "d" | 14 => "e" | _ => "f"
  end%nat%char.

Definition repr_char (quote c : ascii) : string :=
  let n := nat_of_ascii c in
  if Ascii.eqb c quote || Ascii.eqb c "\"%char then String "\" (String c "")
  else if (n =? 9)%nat then "\t"
  else if (n =? 10)%nat then "\n"
  else if (n =? 13)%nat then "\r"
  else if (n <? 32)%nat || (n =? 127)%nat then
    String "\" (String "x" (String (hex_digit (n / 16)) (String (hex_digit (n mod 16)) "")))
  else String c "".

Fixpoint repr_chars (quote : ascii) (s : string) : string :=
  match s with
  | EmptyString => EmptyString
  | String c rest => repr_char quote c ++ repr_chars quote rest
  end.

Definition repr_str (s : string) : string :=
  let quote :=
    if has_char "'" s && negb (has_char "034" s) then "034"%char else "'"%char in
  String quote (repr_chars quote s ++ String quote "").

(** [sep.join(parts)] *)
Fixpoint join (sep : string) (parts : list string) : string :=
  match parts with
  | [] => EmptyString
  | [p] => p
  | p :: rest => p ++ sep ++ join sep rest
  end.

Fixpoint py_repr (o : json) : string :=
  match o with
  | JNull => "None"
  | JBool true => "True"
  | JBool false => "False"
  | JInt n => str_of_int n
  | JStr s => repr_str s
  | JArr items => "[" ++ join ", " (map py_repr items) ++ "]"
  | JObj fields =>
      "{" ++ join ", " (map (fun kv => let '(k, v) := kv in
                                        repr_str k ++ ": " ++ py_repr v) fields)
          ++ "}"
  end.

(** [str(o)], which is also what an f-string field [{o}] inserts. *)
Definition py_str (o : json) : string :=
  match o with
  | JStr s => s
  | _ => py_repr o
  end.

(** ** [datetime.date]

    A date is represented by its proleptic Gregorian ordinal
    ([date.toordinal()]): dates compare as their ordinals do, and
    [(later - earlier).days] is the difference of the ordinals. *)

Definition date : Type := Z.

Definition _is_leap (year : Z) : bool :=
  (year mod 4 =? 0)%Z && (negb (year mod 100 =? 0)%Z || (year mod 400 =? 0)%Z).

Definition _days_before_year (year : Z) : Z :=
  let y := year - 1 in
  y * 365 + y / 4 - y / 100 + y / 400.

Definition _DAYS_IN_MONTH (month : Z) : Z :=
  match month with
  | 1 => 31 | 2 => 28 | 3 => 31 | 4 => 30 | 5 => 31 | 6 => 30
  | 7 => 31 | 8 => 31 | 9 => 30 | 10 => 31 | 11 => 30 | 12 => 31
  | _ => -1
  end.

Definition _DAYS_BEFORE_MONTH (month : Z) : Z :=
  match month with
  | 1 => 0 | 2 => 31 | 3 => 59 | 4 => 90 | 5 => 120 | 6 => 151
  | 7 => 181 | 8 => 212 | 9 => 243 | 10 => 273 | 11 => 304 | 12 => 334
  | _ => -1
  end.

Definition _days_in_month (year month : Z) : Z :=
  if (month =? 2)%Z && _is_leap year then 29 else _DAYS_IN_MONTH month.

Definition _days_before_month (year month : Z) : Z :=
  _DAYS_BEFORE_MONTH month + (if (2 <? month)%Z && _is_leap year then 1 else 0).

Definition _ymd2ord (year month day : Z) : Z :=
  _days_before_year year + _days_before_month year month + day.

(** [date(year, month, day)] *)
Definition date_of_ymd (year month day : Z) : result date :=
  if negb ((1 <=? year)%Z && (year <=? 9999)%Z) then Raise ValueError
  else if negb ((1 <=? month)%Z && (month <=? 12)%Z) then Raise ValueError
  else if negb ((1 <=? day)%Z && (day <=? _days_in_month year month)%Z)
  then Raise ValueError
  else Ok (_ymd2ord year month day).

Definition _ord2ymd (ordinal : Z) : Z * Z * Z :=
  let n := ordinal - 1 in
  let n400 := n / 146097 in
  let n := n mod 146097 in
  let n100 := n / 36524 in
  let n := n mod 36524 in
  let n4 := n / 1461 in
  let n := n mod 1461 in
  let n1 := n / 365 in
  let n := n mod 365 in
  let year := n400 * 400 + 1 + n100 * 100 + n4 * 4 + n1 in
  if (n1 =? 4)%Z || (n100 =? 4)%Z then (year - 1, 12, 31)
  else
    let leapyear := (n1 =? 3)%Z && (negb (n4 =? 24)%Z || (n100 =? 3)%Z) in
    let month := Z.shiftr (n + 50) 5 in
    let preceding :=
      _DAYS_BEFORE_MONTH month + (if (2 <? month)%Z && leapyear then 1 else 0) in
    if (n <? preceding)%Z then
      let month := month - 1 in
      let preceding :=
        preceding - (_DAYS_IN_MONTH month
                     + (if (month =? 2)%Z && leapyear then 1 else 0)) in
      (year, month, n - preceding + 1)
    else (year, month, n - preceding + 1).

(** [format(n, "0<width>d")] for a non-negative [n] *)
Fixpoint zeros (n : nat) : string :=
  match n with
  | O => EmptyString
  | S k => String "0" (zeros k)
  end.

Definition zero_pad (width : nat) (s : string) : string :=
  zeros (width - String.length s) ++ s.

Definition isoformat (d : date) : string :=
  let '(y, m, dd) := _ord2ymd d in
  zero_pad 4 (str_of_int y) ++ "-" ++ zero_pad 2 (str_of_int m)
    ++ "-" ++ zero_pad 2 (str_of_int dd).

(** [strptime] with the format [%Y-%m-%d]: four digits, a month written
    [1[0-2]], [0[1-9]] or [[1-9]], a day written [3[01]], [[12]\d], [0[1-9]],
    [[1-9]] or a space and [[1-9]], and nothing after it. *)
Definition digit_of (c : ascii) : option Z :=
  let n := Z.of_nat (nat_of_ascii c) in
  if (48 <=? n)%Z && (n <=? 57)%Z then Some (n - 48) else None.

Definition parse_month (s : string) : option (Z * string) :=
  match s with
  | String c1 (String c2 (String "-" rest)) =>
      match digit_of c1, digit_of c2 with
      | Some 1, Some d => if (d <=? 2)%Z then Some (10 + d, rest) else None
      | Some 0, Some d => if (1 <=? d)%Z then Some (d, rest) else None
      | _, _ => None
      end
  | String c1 (String "-" rest) =>
      match digit_of c1 with
      | Some d => if (1 <=? d)%Z then Some (d, rest) else None
      | None => None
      end
  | _ => None
  end.

Definition parse_day (s : string) : option Z :=
  match s with
  | String c1 (String c2 EmptyString) =>
      match digit_of c1, digit_of c2 with
      | Some 3, Some d => if (d <=? 1)%Z then Some (30 + d) else None
      | Some 1, Some d => Some (10 + d)
      | Some 2, Some d => Some (20 + d)
      | Some 0, Some d => if (1 <=? d)%Z then Some d else None
      | None, Some d =>
          if Ascii.eqb c1 " " && (1 <=? d)%Z then Some d else None
      | _, _ => None
      end
  | String c1 EmptyString =>
      match digit_of c1 with
      | Some d => if (1 <=? d)%Z then Some d else None
      | None => None
      end
  | _ => None
  end.

Definition parse_ymd (s : string) : option (Z * Z * Z) :=
  match s with
  | String y1 (String y2 (String y3 (String y4 (String "-" rest)))) =>
      match digit_of y1, digit_of y2, digit_of y3, digit_of y4 with
      | Some a, Some b, Some c, Some d =>
          match parse_month rest with
          | Some (month, rest') =>
              match parse_day rest' with
              | Some day => Some (a * 1000 + b * 100 + c * 10 + d, month, day)
              | None => None
              end
          | None => None
          end
      | _, _, _, _ => None
      end
  | _ => None
  end.

(** [_parse_date]: [datetime.strptime(date_str, "%Y-%m-%d").date()] *)
Definition _parse_date (date_str : json) : result date :=
  match date_str with
  | JStr s =>
      match parse_ymd s with
      | Some (year, month, day) => date_of_ymd year month day
      | None => Raise ValueError
      end
  | _ => Raise TypeError
  end.

(** ** [float]: IEEE 754 binary64 *)

Definition float : Type := spec_float.

Definition prec : Z := 53.
Definition emax : Z := 1024.

Definition float_zero : float := S754_zero false.
Definition float_one : float := SFone prec emax.

(** [a / b] for two [int]s: the quotient correctly rounded to the nearest
    float, [ZeroDivisionError] for a zero divisor and [OverflowError] when the
    rounded quotient is out of range. *)
Definition int_truediv (a b : Z) : result float :=
  match b, a with
  | Z0, _ => Raise ZeroDivisionError
  | Zpos _, Z0 => Ok (S754_zero false)
  | Zneg _, Z0 => Ok (S754_zero true)
  | _, _ =>
      match SFdiv prec emax
              (S754_finite (a <? 0)%Z (Z.to_pos (Z.abs a)) 0)
              (S754_finite (b <? 0)%Z (Z.to_pos (Z.abs b)) 0) with
      | S754_infinity _ => Raise OverflowError
      | q => Ok q
      end
  end.

(** [x / y] for two [float]s *)
Definition float_truediv (x y : float) : result float :=
  match y with
  | S754_zero _ => Raise ZeroDivisionError
  | _ => Ok (SFdiv prec emax x y)
  end.

(** [x * y] for two [float]s *)
Definition float_mul (x y : float) : float := SFmul prec emax x y.

(** The exact comparison of a [float] with an [int]: [None] for a NaN. *)
Definition float_cmp_int (x : float) (n : Z) : option comparison :=
  match x with
  | S754_nan => None
  | S754_infinity s => Some (if s then Lt else Gt)
  | S754_zero _ => Some (0 ?= n)%Z
  | S754_finite s m e =>
      let v := if s then Zneg m else Zpos m in
      Some (if (0 <=? e)%Z then (v * 2 ^ e ?= n)%Z else (v ?= n * 2 ^ (- e))%Z)
  end.

(** [x == n] *)
Definition float_eq_int (x : float) (n : Z) : bool :=
  match float_cmp_int x n with
  | Some Eq => true
  | _ => false
  end.

(** [n <= x] *)
Definition int_le_float (n : Z) (x : float) : bool :=
  match float_cmp_int x n with
  | Some Gt | Some Eq => true
  | _ => false
  end.

(** [n > x] *)
Definition int_gt_float (n : Z) (x : float) : bool :=
  match float_cmp_int x n with
  | Some Lt => true
  | _ => false
  end.

(** [x > n] *)
Definition float_gt_int (x : float) (n : Z) : bool :=
  match float_cmp_int x n with
  | Some Gt => true
  | _ => false
  end.

(** [format(x, ".1f")]: the exact value rounded half-to-even to one decimal
    digit; the sign is that of [x], also when the digits are all zero. *)
Definition round_half_even (num den : Z) : Z :=
  let q := num / den in
  let r := num mod den in
  match (2 * r ?= den)%Z with
  | Lt => q
  | Gt => q + 1
  | Eq => if Z.even q then q else q + 1
  end.

Definition tenths (m : positive) (e : Z) : Z :=
  if (0 <=? e)%Z then Zpos m * 2 ^ e * 10
  else round_half_even (Zpos m * 10) (2 ^ (- e)).

Definition fixed1 (negative : bool) (t : Z) : string :=
  (if negative then "-" else "") ++ str_of_int (t / 10) ++ "." ++ str_of_int (t mod 10).

Definition format_1f (x : float) : string :=
  match x with
  | S754_nan => "nan"
  | S754_infinity s => if s then "-inf" else "inf"
  | S754_zero s => fixed1 s 0
  | S754_finite s m e => fixed1 s (tenths m e)
  end.

(** ** The builtins [sorted], [sum], [max] and [zip] on dates and day counts *)

Fixpoint insert_sorted (x : Z) (l : list Z) : list Z :=
  match l with
  | [] => [x]
  | y :: rest => if (x <=? y)%Z then x :: l else y :: insert_sorted x rest
  end.

(** [sorted(l)], ascending *)
Fixpoint sorted (l : list Z) : list Z :=
  match l with
  | [] => []
  | x :: rest => insert_sorted x (sorted rest)
  end.

(** [sum(l)] *)
Definition sum (l : list Z) : Z := fold_left Z.add l 0.

(** [max(l)] for a non-empty [x :: l] *)
Definition max_of (x : Z) (l : list Z) : Z := fold_left Z.max l x.

(** [a or b] for two lists: the first one unless it is empty. *)
Definition list_or {A : Type} (a b : list A) : list A :=
  match a with
  | [] => b
  | _ => a
  end.

(** ** The data model *)

Record PlayerBaseline : Type := {
  player_id : Z;
  name : json;
  team_id : Z;
  team_abbrev : json;
  goals : Z;
  games_played : Z
}.

Definition goals_per_game (self : PlayerBaseline) : result float :=
  if (games_played self =? 0)%Z then Ok float_zero
  else int_truediv (goals self) (games_played self).

(** The field [last_goal_date] of the source is [due_last_goal_date] here:
    the function of that name keeps it. *)
Record PlayerDueStatus : Type := {
  player : PlayerBaseline;
  due_last_goal_date : date;
  days_since_last_goal : Z;
  expected_days_between_goals : float;
  next_game_opponent : json;
  next_game_start_time : json
}.

(** ** Pure parts of the pipeline *)

Definition get_previous_season_id (current_season_id : json) : result string :=
  n <- py_int current_season_id ;;
  py_str_of_int (n - 1).

(** The loop of [_extract_schedule_dates]: a block without a ["date"] key is
    skipped, any other failure propagates. *)
Fixpoint extract_dates_loop (blocks : list json) (dates : list date)
  : result (list date) :=
  match blocks with
  | [] => Ok dates
  | block :: rest =>
      match (s <- py_getitem block "date" ;; _parse_date s) with
      | Ok d => extract_dates_loop rest (dates ++ [d])%list
      | Raise (KeyError _) => extract_dates_loop rest dates
      | Raise e => Raise e
      end
  end.

Definition _extract_schedule_dates (schedule : json) : result (list date) :=
  blocks <- py_iter schedule ;;
  extract_dates_loop blocks [].

Definition average_days_between_games (dates : list date) : result float :=
  if (List.length dates <? 2)%nat then Ok float_zero
  else
    let sorted_dates := sorted dates in
    let deltas :=
      map (fun pair => let '(earlier, later) := pair in later - earlier)
          (combine sorted_dates (tl sorted_dates)) in
    int_truediv (sum deltas) (Z.of_nat (List.length deltas)).

(** [int(entry.get("goals", 0))] *)
Definition entry_goals (entry : json) : result Z :=
  g <- py_get entry "goals" (JInt 0) ;;
  py_int g.

(** [_parse_date(entry["gameDate"])] *)
Definition entry_date (entry : json) : result date :=
  s <- py_getitem entry "gameDate" ;;
  _parse_date s.

(** The comprehension of [last_goal_date]: the filter is evaluated first, the
    date of an entry is read only when the filter holds. *)
Fixpoint goal_games_of (entries : list json) : result (list date) :=
  match entries with
  | [] => Ok []
  | entry :: rest =>
      n <- entry_goals entry ;;
      if (0 <? n)%Z then
        d <- entry_date entry ;;
        ds <- goal_games_of rest ;;
        Ok (d :: ds)
      else goal_games_of rest
  end.

Definition last_goal_date (game_log : json) : result (option date) :=
  entries <- py_iter game_log ;;
  goal_games <- goal_games_of entries ;;
  match goal_games with
  | [] => Ok None
  | d :: ds => Ok (Some (max_of d ds))
  end.

Fixpoint played_dates_of (entries : list json) : result (list date) :=
  match entries with
  | [] => Ok []
  | entry :: rest =>
      d <- entry_date entry ;;
      ds <- played_dates_of rest ;;
      Ok (d :: ds)
  end.

Definition games_played_dates (game_log : json) : result (list date) :=
  entries <- py_iter game_log ;;
  played_dates_of entries.

(** A [for] loop whose body may [return] a value. *)
Fixpoint for_return {A B : Type} (body : A -> result (option B)) (items : list A)
  : result (option B) :=
  match items with
  | [] => Ok None
  | x :: rest =>
      r <- body x ;;
      match r with
      | Some v => Ok (Some v)
      | None => for_return body rest
      end
  end.

(** [team and team.get("id") == team_id] *)
Definition team_matches (team : json) (team_id : Z) : result bool :=
  if py_truthy team then
    i <- py_get_none team "id" ;;
    Ok (py_eq_int i team_id)
  else Ok false.

(** The body of the loop over [("home", "away")] in [_next_game_for_team]. *)
Definition next_game_side (game teams : json) (team_id : Z) (side : string)
  : result (option json) :=
  side_entry <- py_get teams side (JObj []) ;;
  team <- py_get_none side_entry "team" ;;
  hit <- team_matches team team_id ;;
  if hit then
    let opponent_side := if String.eqb side "home" then "away" else "home" in
    opponent_entry <- py_get teams opponent_side (JObj []) ;;
    opponent_team <- py_get opponent_entry "team" (JObj []) ;;
    opponent <- py_get opponent_team "name" (JStr "") ;;
    start_time <- py_get game "gameDate" (JStr "") ;;
    Ok (Some (JObj [("opponent", opponent); ("startTime", start_time)]))
  else Ok None.

Definition next_game_in_game (team_id : Z) (game : json) : result (option json) :=
  teams <- py_get game "teams" (JObj []) ;;
  for_return (next_game_side game teams team_id) ["home"; "away"].

Definition next_game_in_block (team_id : Z) (date_block : json)
  : result (option json) :=
  games <- py_get date_block "games" (JArr []) ;;
  game_list <- py_iter games ;;
  for_return (next_game_in_game team_id) game_list.

(** [None] is [JNull]; a found game is the dict with its two keys. *)
Definition _next_game_for_team (schedule_today : json) (team_id : Z) : result json :=
  dates <- py_get schedule_today "dates" (JArr []) ;;
  blocks <- py_iter dates ;;
  found <- for_return (next_game_in_block team_id) blocks ;;
  match found with
  | Some game => Ok game
  | None => Ok JNull
  end.

(** The number of nodes and characters of a JSON document. *)
Fixpoint json_size (o : json) : nat :=
  match o with
  | JNull | JBool _ | JInt _ => 1
  | JStr s => S (String.length s)
  | JArr items => S (list_sum (map json_size items))
  | JObj fields =>
      S (list_sum (map (fun kv => let '(_, v) := kv in S (json_size v)) fields))
  end.

(** ** The remote provider and the clock

    [SESSION.get(url, timeout=20)] either raises a
    [requests.exceptions.RequestException] or gives a response with a status
    code and a body that [response.json()] decodes (or fails to).  The world
    [W] is everything outside the program that these answers depend on. *)

Inductive http_outcome : Type :=
| RequestException
| Response (status_code : Z) (body : result json).

(** [response.ok]: the status is neither a client nor a server error. *)
Definition response_ok (status_code : Z) : bool :=
  negb ((400 <=? status_code)%Z && (status_code <? 600)%Z).

Definition SEASONS_API : string := "https://statsapi.web.nhl.com/api/v1/seasons".
Definition SKATER_SUMMARY_API : string :=
  "https://api.nhle.com/stats/rest/en/skater/summary".
Definition PLAYER_GAMELOG_API : string :=
  "https://api.nhle.com/stats/rest/en/player/summary".
Definition SCHEDULE_API : string := "https://statsapi.web.nhl.com/api/v1/schedule".

(** A [for] loop that updates a value and may raise. *)
Fixpoint for_fold {A S : Type} (body : S -> A -> result S) (items : list A) (s : S)
  : result S :=
  match items with
  | [] => Ok s
  | x :: rest => s' <- body s x ;; for_fold body rest s'
  end.

(** [set.add(v)]: lists and dicts are unhashable. *)
Definition set_add (s : list json) (v : json) : result (list json) :=
  match v with
  | JArr _ | JObj _ => Raise TypeError
  | _ => Ok (v :: s)
  end.

(** [n in s] for an [int] [n] *)
Definition int_in_set (n : Z) (s : list json) : bool :=
  existsb (fun v => py_eq_int v n) s.

Definition playing_side (game : json) (teams_playing : list json) (side : string)
  : result (list json) :=
  teams <- py_get game "teams" (JObj []) ;;
  side_entry <- py_get teams side (JObj []) ;;
  team <- py_get_none side_entry "team" ;;
  if py_truthy team then
    i <- py_get_none team "id" ;;
    set_add teams_playing i
  else Ok teams_playing.

Definition playing_block (teams_playing : list json) (date_block : json)
  : result (list json) :=
  games <- py_get date_block "games" (JArr []) ;;
  game_list <- py_iter games ;;
  for_fold (fun acc game => for_fold (playing_side game) ["home"; "away"] acc)
           game_list teams_playing.

(** The set [teams_playing_today] built from the day's schedule. *)
Definition teams_playing_today_of (schedule_today : json) : result (list json) :=
  dates <- py_get schedule_today "dates" (JArr []) ;;
  blocks <- py_iter dates ;;
  for_fold playing_block blocks [].

(** The loop of [fetch_top_goal_scorers] over the entries of the answer. *)
Fixpoint top_scorers_loop (entries : list json) (min_goals : Z)
  : result (list PlayerBaseline) :=
  match entries with
  | [] => Ok []
  | entry :: rest =>
      g <- py_get entry "goals" (JInt 0) ;;
      entry_goals <- py_int g ;;
      if (entry_goals <? min_goals)%Z then top_scorers_loop rest min_goals
      else
        pid <- py_getitem entry "playerId" ;;
        pid <- py_int pid ;;
        pname <- py_getitem entry "playerName" ;;
        tid <- py_getitem entry "teamId" ;;
        tid <- py_int tid ;;
        abbrev <- py_get entry "teamAbbrevs" (JStr "") ;;
        gp <- py_get entry "gamesPlayed" (JInt 0) ;;
        gp <- py_int gp ;;
        players <- top_scorers_loop rest min_goals ;;
        Ok ({| player_id := pid; name := pname; team_id := tid;
               team_abbrev := abbrev; goals := entry_goals;
               games_played := gp |} :: players)
  end.

Definition DEFAULT_MIN_GOALS : Z := 40.

Section World.

Variable W : Type.
Variable session_get : string -> W -> http_outcome * W.
Variable date_today : W -> date * W.

(** Computations that talk to the world and may raise. *)
Definition M (A : Type) : Type := W -> result (A * W).

Definition mret {A : Type} (a : A) : M A := fun w => Ok (a, w).

Definition mbind {A B : Type} (m : M A) (k : A -> M B) : M B :=
  fun w =>
    match m w with
    | Ok (a, w') => k a w'
    | Raise e => Raise e
    end.

Definition lift {A : Type} (r : result A) : M A :=
  fun w =>
    match r with
    | Ok a => Ok (a, w)
    | Raise e => Raise e
    end.

Notation "x <~ m ;; k" := (mbind m (fun x => k))
  (at level 61, m at next level, right associativity).

Definition _get_json (url : string) : M json :=
  fun w =>
    match session_get url w with
    | (RequestException, _) =>
        Raise (NhlApiError
                 ("Network error while reaching NHL stats API. "
                  ++ "Check your internet connection or DNS and try again."))
    | (Response status_code body, w') =>
        if negb (response_ok status_code) then
          Raise (NhlApiError
                   ("Failed to fetch " ++ url ++ ": " ++ str_of_int status_code))
        else
          match body with
          | Ok data => Ok (data, w')
          | Raise e => Raise e
          end
    end.

Definition get_current_season_id : M json :=
  data <~ _get_json (SEASONS_API ++ "/current") ;;
  lift (seasons <- py_getitem data "seasons" ;;
        season <- py_getitem0 seasons ;;
        py_getitem season "seasonId").

Definition get_season_dates (season_id : json) : M json :=
  data <~ _get_json (SEASONS_API ++ "/" ++ py_str season_id) ;;
  lift (seasons <- py_getitem data "seasons" ;;
        season_info <- py_getitem0 seasons ;;
        season_start <- py_getitem season_info "regularSeasonStartDate" ;;
        season_end <- py_getitem season_info "regularSeasonEndDate" ;;
        Ok (JObj [("regularSeasonStart", season_start);
                  ("regularSeasonEnd", season_end)])).

Definition fetch_top_goal_scorers (season_id : json) (min_goals : Z)
  : M (list PlayerBaseline) :=
  let params :=
    "?isAggregate=false&isGame=false&reportName=skatersummary&cayenneExp=" in
  let params := params ++ "seasonId=" ++ py_str season_id ++ " and gameTypeId=2" in
  let url := SKATER_SUMMARY_API ++ params in
  data <~ _get_json url ;;
  lift (rows <- py_get data "data" (JArr []) ;;
        entries <- py_iter rows ;;
        top_scorers_loop entries min_goals).

Definition fetch_player_gamelog (player_id : Z) (season_id : json) : M json :=
  let params :=
    "?isAggregate=false&isGame=true&reportName=playergamelog"
    ++ "&cayenneExp=playerId=" ++ str_of_int player_id
    ++ " and seasonId=" ++ py_str season_id in
  let url := PLAYER_GAMELOG_API ++ params in
  data <~ _get_json url ;;
  lift (py_get data "data" (JArr [])).

Definition fetch_schedule_for_range (team_id : Z) (start end_ : date) : M json :=
  let url :=
    SCHEDULE_API ++ "?teamId=" ++ str_of_int team_id
    ++ "&startDate=" ++ isoformat start
    ++ "&endDate=" ++ isoformat end_ in
  data <~ _get_json url ;;
  lift (py_get data "dates" (JArr [])).

Definition fetch_schedule_for_day (target_date : date) : M json :=
  _get_json (SCHEDULE_API ++ "?date=" ++ isoformat target_date).

(** The body of the loop over [baselines] in [evaluate_due_players]:
    [None] where the source says [continue]. *)
Definition evaluate_player (today season_start : date)
           (current_season schedule_today : json) (player : PlayerBaseline)
  : M (option PlayerDueStatus) :=
  game_log <~ fetch_player_gamelog (player_id player) current_season ;;
  last_goal <~ lift (last_goal_date game_log) ;;
  match last_goal with
  | None => mret None
  | Some last_goal =>
      played_dates <~ lift (games_played_dates game_log) ;;
      team_schedule <~ fetch_schedule_for_range (team_id player) season_start today ;;
      schedule_dates <~ lift (_extract_schedule_dates team_schedule) ;;
      avg_days <~ lift (average_days_between_games
                          (list_or schedule_dates played_dates)) ;;
      if float_eq_int avg_days 0 then mret None
      else
        gpg <~ lift (goals_per_game player) ;;
        if float_eq_int gpg 0 then mret None
        else
          gpg <~ lift (goals_per_game player) ;;
          rate <~ lift (float_truediv float_one gpg) ;;
          let expected_days := float_mul rate avg_days in
          let days_since_goal := today - last_goal in
          if int_le_float days_since_goal expected_days then mret None
          else
            next_game <~ lift (_next_game_for_team schedule_today (team_id player)) ;;
            if negb (py_truthy next_game) then mret None
            else
              opponent <~ lift (py_getitem next_game "opponent") ;;
              start_time <~ lift (py_getitem next_game "startTime") ;;
              mret (Some {| player := player;
                            due_last_goal_date := last_goal;
                            days_since_last_goal := days_since_goal;
                            expected_days_between_goals := expected_days;
                            next_game_opponent := opponent;
                            next_game_start_time := start_time |})
  end.

(** The gates a player passes, in the order of the loop body, for the
    record [status] to be emitted. *)
Definition due_gates (today season_start : date)
           (current_season schedule_today : json) (scorer : PlayerBaseline)
           (w : W) (status : PlayerDueStatus) (w' : W) : Prop :=
  exists (game_log : json) (w1 : W) (last_goal : date) (played_dates : list date)
         (team_schedule : json) (schedule_dates : list date)
         (avg_days gpg rate : float) (next_game : json),
    fetch_player_gamelog (player_id scorer) current_season w = Ok (game_log, w1)
    /\ last_goal_date game_log = Ok (Some last_goal)
    /\ games_played_dates game_log = Ok played_dates
    /\ fetch_schedule_for_range (team_id scorer) season_start today w1
       = Ok (team_schedule, w')
    /\ _extract_schedule_dates team_schedule = Ok schedule_dates
    /\ average_days_between_games (list_or schedule_dates played_dates) = Ok avg_days
    /\ float_eq_int avg_days 0 = false
    /\ goals_per_game scorer = Ok gpg
    /\ float_eq_int gpg 0 = false
    /\ float_truediv float_one gpg = Ok rate
    /\ int_le_float (today - last_goal) (float_mul rate avg_days) = false
    /\ _next_game_for_team schedule_today (team_id scorer) = Ok next_game
    /\ py_truthy next_game = true
    /\ py_getitem next_game "opponent" = Ok (next_game_opponent status)
    /\ py_getitem next_game "startTime" = Ok (next_game_start_time status)
    /\ player status = scorer
    /\ due_last_goal_date status = last_goal
    /\ days_since_last_goal status = today - last_goal
    /\ expected_days_between_goals status = float_mul rate avg_days.

(** Every document the provider hands over has fewer than [2 ^ 50] nodes. *)
Definition responses_small : Prop :=
  forall url w status_code data w',
    session_get url w = (Response status_code (Ok data), w') ->
    Z.of_nat (json_size data) < 2 ^ 50.

Fixpoint due_players_loop (today season_start : date)
         (current_season schedule_today : json)
         (baselines : list PlayerBaseline) (due_players : list PlayerDueStatus)
  : M (list PlayerDueStatus) :=
  match baselines with
  | [] => mret due_players
  | player :: rest =>
      status <~ evaluate_player today season_start current_season
                                schedule_today player ;;
      due_players_loop today season_start current_season schedule_today rest
        (match status with
         | Some s => (due_players ++ [s])%list
         | None => due_players
         end)
  end.

Definition evaluate_due_players (today : option date) : M (list PlayerDueStatus) :=
  today <~ (match today with
            | Some d => mret d
            | None => fun w => Ok (date_today w)
            end) ;;
  current_season <~ get_current_season_id ;;
  previous_season <~ lift (get_previous_season_id current_season) ;;
  season_dates <~ get_season_dates current_season ;;
  season_start <~ lift (s <- py_getitem season_dates "regularSeasonStart" ;;
                         _parse_date s) ;;
  schedule_today <~ fetch_schedule_for_day today ;;
  teams_playing_today <~ lift (teams_playing_today_of schedule_today) ;;
  scorers <~ fetch_top_goal_scorers (JStr previous_season) DEFAULT_MIN_GOALS ;;
  let baselines :=
    filter (fun player => int_in_set (team_id player) teams_playing_today)
           scorers in
  due_players_loop today season_start current_season schedule_today baselines [].

End World.

Arguments mret {W A} a.
Arguments mbind {W A B} m k.
Arguments lift {W A} r.
Arguments _get_json {W} session_get url.
Arguments get_current_season_id {W} session_get.
Arguments get_season_dates {W} session_get season_id.
Arguments fetch_top_goal_scorers {W} session_get season_id min_goals.
Arguments fetch_player_gamelog {W} session_get player_id season_id.
Arguments fetch_schedule_for_range {W} session_get team_id start end_.
Arguments fetch_schedule_for_day {W} session_get target_date.
Arguments evaluate_player {W} session_get today season_start current_season
  schedule_today player.
Arguments due_gates {W} session_get today season_start current_season
  schedule_today scorer w status w'.
Arguments responses_small {W} session_get.
Arguments due_players_loop {W} session_get today season_start current_season
  schedule_today baselines due_players.
Arguments evaluate_due_players {W} session_get date_today today.

(** ** The report *)

Definition newline : string := String "010" EmptyString.

Definition format_row (entry : PlayerDueStatus) : string :=
  py_str (name (player entry)) ++ " | " ++ py_str (team_abbrev (player entry)) ++ " | "
  ++ str_of_int (days_since_last_goal entry) ++ " | "
  ++ format_1f (expected_days_between_goals entry) ++ " | "
  ++ py_str (next_game_opponent entry) ++ " | "
  ++ py_str (next_game_start_time entry).

Definition format_due_players (due_players : list PlayerDueStatus) : string :=
  match due_players with
  | [] => "No players are past due based on last season's scoring rate."
  | _ =>
      let lines :=
        ["Past due goal scorers with games today:";
         "Player | Team | Days Since Last Goal | Expected Days | Opponent | Game Time";
         "------ | ---- | -------------------- | ------------- | -------- | ---------"] in
      let lines :=
        fold_left (fun lines entry => (lines ++ [format_row entry])%list)
                  due_players lines in
      join newline lines
  end.

(** ** Predicates used to state the properties *)

(** The successive differences of a list, in the spec's words: each element
    minus the one before it. *)
Fixpoint gaps (l : list Z) : list Z :=
  match l with
  | a :: (b :: _) as rest => (b - a) :: gaps rest
  | _ => []
  end.

(** The floats [5.0] and [3.0]. *)
Definition float_5 : float := S754_finite false 5629499534213120 (-50).
Definition float_3 : float := S754_finite false 6755399441055744 (-51).

(** The range of [datetime.date]: the ordinals of [date.min] and [date.max]. *)
Definition valid_date (d : date) : Prop := 1 <= d <= 3652059.


(** A float that is a zero or a finite number within binary64's bounds. *)
Definition float_shape (x : float) : Prop :=
  match x with
  | S754_zero _ => True
  | S754_finite _ m e => Zpos (digits2_pos m) <= 53 /\ e <= 971
  | _ => False
  end.

(** A float that is not a NaN and whose sign bit is [sx]. *)
Definition float_sign_is (sx : bool) (x : float) : Prop :=
  match x with
  | S754_zero s | S754_infinity s | S754_finite s _ _ => s = sx
  | S754_nan => False
  end.

(** A game of the day's schedule has, on one side, a team whose identifier
    equals [team_id]. *)
Definition team_plays_in (schedule_today : json) (team_id : Z) : Prop :=
  exists (dates games teams side_entry team team_ident : json)
         (blocks game_list : list json) (date_block game : json) (side : string),
    py_get schedule_today "dates" (JArr []) = Ok dates
    /\ py_iter dates = Ok blocks /\ In date_block blocks
    /\ py_get date_block "games" (JArr []) = Ok games
    /\ py_iter games = Ok game_list /\ In game game_list
    /\ py_get game "teams" (JObj []) = Ok teams
    /\ In side ["home"; "away"]
    /\ py_get teams side (JObj []) = Ok side_entry
    /\ py_get_none side_entry "team" = Ok team
    /\ py_truthy team = true
    /\ py_get_none team "id" = Ok team_ident
    /\ py_eq_int team_ident team_id = true.

(** The number of line breaks of a text, and the decimal digits. *)
Fixpoint count_newlines (s : string) : nat :=
  match s with
  | EmptyString => 0
  | String c rest =>
      ((if Ascii.eqb c "010" then 1 else 0) + count_newlines rest)%nat
  end.

Definition is_digit (c : ascii) : bool :=
  match digit_of c with
  | Some _ => true
  | None => false
  end.

(** The month and the day of the [n]-th day of a year (counted from 0), as
    [_ord2ymd] finds them from the estimate [(n + 50) >> 5]. *)
Definition month_day (n : Z) (leapyear : bool) : Z * Z :=
  let month := Z.shiftr (n + 50) 5 in
  let preceding :=
    _DAYS_BEFORE_MONTH month + (if (2 <? month)%Z && leapyear then 1 else 0) in
  if (n <? preceding)%Z then
    let month := month - 1 in
    let preceding :=
      preceding - (_DAYS_IN_MONTH month
                   + (if (month =? 2)%Z && leapyear then 1 else 0)) in
    (month, n - preceding + 1)
  else (month, n - preceding + 1).

(** [f] holds of the [n] integers from [lo] on. *)
Fixpoint range_all (f : Z -> bool) (lo : Z) (n : nat) : bool :=
  match n with
  | O => true
  | S k => f lo && range_all f (lo + 1) k
  end.

(** [month_day] lands in the calendar: the month, the day within it, and
    the days before it add up to the day of the year. *)
Definition month_day_ok (leapyear : bool) (n : Z) : bool :=
  let '(m, dd) := month_day n leapyear in
  (1 <=? m)%Z && (m <=? 12)%Z && (1 <=? dd)%Z
  && (dd <=? _DAYS_IN_MONTH m + (if (m =? 2)%Z && leapyear then 1 else 0))%Z
  && (_DAYS_BEFORE_MONTH m + (if (2 <? m)%Z && leapyear then 1 else 0) + dd
      =? n + 1)%Z.

(** The year as [isoformat] writes it is four digits that read back as the
    year; the month and the day it writes are read back by [strptime]. *)
Definition year_text_ok (y : Z) : bool :=
  match zero_pad 4 (str_of_int y) with
  | String y1 (String y2 (String y3 (String y4 EmptyString))) =>
      match digit_of y1, digit_of y2, digit_of y3, digit_of y4 with
      | Some a, Some b, Some c, Some e => (a * 1000 + b * 100 + c * 10 + e =? y)%Z
      | _, _, _, _ => false
      end
  | _ => false
  end.

Definition month_day_text_ok (m dd : Z) : bool :=
  match parse_month (zero_pad 2 (str_of_int m) ++ "-" ++ zero_pad 2 (str_of_int dd)) with
  | Some (m', rest) =>
      (m' =? m)%Z
      && match parse_day rest with
         | Some d' => (d' =? dd)%Z
         | None => false
         end
  | None => false
  end.

(** The dates a schedule block contributes: none, or one. *)
Definition option_list {A : Type} (o : option A) : list A :=
  match o with
  | Some a => [a]
  | None => []
  end.

(** The team on [side] of [game] is present and its identifier equals
    [team_id]. *)
Definition side_has_team (game : json) (side : string) (team_id : Z) : Prop :=
  exists teams side_entry team team_ident : json,
    py_get game "teams" (JObj []) = Ok teams
    /\ py_get teams side (JObj []) = Ok side_entry
    /\ py_get_none side_entry "team" = Ok team
    /\ py_truthy team = true
    /\ py_get_none team "id" = Ok team_ident
    /\ py_eq_int team_ident team_id = true.

(** A game of the day's schedule has [team_id] on one side; [opponent] is
    the name of the team on the other side and [start_time] the game's
    date, each read with its default. *)
Definition game_of_team (schedule_today : json) (team_id : Z)
           (opponent start_time : json) : Prop :=
  exists (dates games teams opponent_entry opponent_team : json)
         (blocks game_list : list json) (date_block game : json)
         (side opponent_side : string),
    py_get schedule_today "dates" (JArr []) = Ok dates
    /\ py_iter dates = Ok blocks /\ In date_block blocks
    /\ py_get date_block "games" (JArr []) = Ok games
    /\ py_iter games = Ok game_list /\ In game game_list
    /\ ((side = "home" /\ opponent_side = "away")
        \/ (side = "away" /\ opponent_side = "home"))
    /\ side_has_team game side team_id
    /\ py_get game "teams" (JObj []) = Ok teams
    /\ py_get teams opponent_side (JObj []) = Ok opponent_entry
    /\ py_get opponent_entry "team" (JObj []) = Ok opponent_team
    /\ py_get opponent_team "name" (JStr "") = Ok opponent
    /\ py_get game "gameDate" (JStr "") = Ok start_time.

(** [l] is [l'] with some elements left out, the order kept. *)
Inductive subsequence {A : Type} : list A -> list A -> Prop :=
| subsequence_nil : subsequence [] []
| subsequence_skip (x : A) (l l' : list A) :
    subsequence l l' -> subsequence l (x :: l')
| subsequence_keep (x : A) (l l' : list A) :
    subsequence l l' -> subsequence (x :: l) (x :: l').

(** A date of the calendar. *)
Definition calendar_date (y m dd : Z) : Prop :=
  1 <= y <= 9999 /\ 1 <= m <= 12 /\ 1 <= dd <= _days_in_month y m.

(** The texts that the format [%Y-%m-%d] reads as the month [m] and as the
    day [dd]: the decimal text, with or without a zero before a single
    digit, and for a single-digit day also after a space. *)
Definition month_spellings (m : Z) : list string :=
  [str_of_int m; zero_pad 2 (str_of_int m)].

Definition day_spellings (dd : Z) : list string :=
  str_of_int dd :: zero_pad 2 (str_of_int dd)
  :: (if (dd <=? 9)%Z then [String " " (str_of_int dd)] else []).

(** A text of the format for the year [y], written in four digits, the
    month [m] and the day [dd]. *)
Definition date_text (y m dd : Z) (s : string) : Prop :=
  exists mt dt : string,
    In mt (month_spellings m) /\ In dt (day_spellings dd)
    /\ s = zero_pad 4 (str_of_int y) ++ "-" ++ mt ++ "-" ++ dt.

(** Every spelling of the month [m] and the day [dd] is read back. *)
Definition spellings_ok (m dd : Z) : bool :=
  forallb (fun mt =>
             forallb (fun dt =>
                        match parse_month (mt ++ "-" ++ dt) with
                        | Some (m', rest) =>
                            (m' =? m)%Z
                            && match parse_day rest with
                               | Some d' => (d' =? dd)%Z
                               | None => false
                               end
                        | None => false
                        end)
                     (day_spellings dd))
          (month_spellings m).

(** ** A provider for worked scenarios

    One team pair plays on the evaluation date; Toronto has played every
    third day; the world has no state and answers by the resource asked. *)

Definition scenario_team (id : Z) (team_name : string) : json :=
  JObj [("team", JObj [("id", JInt id); ("name", JStr team_name)])].

Definition scenario_seasons : json :=
  JObj [("seasons",
         JArr [JObj [("seasonId", JStr "20232024");
                     ("regularSeasonStartDate", JStr "2023-10-10");
                     ("regularSeasonEndDate", JStr "2024-04-18")]])].

Definition scenario_schedule_today : json :=
  JObj [("dates",
         JArr [JObj [("date", JStr "2024-01-20");
                     ("games",
                      JArr [JObj [("gameDate", JStr "2024-01-20T19:00:00Z");
                                  ("teams",
                                   JObj [("home", scenario_team 10 "Toronto");
                                         ("away", scenario_team 6 "Boston")])]])]])].

Definition scenario_team_schedule : json :=
  JObj [("dates",
         JArr [JObj [("date", JStr "2024-01-01")];
               JObj [("date", JStr "2024-01-04")];
               JObj [("date", JStr "2024-01-07")]])].

(** A scorer of Toronto with [goals] goals in [games] games last season. *)
Definition scenario_skaters (scorer_goals games : Z) : json :=
  JObj [("data",
         JArr [JObj [("playerId", JInt 8478402); ("playerName", JStr "A B");
                     ("teamId", JInt 10); ("teamAbbrevs", JStr "TOR");
                     ("goals", JInt scorer_goals); ("gamesPlayed", JInt games)]])].

(** A game log with one goal, scored on [goal_day]. *)
Definition scenario_gamelog (goal_day : string) : json :=
  JObj [("data",
         JArr [JObj [("gameDate", JStr goal_day); ("goals", JInt 1)];
               JObj [("gameDate", JStr "2024-01-13"); ("goals", JInt 0)]])].

(** Goals 0, 0, 2, 0, 3 on five successive game dates. *)
Definition scenario_five_games : json :=
  JArr [JObj [("gameDate", JStr "2024-01-01"); ("goals", JInt 0)];
        JObj [("gameDate", JStr "2024-01-03"); ("goals", JInt 0)];
        JObj [("gameDate", JStr "2024-01-05"); ("goals", JInt 2)];
        JObj [("gameDate", JStr "2024-01-07"); ("goals", JInt 0)];
        JObj [("gameDate", JStr "2024-01-09"); ("goals", JInt 3)]].


Definition scenario_gamelog_undated : json :=
  JObj [("data", JArr [JObj [("goals", JInt 1)]])].

Definition scenario_get (skaters gamelog : json) (url : string) (w : unit)
  : http_outcome * unit :=
  (if String.prefix SEASONS_API url then Response 200 (Ok scenario_seasons)
   else if String.prefix SKATER_SUMMARY_API url then Response 200 (Ok skaters)
   else if String.prefix PLAYER_GAMELOG_API url then Response 200 (Ok gamelog)
   else if String.prefix (SCHEDULE_API ++ "?date=") url
        then Response 200 (Ok scenario_schedule_today)
   else Response 200 (Ok scenario_team_schedule),
   tt).

(** The clock of the scenarios reads 2024-01-20. *)
Definition scenario_clock (w : unit) : date * unit := (738905, tt).

(** The scorer of the scenarios, as the records carry it. *)
Definition scenario_scorer (games : Z) : PlayerBaseline :=
  {| player_id := 8478402; name := JStr "A B"; team_id := 10;
     team_abbrev := JStr "TOR"; goals := 40; games_played := games |}.

Definition scenario_status (games days : Z) (expected : float) : PlayerDueStatus :=
  {| player := scenario_scorer games;
     due_last_goal_date := 738905 - days;
     days_since_last_goal := days;
     expected_days_between_goals := expected;
     next_game_opponent := JStr "Boston";
     next_game_start_time := JStr "2024-01-20T19:00:00Z" |}.

(** Three schedule blocks, the second one without its date, and the fields
    of a block whose date is not in the calendar. *)
Definition scenario_blocks : list json :=
  [JObj [("date", JStr "2024-01-01")];
   JObj [("games", JArr [])];
   JObj [("date", JStr "2024-01-04")]].

Definition scenario_bad_block : list (string * json) :=
  [("date", JStr "2024-02-30")].

(** What [_next_game_for_team] finds for Toronto in the day's schedule. *)
Definition scenario_next_game : json :=
  JObj [("opponent", JStr "Boston"); ("startTime", JStr "2024-01-20T19:00:00Z")].

(** The entries of a skater summary: a scorer of 45 goals, and two entries
    below the threshold that carry nothing else. *)
Definition scenario_skater_entries : list json :=
  [JObj [("playerId", JInt 8478402); ("playerName", JStr "A B");
         ("teamId", JInt 10); ("teamAbbrevs", JStr "TOR");
         ("goals", JInt 45); ("gamesPlayed", JInt 80)];
   JObj [("goals", JInt 39)];
   JObj [("playerName", JStr "C D")]].

(** A provider that answers every request with the status 503, and one
    that cannot be reached. *)
Definition scenario_unavailable (url : string) (w : unit) : http_outcome * unit :=
  (Response 503 (Ok JNull), tt).

Definition scenario_offline (url : string) (w : unit) : http_outcome * unit :=
  (RequestException, tt).


(** * Properties *)

Local Close Scope string_scope.

(** ** Binary64 rounding *)

Lemma digits2_pos_size (p : positive) : digits2_pos p = Pos.size p.
Proof. induction p; simpl; congruence. Qed.

Lemma digits_bounds (p : positive) :
  2 ^ (Zpos (digits2_pos p) - 1) <= Zpos p < 2 ^ Zpos (digits2_pos p).
Proof.
  rewrite digits2_pos_size. split.
  - pose proof (Pos.size_le p) as H.
    assert (Hs : Zpos (Pos.size p) = Z.succ (Zpos (Pos.size p) - 1)) by lia.
    assert (2 ^ Zpos (Pos.size p) <= 2 * Zpos p).
    { change (2 * Zpos p) with (Zpos p~0). rewrite <- Pos2Z.inj_pow. 
      apply Pos2Z.pos_le_pos. exact H. }
    rewrite Hs in H0. rewrite Z.pow_succ_r in H0 by lia. lia.
  - pose proof (Pos.size_gt p) as H. rewrite <- Pos2Z.inj_pow. apply Pos2Z.pos_lt_pos. exact H.
Qed.

Lemma digits_unique (p : positive) (d : Z) :
  2 ^ (d - 1) <= Zpos p < 2 ^ d -> Zpos (digits2_pos p) = d.
Proof.
  intros [Hlo Hhi]. pose proof (digits_bounds p) as [Blo Bhi].
  assert (0 < d).
  { destruct (Z_lt_le_dec 0 d); auto. 
    assert (2 ^ d <= 2 ^ 0) by (destruct (Z_lt_le_dec d 0); [rewrite Z.pow_neg_r by lia; simpl; lia| apply Z.pow_le_mono_r; lia]).
    simpl in *. lia. }
  destruct (Z_lt_le_dec (Zpos (digits2_pos p)) d) as [Hlt|Hge].
  - assert (2 ^ Zpos (digits2_pos p) <= 2 ^ (d - 1)) by (apply Z.pow_le_mono_r; lia). lia.
  - destruct (Z_lt_le_dec d (Zpos (digits2_pos p))) as [Hlt|Hge'].
    + assert (2 ^ d <= 2 ^ (Zpos (digits2_pos p) - 1)) by (apply Z.pow_le_mono_r; lia). lia.
    + lia.
Qed.

Lemma shr_1_m (r : shr_record) :
  0 <= shr_m r -> shr_m (shr_1 r) = shr_m r / 2.
Proof.
  destruct r as [m r s]; simpl. intros H.
  destruct m as [|p|p]; try lia.
  - reflexivity.
  - destruct p; simpl.
    + rewrite Pos2Z.inj_xI. apply Z.div_unique with 1; lia.
    + rewrite Pos2Z.inj_xO. apply Z.div_unique with 0; lia.
    + reflexivity.
Qed.

Lemma shr_1_nonneg (r : shr_record) : 0 <= shr_m r -> 0 <= shr_m (shr_1 r).
Proof. intros H. rewrite shr_1_m by assumption. apply Z.div_pos; lia. Qed.

Lemma iter_pos_shr_m (p : positive) : forall r : shr_record,
  0 <= shr_m r -> shr_m (iter_pos shr_1 p r) = shr_m r / 2 ^ Zpos p.
Proof.
  induction p as [p IH|p IH|]; intros r Hr; simpl iter_pos.
  - assert (H1 : 0 <= shr_m (shr_1 r)) by (apply shr_1_nonneg; assumption).
    assert (H2 : 0 <= shr_m (iter_pos shr_1 p (shr_1 r))).
    { rewrite IH by assumption. apply Z.div_pos; lia. }
    rewrite IH by assumption. rewrite IH by assumption. rewrite shr_1_m by assumption.
    assert (Hp : 0 < 2 ^ Z.pos p) by (apply Z.pow_pos_nonneg; lia).
    rewrite !Z.div_div by lia. f_equal.
    replace (Z.pos p~1) with (1 + Z.pos p + Z.pos p) by lia.
    rewrite !Z.pow_add_r by lia. change (2 ^ 1) with 2. ring.
  - assert (H2 : 0 <= shr_m (iter_pos shr_1 p r)).
    { rewrite IH by assumption. apply Z.div_pos; lia. }
    rewrite IH by assumption. rewrite IH by assumption.
    assert (Hp : 0 < 2 ^ Z.pos p) by (apply Z.pow_pos_nonneg; lia).
    rewrite !Z.div_div by lia. f_equal.
    replace (Z.pos p~0) with (Z.pos p + Z.pos p) by lia.
    rewrite !Z.pow_add_r by lia. ring.
  - rewrite shr_1_m by assumption. reflexivity.
Qed.

Lemma fexp64 (e : Z) : fexp prec emax e = Z.max (e - 53) (-1074).
Proof. reflexivity. Qed.

Lemma Zdigits2_bounds (m : Z) :
  0 < m -> 2 ^ (Zdigits2 m - 1) <= m < 2 ^ Zdigits2 m.
Proof. destruct m; try lia. intros _. apply digits_bounds. Qed.

Lemma Zdigits2_unique (m d : Z) :
  0 < m -> 2 ^ (d - 1) <= m < 2 ^ d -> Zdigits2 m = d.
Proof. destruct m; try lia. intros _. apply digits_unique. Qed.

Lemma Zdigits2_pos (m : Z) : 0 < m -> 0 < Zdigits2 m.
Proof. destruct m; simpl; lia. Qed.

Lemma shr_record_of_loc_m (m : Z) (l : location) : shr_m (shr_record_of_loc m l) = m.
Proof. destruct l as [|[]]; reflexivity. Qed.

Lemma shr_fexp_spec (mx ex : Z) (lx : location) :
  0 <= mx ->
  let n := Z.max 0 (fexp prec emax (Zdigits2 mx + ex) - ex) in
  shr_m (fst (shr_fexp prec emax mx ex lx)) = mx / 2 ^ n
  /\ snd (shr_fexp prec emax mx ex lx) = ex + n.
Proof.
  intros Hm n. unfold shr_fexp, shr. subst n.
  destruct (fexp prec emax (Zdigits2 mx + ex) - ex) as [|p|p] eqn:E; simpl fst; simpl snd.
  - rewrite shr_record_of_loc_m. simpl. rewrite Z.div_1_r. lia.
  - rewrite iter_pos_shr_m by (rewrite shr_record_of_loc_m; assumption).
    rewrite shr_record_of_loc_m. rewrite Z.max_r by lia. split; reflexivity.
  - rewrite shr_record_of_loc_m. rewrite Z.max_l by lia. simpl. rewrite Z.div_1_r. lia.
Qed.

Lemma round_nearest_even_bounds (m : Z) (l : location) :
  m <= round_nearest_even m l <= m + 1.
Proof.
  destruct l as [|[]]; simpl; try lia. destruct (Z.even m); lia.
Qed.

(** The shape of every rounded result: a final mantissa and exponent, reached
    by a truncation, a rounding step of at most one unit, and a second
    truncation. *)
Lemma binary_round_aux_struct (sx : bool) (mx ex : Z) (lx : location) :
  0 <= mx ->
  exists mr m1 e1,
    let n := Z.max 0 (fexp prec emax (Zdigits2 mx + ex) - ex) in
    let n2 := Z.max 0 (fexp prec emax (Zdigits2 mr + (ex + n)) - (ex + n)) in
    mx / 2 ^ n <= mr <= mx / 2 ^ n + 1
    /\ m1 = mr / 2 ^ n2 /\ e1 = ex + n + n2
    /\ binary_round_aux prec emax sx mx ex lx =
       match m1 with
       | Z0 => S754_zero sx
       | Zpos m => if (e1 <=? emax - prec)%Z then S754_finite sx m e1
                   else S754_infinity sx
       | Zneg _ => S754_nan
       end.
Proof.
  intros Hm. unfold binary_round_aux.
  pose proof (shr_fexp_spec mx ex lx Hm) as [H1 H2].
  destruct (shr_fexp prec emax mx ex lx) as [mrs' e'] eqn:E1. simpl in H1, H2.
  set (mr := round_nearest_even (shr_m mrs') (loc_of_shr_record mrs')).
  assert (Hmr : shr_m mrs' <= mr <= shr_m mrs' + 1) by apply round_nearest_even_bounds.
  assert (Hpos : 0 <= mx / 2 ^ Z.max 0 (fexp prec emax (Zdigits2 mx + ex) - ex)).
  { apply Z.div_pos; [assumption | apply Z.pow_pos_nonneg; lia]. }
  assert (Hmr0 : 0 <= mr) by lia.
  pose proof (shr_fexp_spec mr e' loc_Exact Hmr0) as [H3 H4].
  destruct (shr_fexp prec emax mr e' loc_Exact) as [mrs'' e''] eqn:E2. simpl in H3, H4.
  exists mr, (shr_m mrs''), e''. cbv zeta. subst e'.
  repeat split; try lia; try assumption.
Qed.

Lemma binary_round_aux_sign (sx : bool) (mx ex : Z) (lx : location) :
  0 <= mx -> float_sign_is sx (binary_round_aux prec emax sx mx ex lx).
Proof.
  intros Hm. destruct (binary_round_aux_struct sx mx ex lx Hm)
    as (mr & m1 & e1 & Hmr & Hm1 & He1 & ->).
  cbv zeta in *.
  assert (0 <= m1).
  { subst m1. apply Z.div_pos; [|apply Z.pow_pos_nonneg; lia].
    assert (0 <= mx / 2 ^ Z.max 0 (fexp prec emax (Zdigits2 mx + ex) - ex))
      by (apply Z.div_pos; [assumption | apply Z.pow_pos_nonneg; lia]).
    lia. }
  destruct m1 as [|p|p]; [reflexivity | | lia].
  destruct (e1 <=? emax - prec); reflexivity.
Qed.

Lemma div_pow2_bounds (m d n : Z) :
  0 <= n <= d - 1 -> 2 ^ (d - 1) <= m < 2 ^ d ->
  2 ^ (d - 1 - n) <= m / 2 ^ n < 2 ^ (d - n).
Proof.
  intros Hn [Hlo Hhi].
  assert (Hp : 0 < 2 ^ n) by (apply Z.pow_pos_nonneg; lia).
  split.
  - apply Z.div_le_lower_bound; [assumption|].
    rewrite <- Z.pow_add_r by lia. replace (n + (d - 1 - n)) with (d - 1) by lia.
    assumption.
  - apply Z.div_lt_upper_bound; [assumption|].
    rewrite <- Z.pow_add_r by lia. replace (n + (d - n)) with d by lia.
    assumption.
Qed.

(** Rounding a positive mantissa whose magnitude [Zdigits2 mx + ex] is above
    the subnormal threshold never gives zero: the result is finite or
    infinite, of the given sign, its magnitude is that of the input or one
    more, and its mantissa has at most 53 bits. *)
Lemma binary_round_aux_mag (sx : bool) (mx ex : Z) (lx : location) :
  0 < mx -> -1074 < Zdigits2 mx + ex ->
  exists m e,
    binary_round_aux prec emax sx mx ex lx =
      (if (e <=? 971)%Z then S754_finite sx m e else S754_infinity sx)
    /\ Zdigits2 mx + ex <= Zpos (digits2_pos m) + e <= Zdigits2 mx + ex + 1
    /\ Zpos (digits2_pos m) <= 53
    /\ e <= Z.max ex (Z.max (Zdigits2 mx + ex - 52) (-1074)).
Proof.
  intros Hm Hmag.
  destruct (binary_round_aux_struct sx mx ex lx) as (mr & m1 & e1 & H); [lia|].
  cbv zeta in H. rewrite !fexp64 in H.
  destruct H as (Hmr & Hm1 & He1 & ->).
  set (d := Zdigits2 mx) in *.
  assert (Hd : 0 < d) by (apply Zdigits2_pos; assumption).
  pose proof (Zdigits2_bounds mx Hm) as Hb. fold d in Hb.
  set (n := Z.max 0 (Z.max (d + ex - 53) (-1074) - ex)) in *.
  assert (Hn : 0 <= n <= d - 1) by lia.
  pose proof (div_pow2_bounds mx d n Hn Hb) as Hb'.
  set (m' := mx / 2 ^ n) in *.
  assert (Hpd : 0 < 2 ^ (d - 1 - n)) by (apply Z.pow_pos_nonneg; lia).
  assert (Hmr0 : 0 < mr) by lia.
  assert (Hsucc : 2 ^ (d - n) = 2 * 2 ^ (d - 1 - n)).
  { rewrite <- Z.pow_succ_r by lia. f_equal. lia. }
  destruct (Z_lt_le_dec mr (2 ^ (d - n))) as [Hlt | Hge].
  - (* no carry: the rounded mantissa keeps its number of digits *)
    assert (Hdr : Zdigits2 mr = d - n).
    { apply Zdigits2_unique; [assumption|]. replace (d - n - 1) with (d - 1 - n) by lia. lia. }
    rewrite Hdr in Hm1, He1.
    assert (Hn2 : Z.max 0 (Z.max (d - n + (ex + n) - 53) (-1074) - (ex + n)) = 0) by lia.
    rewrite Hn2 in Hm1, He1. simpl in Hm1. rewrite Z.div_1_r in Hm1. subst m1.
    destruct mr as [|p|p]; try lia.
    exists p, e1. change (emax - prec) with 971.
    split; [reflexivity|]. simpl in Hdr. lia.
  - (* carry: the rounded mantissa is a power of two *)
    assert (Hmr' : mr = 2 ^ (d - n)) by lia.
    assert (Hdr : Zdigits2 mr = d - n + 1).
    { apply Zdigits2_unique; [assumption|]. replace (d - n + 1 - 1) with (d - n) by lia.
      split; [lia|]. rewrite Hmr'. apply Z.pow_lt_mono_r; lia. }
    rewrite Hdr in Hm1, He1.
    set (n2 := Z.max 0 (Z.max (d - n + 1 + (ex + n) - 53) (-1074) - (ex + n))) in *.
    assert (Hn2 : n2 = 0 \/ n2 = 1) by lia.
    destruct Hn2 as [Hn2 | Hn2]; rewrite Hn2 in Hm1, He1.
    + simpl in Hm1. rewrite Z.div_1_r in Hm1. subst m1.
      destruct mr as [|p|p]; try lia.
      exists p, e1. change (emax - prec) with 971.
      split; [reflexivity|]. simpl in Hdr. lia.
    + assert (Hm1' : m1 = 2 ^ (d - 1 - n)).
      { rewrite Hm1, Hmr', Hsucc. change (2 ^ 1) with 2.
        rewrite Z.mul_comm. apply Z.div_mul. lia. }
      assert (Hd1 : Zdigits2 m1 = d - n).
      { apply Zdigits2_unique; [lia|]. replace (d - n - 1) with (d - 1 - n) by lia.
        rewrite Hm1'. lia. }
      destruct m1 as [|p|p]; try lia.
      exists p, e1. change (emax - prec) with 971.
      split; [reflexivity|]. simpl in Hd1. lia.
Qed.

Lemma SFdiv_core_nonneg (m1 m2 : positive) (e1 e2 : Z) :
  0 <= fst (fst (SFdiv_core_binary prec emax (Zpos m1) e1 (Zpos m2) e2)).
Proof.
  unfold SFdiv_core_binary.
  set (s := e1 - e2 - _).
  set (m' := match s with Z0 => Zpos m1 | Zpos _ => Z.shiftl (Zpos m1) s | Zneg _ => 0 end).
  assert (Hm' : 0 <= m').
  { subst m'. destruct s; try lia. apply Z.shiftl_nonneg. lia. }
  pose proof (Z_div_mod m' (Zpos m2) eq_refl) as H.
  destruct (Z.div_eucl m' (Zpos m2)) as [q r]. simpl. nia.
Qed.

Lemma SFdiv_core_mag (m1 m2 : positive) (e1 e2 : Z) :
  let M := Zpos (digits2_pos m1) + e1 - (Zpos (digits2_pos m2) + e2) in
  -1074 < M ->
  exists q e' l,
    SFdiv_core_binary prec emax (Zpos m1) e1 (Zpos m2) e2 = (q, e', l)
    /\ 0 < q /\ M <= Zdigits2 q + e' <= M + 1
    /\ e' <= Z.max (M - 53) (-1074).
Proof.
  intros M HM. unfold SFdiv_core_binary.
  change (Zdigits2 (Zpos m1)) with (Zpos (digits2_pos m1)).
  change (Zdigits2 (Zpos m2)) with (Zpos (digits2_pos m2)).
  fold M. rewrite fexp64.
  set (e' := Z.min (Z.max (M - 53) (-1074)) (e1 - e2)).
  set (s := e1 - e2 - e').
  set (d1 := Zpos (digits2_pos m1)) in *. set (d2 := Zpos (digits2_pos m2)) in *.
  pose proof (digits_bounds m1) as B1. pose proof (digits_bounds m2) as B2.
  fold d1 in B1. fold d2 in B2.
  assert (Hs : 0 <= s) by lia.
  set (m' := match s with Z0 => Zpos m1 | Zpos _ => Z.shiftl (Zpos m1) s | Zneg _ => 0 end).
  assert (Hm' : m' = Zpos m1 * 2 ^ s).
  { subst m'. destruct s as [|p|p]; [simpl; lia | apply Z.shiftl_mul_pow2; lia | lia]. }
  pose proof (Z_div_mod m' (Zpos m2) eq_refl) as Hdiv.
  destruct (Z.div_eucl m' (Zpos m2)) as [q r] eqn:E.
  set (D := d1 + s - d2).
  assert (HD : 1 <= D) by lia.
  assert (Hps : 0 < 2 ^ s) by (apply Z.pow_pos_nonneg; lia).
  assert (Hlo : 2 ^ (d1 - 1 + s) <= m').
  { rewrite Hm', Z.pow_add_r by lia. apply Z.mul_le_mono_nonneg_r; lia. }
  assert (Hhi : m' < 2 ^ (d1 + s)).
  { rewrite Hm', Z.pow_add_r by lia. apply Z.mul_lt_mono_pos_r; lia. }
  assert (E1 : 2 ^ (d1 - 1 + s) = 2 ^ d2 * 2 ^ (D - 1)).
  { rewrite <- Z.pow_add_r by lia. f_equal. lia. }
  assert (E2 : 2 ^ (d1 + s) = 2 ^ (d2 - 1) * 2 ^ (D + 1)).
  { rewrite <- Z.pow_add_r by lia. f_equal. lia. }
  assert (HpD : 0 < 2 ^ (D - 1)) by (apply Z.pow_pos_nonneg; lia).
  assert (HpD1 : 0 < 2 ^ (D + 1)) by (apply Z.pow_pos_nonneg; lia).
  assert (Hq : q = m' / Zpos m2).
  { apply Z.div_unique with r; lia. }
  assert (Hqlo : 2 ^ (D - 1) <= q).
  { rewrite Hq. apply Z.div_le_lower_bound; [lia|]. nia. }
  assert (Hqhi : q < 2 ^ (D + 1)).
  { rewrite Hq. apply Z.div_lt_upper_bound; [lia|]. nia. }
  exists q, e', (new_location (Zpos m2) r). split; [reflexivity|].
  split; [lia|]. split; [|lia].
  destruct (Z_lt_le_dec q (2 ^ D)) as [Hlt | Hge].
  - assert (Zdigits2 q = D) as -> by (apply Zdigits2_unique; lia). lia.
  - assert (Zdigits2 q = D + 1) as ->.
    { apply Zdigits2_unique; [lia|]. replace (D + 1 - 1) with D by lia. lia. }
    lia.
Qed.

Lemma SFdiv_finite_sign (s1 s2 : bool) (m1 m2 : positive) (e1 e2 : Z) :
  float_sign_is (xorb s1 s2)
    (SFdiv prec emax (S754_finite s1 m1 e1) (S754_finite s2 m2 e2)).
Proof.
  unfold SFdiv. pose proof (SFdiv_core_nonneg m1 m2 e1 e2) as H.
  destruct (SFdiv_core_binary prec emax (Zpos m1) e1 (Zpos m2) e2) as [[mz ez] lz].
  apply binary_round_aux_sign. exact H.
Qed.

Lemma SFdiv_finite_mag (s1 s2 : bool) (m1 m2 : positive) (e1 e2 : Z) :
  let M := Zpos (digits2_pos m1) + e1 - (Zpos (digits2_pos m2) + e2) in
  -1074 < M ->
  exists m e,
    SFdiv prec emax (S754_finite s1 m1 e1) (S754_finite s2 m2 e2) =
      (if (e <=? 971)%Z then S754_finite (xorb s1 s2) m e
       else S754_infinity (xorb s1 s2))
    /\ M <= Zpos (digits2_pos m) + e <= M + 2
    /\ Zpos (digits2_pos m) <= 53
    /\ e <= Z.max (M - 51) (-1074).
Proof.
  intros M HM. unfold SFdiv.
  destruct (SFdiv_core_mag m1 m2 e1 e2 HM) as (q & e' & l & -> & Hq & Hmag & He').
  fold M in Hmag, He'.
  destruct (binary_round_aux_mag (xorb s1 s2) q e' l Hq) as (m & e & -> & H1 & H2 & H3);
    [lia|].
  exists m, e. split; [reflexivity|]. lia.
Qed.

Lemma Zdigits2_le (a k : Z) : 0 < a -> 0 <= k -> a < 2 ^ k -> Zdigits2 a <= k.
Proof.
  intros Ha Hk Hlt. pose proof (Zdigits2_bounds a Ha) as [Hlo _].
  pose proof (Zdigits2_pos a Ha).
  destruct (Z_lt_le_dec k (Zdigits2 a)) as [Hc|]; [|lia].
  assert (2 ^ k <= 2 ^ (Zdigits2 a - 1)) by (apply Z.pow_le_mono_r; lia). lia.
Qed.

Lemma Zdigits2_shift_le (m n : Z) :
  0 <= m -> 0 <= n -> Zdigits2 (m / 2 ^ n) <= Z.max 0 (Zdigits2 m - n).
Proof.
  intros Hm Hn.
  assert (Hp : 0 < 2 ^ n) by (apply Z.pow_pos_nonneg; lia).
  destruct (Z.eq_dec m 0) as [->|Hm0].
  { rewrite Z.div_0_l by lia. simpl. lia. }
  assert (Hm' : 0 < m) by lia.
  pose proof (Zdigits2_bounds m Hm') as [Hlo Hhi].
  pose proof (Zdigits2_pos m Hm') as Hd.
  destruct (Z_lt_le_dec n (Zdigits2 m)) as [Hlt | Hge].
  - assert (H : 2 ^ (Zdigits2 m - 1 - n) <= m / 2 ^ n < 2 ^ (Zdigits2 m - n))
      by (apply div_pow2_bounds; lia).
    assert (0 < 2 ^ (Zdigits2 m - 1 - n)) by (apply Z.pow_pos_nonneg; lia).
    rewrite (Zdigits2_unique (m / 2 ^ n) (Zdigits2 m - n)); [lia | lia |].
    replace (Zdigits2 m - n - 1) with (Zdigits2 m - 1 - n) by lia. exact H.
  - assert (2 ^ Zdigits2 m <= 2 ^ n) by (apply Z.pow_le_mono_r; lia).
    rewrite Z.div_small by lia. simpl. lia.
Qed.

Lemma binary_round_aux_bounded (sx s : bool) (mx ex : Z) (lx : location)
      (m : positive) (e : Z) :
  0 <= mx ->
  binary_round_aux prec emax sx mx ex lx = S754_finite s m e ->
  s = sx /\ Zpos (digits2_pos m) <= 53 /\ e <= 971.
Proof.
  intros Hm.
  destruct (binary_round_aux_struct sx mx ex lx Hm) as (mr & m1 & e1 & H).
  cbv zeta in H. destruct H as (Hmr & Hm1 & He1 & ->).
  assert (Hmr0 : 0 <= mr).
  { assert (0 <= mx / 2 ^ Z.max 0 (fexp prec emax (Zdigits2 mx + ex) - ex))
      by (apply Z.div_pos; [assumption | apply Z.pow_pos_nonneg; lia]).
    lia. }
  set (e' := ex + Z.max 0 (fexp prec emax (Zdigits2 mx + ex) - ex)) in *.
  set (n2 := Z.max 0 (fexp prec emax (Zdigits2 mr + e') - e')) in *.
  pose proof (Zdigits2_shift_le mr n2 Hmr0 ltac:(lia)) as Hdig.
  rewrite <- Hm1 in Hdig. subst n2. rewrite fexp64 in Hdig.
  destruct m1 as [|p|p]; try discriminate.
  change (emax - prec) with 971.
  destruct (e1 <=? 971) eqn:E; try discriminate.
  intros [= <- <- <-]. apply Z.leb_le in E.
  change (Zdigits2 (Zpos p)) with (Zpos (digits2_pos p)) in Hdig.
  clearbody e'. split; [reflexivity | lia].
Qed.

Lemma SFdiv_finite_bounded (s1 s2 s : bool) (m1 m2 m : positive) (e1 e2 e : Z) :
  SFdiv prec emax (S754_finite s1 m1 e1) (S754_finite s2 m2 e2) = S754_finite s m e ->
  s = xorb s1 s2 /\ Zpos (digits2_pos m) <= 53 /\ e <= 971.
Proof.
  unfold SFdiv. pose proof (SFdiv_core_nonneg m1 m2 e1 e2) as H.
  destruct (SFdiv_core_binary prec emax (Zpos m1) e1 (Zpos m2) e2) as [[mz ez] lz].
  apply binary_round_aux_bounded. exact H.
Qed.

Lemma Zdigits2_mul_lower (a b : Z) :
  0 < a -> 0 < b -> Zdigits2 a + Zdigits2 b - 1 <= Zdigits2 (a * b).
Proof.
  intros Ha Hb.
  pose proof (Zdigits2_bounds a Ha) as [La _]. pose proof (Zdigits2_bounds b Hb) as [Lb _].
  pose proof (Zdigits2_pos a Ha). pose proof (Zdigits2_pos b Hb).
  assert (Hab : 0 < a * b) by nia.
  pose proof (Zdigits2_bounds (a * b) Hab) as [_ Uab].
  pose proof (Zdigits2_pos (a * b) Hab).
  assert (Hprod : 2 ^ (Zdigits2 a - 1 + (Zdigits2 b - 1)) <= a * b).
  { rewrite Z.pow_add_r by lia.
    assert (0 < 2 ^ (Zdigits2 a - 1)) by (apply Z.pow_pos_nonneg; lia).
    assert (0 < 2 ^ (Zdigits2 b - 1)) by (apply Z.pow_pos_nonneg; lia).
    nia. }
  assert (Hlt : 2 ^ (Zdigits2 a - 1 + (Zdigits2 b - 1)) < 2 ^ Zdigits2 (a * b)) by lia.
  apply Z.pow_lt_mono_r_iff in Hlt; lia.
Qed.

Lemma Zdigits2_succ_le (m mr : Z) : 0 <= m -> m <= mr <= m + 1 -> Zdigits2 mr <= Zdigits2 m + 1.
Proof.
  intros Hm Hmr. destruct (Z.eq_dec mr 0) as [->|Hne]; [destruct m; simpl; lia|].
  destruct (Z.eq_dec m 0) as [->|Hm0].
  { assert (mr = 1) by lia. subst mr. simpl. lia. }
  pose proof (Zdigits2_bounds m ltac:(lia)) as [_ Hhi].
  pose proof (Zdigits2_pos m ltac:(lia)).
  apply Zdigits2_le; [lia | lia |].
  rewrite Z.pow_add_r by lia. change (2 ^ 1) with 2. lia.
Qed.

Lemma binary_round_aux_no_overflow (sx s : bool) (mx ex : Z) (lx : location) :
  0 <= mx -> ex <= 971 -> Zdigits2 mx + ex <= 1023 ->
  binary_round_aux prec emax sx mx ex lx <> S754_infinity s.
Proof.
  intros Hm Hex Hmag.
  destruct (binary_round_aux_struct sx mx ex lx Hm) as (mr & m1 & e1 & H).
  cbv zeta in H. rewrite !fexp64 in H. destruct H as (Hmr & Hm1 & He1 & ->).
  set (d := Zdigits2 mx) in *.
  set (n := Z.max 0 (Z.max (d + ex - 53) (-1074) - ex)) in *.
  assert (Hm' : 0 <= mx / 2 ^ n) by (apply Z.div_pos; [assumption | apply Z.pow_pos_nonneg; lia]).
  pose proof (Zdigits2_shift_le mx n Hm ltac:(lia)) as Hd'. fold d in Hd'.
  pose proof (Zdigits2_succ_le (mx / 2 ^ n) mr Hm' Hmr) as Hdr.
  assert (He : e1 <= 971) by lia.
  destruct m1 as [|p|p]; try discriminate.
  change (emax - prec) with 971.
  apply Z.leb_le in He. rewrite He. discriminate.
Qed.

Lemma SFdiv_int_no_overflow (s1 s2 s : bool) (m1 m2 : positive) :
  Zpos (digits2_pos m1) <= 1022 ->
  SFdiv prec emax (S754_finite s1 m1 0) (S754_finite s2 m2 0) <> S754_infinity s.
Proof.
  intros Hd. unfold SFdiv.
  pose proof (SFdiv_core_nonneg m1 m2 0 0) as Hnn.
  unfold SFdiv_core_binary in *. rewrite fexp64 in *.
  change (Zdigits2 (Zpos m1)) with (Zpos (digits2_pos m1)) in *.
  change (Zdigits2 (Zpos m2)) with (Zpos (digits2_pos m2)) in *.
  set (d1 := Zpos (digits2_pos m1)) in *. set (d2 := Zpos (digits2_pos m2)) in *.
  set (e' := Z.min (Z.max (d1 + 0 - (d2 + 0) - 53) (-1074)) (0 - 0)) in *.
  set (s0 := 0 - 0 - e') in *.
  assert (Hs : 0 <= s0) by lia.
  set (m' := match s0 with Z0 => Zpos m1 | Zpos _ => Z.shiftl (Zpos m1) s0 | Zneg _ => 0 end) in *.
  assert (Hm' : m' = Zpos m1 * 2 ^ s0).
  { subst m'. destruct s0 as [|p|p]; [simpl; lia | apply Z.shiftl_mul_pow2; lia | lia]. }
  pose proof (Z_div_mod m' (Zpos m2) eq_refl) as Hdiv.
  destruct (Z.div_eucl m' (Zpos m2)) as [q r] eqn:E. simpl in Hnn.
  apply binary_round_aux_no_overflow; [assumption | lia |].
  destruct (Z.eq_dec q 0) as [->|Hq]; [simpl; lia|].
  assert (Zdigits2 q <= d1 + s0); [|lia].
  apply Zdigits2_le; [lia | lia |].
  pose proof (digits_bounds m1) as [_ B1]. fold d1 in B1.
  assert (Hps : 0 < 2 ^ s0) by (apply Z.pow_pos_nonneg; lia).
  rewrite Z.pow_add_r by lia.
  assert (q <= m') by nia. nia.
Qed.

Lemma int_truediv_no_zero_division (a b : Z) :
  b <> 0 -> int_truediv a b <> Raise ZeroDivisionError.
Proof.
  intros Hb. unfold int_truediv.
  destruct b as [|pb|pb]; [congruence | |]; destruct a as [|pa|pa]; try discriminate;
    match goal with |- context [SFdiv ?p ?e ?x ?y] => destruct (SFdiv p e x y) end;
    discriminate.
Qed.

Lemma int_truediv_shape (a b : Z) (q : float) :
  int_truediv a b = Ok q ->
  float_shape q /\ float_sign_is (xorb (a <? 0) (b <? 0)) q.
Proof.
  unfold int_truediv.
  destruct b as [|pb|pb]; [discriminate | |]; destruct a as [|pa|pa];
    try (intros [= <-]; simpl; auto; fail);
    match goal with
    | |- context [SFdiv prec emax (S754_finite ?s1 ?m1 ?e1) (S754_finite ?s2 ?m2 ?e2)] =>
        pose proof (SFdiv_finite_sign s1 s2 m1 m2 e1 e2) as Hs;
        pose proof (fun s m e => SFdiv_finite_bounded s1 s2 s m1 m2 m e1 e2 e) as Hb;
        destruct (SFdiv prec emax (S754_finite s1 m1 e1) (S754_finite s2 m2 e2))
          as [s|s| |s m e] eqn:E
    end; try discriminate; try contradiction;
    intros [= <-]; simpl in *; try (split; [exact I | assumption]);
    (split; [apply (Hb s m e eq_refl) | assumption]).
Qed.

Lemma int_truediv_nonzero_returns (s1 s2 : bool) (m1 m2 : positive) :
  Zpos m1 < 2 ^ 1022 ->
  exists q,
    match SFdiv prec emax (S754_finite s1 m1 0) (S754_finite s2 m2 0) with
    | S754_infinity _ => Raise OverflowError
    | q => Ok q
    end = Ok q.
Proof.
  intros Hm.
  pose proof (fun s => SFdiv_int_no_overflow s1 s2 s m1 m2) as Hov.
  destruct (SFdiv prec emax (S754_finite s1 m1 0) (S754_finite s2 m2 0))
    as [s|s| |s m e] eqn:E; eauto.
  exfalso. apply (Hov s); [|reflexivity].
  apply (Zdigits2_le (Zpos m1)); lia.
Qed.

Lemma int_truediv_returns (a b : Z) :
  b <> 0 -> Z.abs a < 2 ^ 1022 -> exists q, int_truediv a b = Ok q.
Proof.
  intros Hb Ha. unfold int_truediv.
  destruct b as [|pb|pb]; [congruence | |]; destruct a as [|pa|pa]; eauto;
    apply int_truediv_nonzero_returns; exact Ha.
Qed.

Lemma int_truediv_pos_mag (a b : Z) (q : float) :
  0 < a -> 0 < b -> -1074 < Zdigits2 a - Zdigits2 b ->
  int_truediv a b = Ok q ->
  exists m e, q = S754_finite false m e
              /\ Zdigits2 a - Zdigits2 b <= Zpos (digits2_pos m) + e.
Proof.
  intros Ha Hb HM. unfold int_truediv.
  destruct b as [|pb|pb]; try lia. destruct a as [|pa|pa]; try lia.
  change (Z.to_pos (Z.abs (Zpos pa))) with pa.
  change (Z.to_pos (Z.abs (Zpos pb))) with pb.
  change (Zpos pa <? 0) with false. change (Zpos pb <? 0) with false.
  destruct (SFdiv_finite_mag false false pa pb 0 0) as (m & e & -> & H1 & H2 & H3).
  { cbv zeta. unfold Zdigits2 in HM. lia. }
  cbv zeta in H1. unfold Zdigits2 in HM.
  destruct (e <=? 971); [|discriminate].
  intros [= <-]. exists m, e. split; [reflexivity|]. unfold Zdigits2. lia.
Qed.

(** [1 / gpg] and the product with the cadence *)

Lemma float_one_eq : float_one = S754_finite false 4503599627370496 (-52).
Proof. reflexivity. Qed.

Lemma rate_sign (s : bool) (m : positive) (e : Z) :
  float_sign_is s (SFdiv prec emax float_one (S754_finite s m e)).
Proof.
  rewrite float_one_eq.
  pose proof (SFdiv_finite_sign false s 4503599627370496 m (-52) e) as H.
  destruct (SFdiv prec emax _ _); simpl in *; auto.
Qed.

Lemma rate_mag (s : bool) (m : positive) (e : Z) :
  Zpos (digits2_pos m) <= 53 -> e <= 971 ->
  exists mr er,
    SFdiv prec emax float_one (S754_finite s m e) =
      (if (er <=? 971)%Z then S754_finite s mr er else S754_infinity s)
    /\ -1023 <= Zpos (digits2_pos mr) + er.
Proof.
  intros Hd He. rewrite float_one_eq.
  pose proof (SFdiv_finite_mag false s 4503599627370496 m (-52) e) as H.
  cbv zeta in H. change (digits2_pos 4503599627370496) with 53%positive in H.
  destruct H as (mr & er & -> & H1 & _); [lia|].
  exists mr, er. split; [reflexivity|]. lia.
Qed.

Lemma float_mul_sign (sx sy : bool) (x : float) (my : positive) (ey : Z) :
  float_sign_is sx x ->
  float_sign_is (xorb sx sy) (float_mul x (S754_finite sy my ey)).
Proof.
  unfold float_mul. destruct x as [s|s| |s m e]; simpl; try congruence; try contradiction.
  intros <-. apply binary_round_aux_sign. lia.
Qed.

Lemma float_mul_mag (sx : bool) (mx my : positive) (ex ey : Z) :
  -1023 <= Zpos (digits2_pos mx) + ex -> -49 <= Zpos (digits2_pos my) + ey ->
  exists m e,
    float_mul (S754_finite sx mx ex) (S754_finite false my ey) =
      (if (e <=? 971)%Z then S754_finite sx m e else S754_infinity sx).
Proof.
  intros Hx Hy. unfold float_mul, SFmul.
  pose proof (Zdigits2_mul_lower (Zpos mx) (Zpos my) eq_refl eq_refl) as Hd.
  change (Zpos mx * Zpos my) with (Zpos (mx * my)) in Hd.
  unfold Zdigits2 in Hd.
  destruct (binary_round_aux_mag (xorb sx false) (Zpos (mx * my)) (ex + ey) loc_Exact)
    as (m & e & -> & _); [lia | unfold Zdigits2; lia |].
  rewrite xorb_false_r. eauto.
Qed.

(** Comparisons of an [int] with a [float] *)

Lemma float_cmp_int_sign (x : float) (n : Z) (sx : bool) :
  float_sign_is sx x -> exists c, float_cmp_int x n = Some c.
Proof. destruct x; simpl; try contradiction; eauto. Qed.

Lemma int_le_float_false_gt (n : Z) (x : float) (sx : bool) :
  float_sign_is sx x -> int_le_float n x = false -> int_gt_float n x = true.
Proof.
  intros Hs. destruct (float_cmp_int_sign x n sx Hs) as [c Hc].
  unfold int_le_float, int_gt_float. rewrite Hc. destruct c; congruence.
Qed.

Lemma int_gt_float_nonneg (n : Z) (x : float) :
  float_sign_is false x -> int_gt_float n x = true -> 1 <= n.
Proof.
  unfold int_gt_float, float_cmp_int, float_sign_is.
  destruct x as [s|s| |s m e]; try contradiction; intros -> H.
  - destruct (Z.compare_spec 0 n); try discriminate. lia.
  - discriminate.
  - destruct (0 <=? e) eqn:He.
    + destruct (Z.compare_spec (Zpos m * 2 ^ e) n); try discriminate.
      apply Z.leb_le in He.
      assert (0 < 2 ^ e) by (apply Z.pow_pos_nonneg; lia). nia.
    + destruct (Z.compare_spec (Zpos m) (n * 2 ^ (- e))); try discriminate.
      apply Z.leb_gt in He.
      assert (0 < 2 ^ (- e)) by (apply Z.pow_pos_nonneg; lia). nia.
Qed.

Lemma float_eq_int_0_false (x : float) :
  float_shape x -> float_eq_int x 0 = false ->
  exists s m e, x = S754_finite s m e /\ Zpos (digits2_pos m) <= 53 /\ e <= 971.
Proof.
  destruct x as [s|s| |s m e]; simpl; try contradiction.
  - discriminate.
  - intros [H1 H2] _. exists s, m, e. auto.
Qed.

Lemma float_gt_int_0_positive (x : float) :
  (exists m e, x = S754_finite false m e \/ x = S754_infinity false) ->
  float_gt_int x 0 = true.
Proof.
  intros (m & e & [-> | ->]); unfold float_gt_int, float_cmp_int; [|reflexivity].
  destruct (0 <=? e) eqn:He.
  - assert (0 < 2 ^ e) by (apply Z.pow_pos_nonneg; apply Z.leb_le in He; lia).
    destruct (Z.compare_spec (Zpos m * 2 ^ e) 0); auto; nia.
  - reflexivity.
Qed.

(** ** [sorted] *)

Lemma insert_sorted_perm (x : Z) (l : list Z) : Permutation (x :: l) (insert_sorted x l).
Proof.
  induction l as [|y l IH]; simpl; [reflexivity|].
  destruct (x <=? y); [reflexivity|].
  rewrite perm_swap. constructor. exact IH.
Qed.

Lemma sorted_perm (l : list Z) : Permutation l (sorted l).
Proof.
  induction l as [|x l IH]; simpl; [constructor|].
  rewrite <- insert_sorted_perm. constructor. exact IH.
Qed.

Lemma insert_sorted_comm (x y : Z) (l : list Z) :
  insert_sorted x (insert_sorted y l) = insert_sorted y (insert_sorted x l).
Proof.
  induction l as [|z l IH]; simpl.
  - destruct (Z.leb_spec x y), (Z.leb_spec y x); try reflexivity; try lia.
    assert (x = y) by lia. subst. reflexivity.
  - destruct (Z.leb_spec y z), (Z.leb_spec x z); simpl;
      repeat match goal with
             | |- context [?a <=? ?b] => destruct (Z.leb_spec a b)
             end; try reflexivity; try lia.
    + assert (x = y) by lia. subst. reflexivity.
    + rewrite IH. reflexivity.
Qed.

Lemma sorted_permutation (l l' : list Z) : Permutation l l' -> sorted l = sorted l'.
Proof.
  induction 1 as [|x l l' _ IH|x y l|l l' l'' _ IH1 _ IH2]; simpl.
  - reflexivity.
  - rewrite IH. reflexivity.
  - apply insert_sorted_comm.
  - congruence.
Qed.

Lemma insert_sorted_Sorted (x : Z) (l : list Z) :
  Sorted Z.le l -> Sorted Z.le (insert_sorted x l).
Proof.
  induction l as [|y l IH]; simpl; intros Hs.
  - repeat constructor.
  - destruct (Z.leb_spec x y).
    + constructor; [assumption|]. constructor. assumption.
    + inversion Hs as [|? ? Hs' Hhd]; subst. constructor; [apply IH; assumption|].
      destruct l as [|z l]; simpl.
      * constructor. lia.
      * destruct (Z.leb_spec x z); constructor; try lia.
        inversion Hhd; subst. assumption.
Qed.

Lemma sorted_Sorted (l : list Z) : Sorted Z.le (sorted l).
Proof.
  induction l as [|x l IH]; simpl; [constructor|].
  apply insert_sorted_Sorted. exact IH.
Qed.

(** ** Successive differences *)

Lemma deltas_gaps (l : list Z) :
  map (fun pair : Z * Z => let '(earlier, later) := pair in later - earlier)
      (combine l (tl l)) = gaps l.
Proof.
  induction l as [|a [|b l] IH]; simpl; try reflexivity.
  f_equal. exact IH.
Qed.

Lemma gaps_length (l : list Z) : List.length (gaps l) = (List.length l - 1)%nat.
Proof.
  induction l as [|a [|b l] IH]; simpl; try reflexivity.
  simpl in IH. rewrite IH. lia.
Qed.

Lemma fold_add_shift (l : list Z) (a : Z) :
  fold_left Z.add l a = a + fold_left Z.add l 0.
Proof.
  revert a. induction l as [|y l IH]; intros a; simpl; [lia|].
  rewrite (IH (a + y)), (IH y). lia.
Qed.

Lemma sum_cons (x : Z) (l : list Z) : sum (x :: l) = x + sum l.
Proof. unfold sum. simpl. apply fold_add_shift. Qed.

Lemma last_cons_default (x d : Z) (l : list Z) : last (x :: l) d = last l x.
Proof.
  revert x d. induction l as [|y l IH]; intros x d; [reflexivity|].
  change (last (x :: y :: l) d) with (last (y :: l) d).
  rewrite (IH y d). symmetry. apply IH.
Qed.

Lemma sum_gaps (a : Z) (l : list Z) : sum (gaps (a :: l)) = last l a - a.
Proof.
  revert a. induction l as [|b l IH]; intros a.
  - simpl. unfold sum. simpl. lia.
  - change (gaps (a :: b :: l)) with ((b - a) :: gaps (b :: l)).
    rewrite sum_cons, IH, last_cons_default. lia.
Qed.

Lemma gaps_nonneg (l : list Z) : Sorted Z.le l -> Forall (fun g => 0 <= g) (gaps l).
Proof.
  induction l as [|a [|b l] IH]; intros Hs; simpl; try constructor.
  - inversion Hs as [|? ? Hs' Hhd]; subst. inversion Hhd; subst. lia.
  - apply IH. inversion Hs; assumption.
Qed.

Lemma sum_nonneg (l : list Z) : Forall (fun g => 0 <= g) l -> 0 <= sum l.
Proof.
  induction 1 as [|x l Hx _ IH]; [unfold sum; simpl; lia|]. rewrite sum_cons. lia.
Qed.

Lemma last_In (a : Z) (l : list Z) : In (last l a) (a :: l).
Proof.
  revert a. induction l as [|b l IH]; intros a; [left; reflexivity|].
  apply in_cons. rewrite last_cons_default. apply IH.
Qed.

Lemma sum_bound (lo hi : Z) (a : Z) (l : list Z) :
  Forall (fun d => lo <= d <= hi) (a :: l) -> Sorted Z.le (a :: l) ->
  0 <= sum (gaps (a :: l)) <= hi - lo.
Proof.
  intros Hall Hs. split.
  - apply sum_nonneg, gaps_nonneg. assumption.
  - rewrite sum_gaps. rewrite Forall_forall in Hall.
    pose proof (Hall _ (last_In a l)). pose proof (Hall a (or_introl eq_refl)). lia.
Qed.

(** ** The Cadence Estimator *)

Lemma average_unfold (dates : list date) :
  (2 <= List.length dates)%nat ->
  average_days_between_games dates =
    int_truediv (sum (gaps (sorted dates))) (Z.of_nat (List.length (gaps (sorted dates)))).
Proof.
  intros Hlen. unfold average_days_between_games.
  destruct (Nat.ltb_spec (List.length dates) 2); [lia|].
  rewrite deltas_gaps. reflexivity.
Qed.

Lemma sorted_length (l : list Z) : List.length (sorted l) = List.length l.
Proof. symmetry. apply Permutation_length, sorted_perm. Qed.

(** C4.  The Cadence Estimator returns 0.0 for fewer than two dates;
    otherwise it divides the sum of the successive differences of the dates
    sorted ascending (a permutation of the input, duplicates kept) by their
    number; on dates of the calendar it returns a non-negative float; the
    dates D, D+5, D+10 give 5.0, and a duplicate date counts as a zero gap. *)
Theorem average_days_between_games_spec :
  (forall dates : list date,
      (List.length dates < 2)%nat ->
      average_days_between_games dates = Ok float_zero)
  /\ (forall dates : list date,
         (2 <= List.length dates)%nat ->
         exists s : list date,
           Permutation dates s /\ Sorted Z.le s
           /\ List.length (gaps s) = (List.length dates - 1)%nat
           /\ average_days_between_games dates =
                int_truediv (sum (gaps s)) (Z.of_nat (List.length (gaps s))))
  /\ (forall dates : list date,
         (2 <= List.length dates)%nat -> Forall valid_date dates ->
         exists q, average_days_between_games dates = Ok q
                   /\ float_shape q /\ float_sign_is false q)
  /\ (forall D : date, average_days_between_games [D; D + 5; D + 10] = Ok float_5)
  /\ (forall D : date, average_days_between_games [D; D; D + 6] = Ok float_3).
Proof.
  split; [|split; [|split; [|split]]].
  - intros dates Hlen. unfold average_days_between_games.
    destruct (Nat.ltb_spec (List.length dates) 2); [reflexivity | lia].
  - intros dates Hlen. exists (sorted dates).
    split; [apply sorted_perm|]. split; [apply sorted_Sorted|].
    split; [rewrite gaps_length, sorted_length; reflexivity|].
    apply average_unfold. exact Hlen.
  - intros dates Hlen Hvalid. rewrite (average_unfold dates Hlen).
    pose proof (sorted_perm dates) as Hp. pose proof (sorted_Sorted dates) as Hs.
    pose proof (sorted_length dates) as Hl.
    assert (Hv : Forall (fun d => 1 <= d <= 3652059) (sorted dates)).
    { rewrite Forall_forall in *. intros d Hd. apply Hvalid.
      apply Permutation_in with (sorted dates); [symmetry|]; assumption. }
    assert (Hn : Z.of_nat (List.length (gaps (sorted dates))) <> 0).
    { rewrite gaps_length, Hl. unfold date in *. lia. }
    destruct (sorted dates) as [|a l] eqn:E; [simpl in Hl; unfold date in *; lia|].
    pose proof (sum_bound 1 3652059 a l Hv Hs) as Hsum.
    destruct (int_truediv_returns (sum (gaps (a :: l)))
                (Z.of_nat (List.length (gaps (a :: l)))) Hn) as [q Hq].
    { apply Z.lt_le_trans with (2 ^ 22); [|apply Z.pow_le_mono_r; lia].
      change (2 ^ 22) with 4194304. lia. }
    exists q. split; [exact Hq|].
    destruct (int_truediv_shape _ _ _ Hq) as [Hshape Hsign]. split; [exact Hshape|].
    replace (xorb (sum (gaps (a :: l)) <? 0)
                  (Z.of_nat (List.length (gaps (a :: l))) <? 0)) with false in Hsign;
      [exact Hsign|].
    destruct (Z.ltb_spec (sum (gaps (a :: l))) 0); [lia|].
    destruct (Z.ltb_spec (Z.of_nat (List.length (gaps (a :: l)))) 0); [lia|]. reflexivity.
  - intros D. rewrite average_unfold by (simpl; lia).
    assert (Hs : sorted [D; D + 5; D + 10] = [D; D + 5; D + 10]).
    { simpl. destruct (Z.leb_spec (D + 5) (D + 10)); [|lia]. simpl.
      destruct (Z.leb_spec D (D + 5)); [reflexivity | lia]. }
    rewrite Hs. replace (sum (gaps [D; D + 5; D + 10])) with 10
      by (unfold sum; simpl; lia).
    reflexivity.
  - intros D. rewrite average_unfold by (simpl; lia).
    assert (Hs : sorted [D; D; D + 6] = [D; D; D + 6]).
    { simpl. destruct (Z.leb_spec D (D + 6)); [|lia]. simpl.
      destruct (Z.leb_spec D D); [reflexivity | lia]. }
    rewrite Hs. replace (sum (gaps [D; D; D + 6])) with 6
      by (unfold sum; simpl; lia).
    reflexivity.
Qed.

Lemma average_days_between_games_spec_witness :
  average_days_between_games [738890] = Ok float_zero
  /\ exists q, average_days_between_games [738890; 738895; 738900] = Ok q
               /\ float_shape q /\ float_sign_is false q.
Proof.
  destruct average_days_between_games_spec as (Hfew & _ & Hreturns & _).
  split.
  - apply Hfew. simpl. lia.
  - apply Hreturns; [simpl; lia|].
    repeat constructor; unfold valid_date; lia.
Defined.

(** C5.  The Cadence Estimator gives the same result on every permutation of
    its input. *)
Theorem average_days_between_games_permutation (dates dates' : list date) :
  Permutation dates dates' ->
  average_days_between_games dates = average_days_between_games dates'.
Proof.
  intros Hp. unfold average_days_between_games.
  rewrite (Permutation_length Hp), (sorted_permutation _ _ Hp). reflexivity.
Qed.

Lemma average_days_between_games_permutation_witness :
  Permutation [738890; 738895; 738900] [738900; 738890; 738895]
  /\ average_days_between_games [738890; 738895; 738900] = Ok float_5
  /\ average_days_between_games [738900; 738890; 738895] = Ok float_5.
Proof.
  assert (Hp : Permutation [738890; 738895; 738900] [738900; 738890; 738895]).
  { apply Permutation_sym. apply perm_trans with [738890; 738900; 738895].
    - apply perm_swap.
    - apply perm_skip. apply perm_swap. }
  split; [exact Hp|].
  split; [reflexivity|].
  rewrite <- (average_days_between_games_permutation _ _ Hp). reflexivity.
Defined.

(** ** [int(str(n)) = n] *)









(** *** Numerals of nines and of zeros *)









(** ** The world monad *)

Lemma mbind_ok {W A B : Type} (m : M W A) (k : A -> M W B) (w w' : W) (b : B) :
  mbind m k w = Ok (b, w') ->
  exists a w1, m w = Ok (a, w1) /\ k a w1 = Ok (b, w').
Proof.
  unfold mbind. destruct (m w) as [[a w1]|e]; [|discriminate].
  intros H. exists a, w1. split; [reflexivity | exact H].
Qed.

Lemma lift_ok {W A : Type} (r : result A) (w w' : W) (a : A) :
  lift r w = Ok (a, w') -> r = Ok a /\ w' = w.
Proof. unfold lift. destruct r; [|discriminate]. intros [= -> ->]. auto. Qed.

Lemma mret_ok {W A : Type} (a b : A) (w w' : W) :
  mret a w = Ok (b, w') -> b = a /\ w' = w.
Proof. unfold mret. intros [= -> ->]. auto. Qed.

Lemma mbind_eq {W A B : Type} (m : M W A) (k : A -> M W B) (w w1 : W) (a : A) :
  m w = Ok (a, w1) -> mbind m k w = k a w1.
Proof. unfold mbind. intros ->. reflexivity. Qed.

Lemma mbind_lift_eq {W A B : Type} (r : result A) (k : A -> M W B) (w : W) (a : A) :
  r = Ok a -> mbind (lift r) k w = k a w.
Proof. intros ->. reflexivity. Qed.

Ltac bind_inv H x w Hx :=
  apply mbind_ok in H; destruct H as (x & w & Hx & H); cbv beta in H.

Ltac lift_inv H x Hx :=
  let w := fresh "w" in
  let Hw := fresh "Hw" in
  bind_inv H x w Hx; apply lift_ok in Hx; destruct Hx as [Hx Hw]; subst w.

Section WorldProperties.

Variable W : Type.
Variable session_get : string -> W -> http_outcome * W.
Variable date_today : W -> date * W.

Lemma evaluate_player_gates (today season_start : date)
      (current_season schedule_today : json) (scorer : PlayerBaseline)
      (w w' : W) (status : PlayerDueStatus) :
  evaluate_player session_get today season_start current_season schedule_today
                  scorer w = Ok (Some status, w')
  <-> due_gates session_get today season_start current_season schedule_today
                scorer w status w'.
Proof.
  split.
  - intros H. unfold evaluate_player in H.
    bind_inv H game_log w1 Hlog.
    lift_inv H last_goal Hlast.
    destruct last_goal as [last_goal|];
      [|apply mret_ok in H; destruct H; discriminate].
    lift_inv H played_dates Hplayed.
    bind_inv H team_schedule w2 Hsched.
    lift_inv H schedule_dates Hdates.
    lift_inv H avg_days Havg.
    destruct (float_eq_int avg_days 0) eqn:Havg0;
      [apply mret_ok in H; destruct H; discriminate|].
    lift_inv H gpg Hgpg.
    destruct (float_eq_int gpg 0) eqn:Hgpg0;
      [apply mret_ok in H; destruct H; discriminate|].
    lift_inv H gpg' Hgpg'.
    assert (gpg' = gpg) by congruence. subst gpg'.
    lift_inv H rate Hrate.
    destruct (int_le_float (today - last_goal) (float_mul rate avg_days)) eqn:Hle;
      [apply mret_ok in H; destruct H; discriminate|].
    lift_inv H next_game Hnext.
    destruct (py_truthy next_game) eqn:Htruthy; simpl negb in H; cbv iota in H;
      [|apply mret_ok in H; destruct H; discriminate].
    lift_inv H opponent Hopp.
    lift_inv H start_time Hstart.
    apply mret_ok in H. destruct H as [H ->]. injection H as ->.
    exists game_log, w1, last_goal, played_dates, team_schedule, schedule_dates,
      avg_days, gpg, rate, next_game.
    simpl. repeat split; assumption.
  - intros (game_log & w1 & last_goal & played_dates & team_schedule & schedule_dates
            & avg_days & gpg & rate & next_game & Hlog & Hlast & Hplayed & Hsched
            & Hdates & Havg & Havg0 & Hgpg & Hgpg0 & Hrate & Hle & Hnext & Htruthy
            & Hopp & Hstart & Hp & Hd & Hdays & Hexp).
    unfold evaluate_player.
    rewrite (mbind_eq _ _ _ _ _ Hlog). cbv beta.
    rewrite (mbind_lift_eq _ _ _ _ Hlast). cbv beta iota.
    rewrite (mbind_lift_eq _ _ _ _ Hplayed). cbv beta.
    rewrite (mbind_eq _ _ _ _ _ Hsched). cbv beta.
    rewrite (mbind_lift_eq _ _ _ _ Hdates). cbv beta.
    rewrite (mbind_lift_eq _ _ _ _ Havg). cbv beta. rewrite Havg0.
    rewrite (mbind_lift_eq _ _ _ _ Hgpg). cbv beta. rewrite Hgpg0.
    rewrite (mbind_lift_eq _ _ _ _ Hgpg). cbv beta.
    rewrite (mbind_lift_eq _ _ _ _ Hrate). cbv beta zeta. rewrite Hle.
    rewrite (mbind_lift_eq _ _ _ _ Hnext). cbv beta. rewrite Htruthy. cbv beta iota delta [negb].
    rewrite (mbind_lift_eq _ _ _ _ Hopp). cbv beta.
    rewrite (mbind_lift_eq _ _ _ _ Hstart). cbv beta.
    unfold mret. destruct status; simpl in *; subst. reflexivity.
Qed.

Lemma due_players_loop_forall (P : PlayerDueStatus -> Prop)
      (today season_start : date) (current_season schedule_today : json)
      (baselines : list PlayerBaseline) :
  forall (due_players records : list PlayerDueStatus) (w w' : W),
    due_players_loop session_get today season_start current_season schedule_today
                     baselines due_players w = Ok (records, w') ->
    Forall P due_players ->
    (forall scorer w1 status w2,
        In scorer baselines ->
        evaluate_player session_get today season_start current_season
                        schedule_today scorer w1 = Ok (Some status, w2) ->
        P status) ->
    Forall P records.
Proof.
  induction baselines as [|scorer rest IH]; intros due_players records w w' H Hacc Hbody.
  - simpl in H. apply mret_ok in H. destruct H as [-> _]. exact Hacc.
  - simpl in H. bind_inv H status w1 Hstatus.
    apply (IH _ _ _ _ H).
    + destruct status as [s|]; [|exact Hacc].
      apply Forall_app. split; [exact Hacc|]. constructor; [|constructor].
      apply (Hbody scorer w s w1); [left; reflexivity | exact Hstatus].
    + intros sc wa st wb Hin. apply Hbody. right. exact Hin.
Qed.

Lemma top_scorers_loop_goals (min_goals : Z) (entries : list json) :
  forall players, top_scorers_loop entries min_goals = Ok players ->
                  Forall (fun p => min_goals <= goals p) players.
Proof.
  induction entries as [|entry rest IH]; intros players H; simpl in H.
  - injection H as <-. constructor.
  - unfold rbind in H.
    repeat match type of H with
           | match ?x with _ => _ end = _ => destruct x eqn:?; try discriminate H
           end.
    + apply Z.ltb_lt in Heqb. apply IH. exact H.
    + injection H as <-. constructor; [simpl; apply Z.ltb_ge; assumption|].
      apply IH. reflexivity.
Qed.

(** What a successful run of [evaluate_due_players] went through: the
    evaluation date, the season, the day's schedule as it was fetched, and
    for every record the gates its player passed. *)
Lemma evaluate_due_players_records (today : option date) (w w' : W)
      (records : list PlayerDueStatus) :
  evaluate_due_players session_get date_today today w = Ok (records, w') ->
  exists (day season_start : date) (current_season schedule_today : json)
         (w0 w3 w4 : W),
    (day, w0) = match today with Some d => (d, w) | None => date_today w end
    /\ fetch_schedule_for_day session_get day w3 = Ok (schedule_today, w4)
    /\ Forall (fun status =>
                 DEFAULT_MIN_GOALS <= goals (player status)
                 /\ exists wa wb,
                      due_gates session_get day season_start current_season
                                schedule_today (player status) wa status wb)
              records.
Proof.
  intros H. unfold evaluate_due_players in H.
  bind_inv H day w0 Hday.
  bind_inv H current_season w1 Hseason.
  lift_inv H previous_season Hprev.
  bind_inv H season_dates w2 Hdates.
  lift_inv H season_start Hstart.
  bind_inv H schedule_today w3 Hsched.
  lift_inv H teams Hteams.
  bind_inv H scorers w4 Hscorers.
  cbv zeta in H.
  exists day, season_start, current_season, schedule_today, w0, w2, w3.
  split; [|split; [exact Hsched|]].
  - destruct today as [d|]; [apply mret_ok in Hday; destruct Hday; subst; reflexivity|].
    injection Hday as Hd. rewrite Hd. reflexivity.
  - unfold fetch_top_goal_scorers in Hscorers. cbv zeta in Hscorers.
    bind_inv Hscorers data w5 Hdata. apply lift_ok in Hscorers.
    destruct Hscorers as [Hloop ->].
    unfold rbind in Hloop.
    destruct (py_get data "data" (JArr [])) as [rows|]; [|discriminate].
    destruct (py_iter rows) as [entries|]; [|discriminate].
    pose proof (top_scorers_loop_goals _ _ _ Hloop) as Hgoals.
    rewrite Forall_forall in Hgoals.
    apply (due_players_loop_forall _ _ _ _ _ _ _ _ _ _ H); [constructor|].
    intros scorer wa status wb Hin Hev.
    apply filter_In in Hin. destruct Hin as [Hin _].
    apply evaluate_player_gates in Hev.
    assert (Hp : player status = scorer).
    { pose proof Hev as Hev'.
      destruct Hev' as (? & ? & ? & ? & ? & ? & ? & ? & ? & ?
                        & _ & _ & _ & _ & _ & _ & _ & _ & _ & _ & _ & _ & _ & _ & _
                        & Hp & _).
      exact Hp. }
    rewrite Hp. split; [apply Hgoals; exact Hin|].
    exists wa, wb. exact Hev.
Qed.

(** The steps of a successful run, with the worlds between them. *)
Lemma evaluate_due_players_run (today : option date) (w w' : W)
      (records : list PlayerDueStatus) :
  evaluate_due_players session_get date_today today w = Ok (records, w') ->
  exists (day season_start : date)
         (current_season season_dates schedule_today : json)
         (previous_season : string) (teams_playing : list json)
         (scorers : list PlayerBaseline) (w0 w1 w2 w3 w4 : W),
    (day, w0) = match today with Some d => (d, w) | None => date_today w end
    /\ get_current_season_id session_get w0 = Ok (current_season, w1)
    /\ get_previous_season_id current_season = Ok previous_season
    /\ get_season_dates session_get current_season w1 = Ok (season_dates, w2)
    /\ (s <- py_getitem season_dates "regularSeasonStart" ;; _parse_date s)
       = Ok season_start
    /\ fetch_schedule_for_day session_get day w2 = Ok (schedule_today, w3)
    /\ teams_playing_today_of schedule_today = Ok teams_playing
    /\ fetch_top_goal_scorers session_get (JStr previous_season) DEFAULT_MIN_GOALS w3
       = Ok (scorers, w4)
    /\ due_players_loop session_get day season_start current_season schedule_today
         (filter (fun player => int_in_set (team_id player) teams_playing) scorers)
         [] w4
       = Ok (records, w').
Proof.
  intros H. unfold evaluate_due_players in H.
  bind_inv H day w0 Hday.
  bind_inv H current_season w1 Hseason.
  lift_inv H previous_season Hprev.
  bind_inv H season_dates w2 Hdates.
  lift_inv H season_start Hstart.
  bind_inv H schedule_today w3 Hsched.
  lift_inv H teams Hteams.
  bind_inv H scorers w4 Hscorers.
  cbv zeta in H.
  exists day, season_start, current_season, season_dates, schedule_today,
    previous_season, teams, scorers, w0, w1, w2, w3, w4.
  repeat split; try assumption.
  destruct today as [d|]; [apply mret_ok in Hday; destruct Hday; subst; reflexivity|].
  injection Hday as Hd. rewrite Hd. reflexivity.
Qed.

End WorldProperties.

(** ** Values of the float model *)

Example float_literals :
  float_eq_int float_one 1 = true /\ float_eq_int float_3 3 = true
  /\ float_eq_int float_5 5 = true /\ format_1f float_5 = "5.0"%string.
Proof. repeat split; reflexivity. Qed.

Example int_truediv_values :
  int_truediv 1 3 = Ok (S754_finite false 6004799503160661 (-54))
  /\ int_truediv 10 2 = Ok float_5
  /\ int_truediv 0 (-5) = Ok (S754_zero true)
  /\ int_truediv 1 0 = Raise ZeroDivisionError
  /\ int_truediv (2 ^ 1024) 1 = Raise OverflowError
  /\ int_truediv 1 (2 ^ 1080) = Ok (S754_zero false).
Proof. repeat split; reflexivity. Qed.

Example format_1f_values :
  (forall q, int_truediv 1 4 = Ok q -> format_1f q = "0.2"%string)
  /\ (forall q, int_truediv 3 4 = Ok q -> format_1f q = "0.8"%string)
  /\ (forall q, int_truediv (-4) 100 = Ok q -> format_1f q = "-0.0"%string)
  /\ (forall q, int_truediv 123456789 1000 = Ok q -> format_1f q = "123456.8"%string).
Proof. repeat split; intros q [= <-]; reflexivity. Qed.

Example _parse_date_values :
  _parse_date (JStr "2024-01-05") = Ok 738890
  /\ _parse_date (JStr "2024-1-5") = Ok 738890
  /\ _parse_date (JStr "2024-02-30") = Raise ValueError
  /\ _parse_date (JStr "2024-13-01") = Raise ValueError
  /\ _parse_date JNull = Raise TypeError
  /\ isoformat 738890 = "2024-01-05"%string
  /\ isoformat 1 = "0001-01-01"%string
  /\ isoformat 3652059 = "9999-12-31"%string.
Proof. repeat split; reflexivity. Qed.

(** ** The floats of the due decision *)

Lemma average_shape_sign (dates : list date) (avg : float) :
  average_days_between_games dates = Ok avg ->
  float_shape avg /\ float_sign_is false avg.
Proof.
  unfold average_days_between_games.
  destruct (Nat.ltb_spec (List.length dates) 2) as [Hlt | Hge].
  - intros [= <-]. simpl. auto.
  - rewrite deltas_gaps. intros H.
    destruct (int_truediv_shape _ _ _ H) as [Hshape Hsign]. split; [exact Hshape|].
    pose proof (sum_nonneg _ (gaps_nonneg _ (sorted_Sorted dates))) as Hsum.
    destruct (Z.ltb_spec (sum (gaps (sorted dates))) 0); [lia|].
    destruct (Z.ltb_spec (Z.of_nat (List.length (gaps (sorted dates)))) 0); [lia|].
    exact Hsign.
Qed.

Lemma average_mag (dates : list date) (avg : float) :
  average_days_between_games dates = Ok avg ->
  float_eq_int avg 0 = false ->
  Z.of_nat (List.length dates) < 2 ^ 50 ->
  exists m e, avg = S754_finite false m e /\ -49 <= Zpos (digits2_pos m) + e.
Proof.
  unfold average_days_between_games.
  destruct (Nat.ltb_spec (List.length dates) 2) as [Hlt | Hge].
  - intros [= <-]. discriminate.
  - rewrite deltas_gaps. intros H Hnz Hlen.
    pose proof (sum_nonneg _ (gaps_nonneg _ (sorted_Sorted dates))) as Hsum.
    pose proof (gaps_length (sorted dates)) as Hgl. rewrite sorted_length in Hgl.
    set (a := sum (gaps (sorted dates))) in *.
    set (b := Z.of_nat (List.length (gaps (sorted dates)))) in *.
    assert (Hb : 0 < b < 2 ^ 50) by (subst b; unfold date in *; lia).
    assert (Ha : 0 < a).
    { destruct (Z.eq_dec a 0) as [Ha0|]; [|lia]. rewrite Ha0 in H.
      unfold int_truediv in H. destruct b; try lia. injection H as <-. discriminate. }
    pose proof (Zdigits2_le b 50 ltac:(lia) ltac:(lia) ltac:(lia)) as Hdb.
    pose proof (Zdigits2_pos a Ha) as Hda.
    destruct (int_truediv_pos_mag a b avg Ha ltac:(lia) ltac:(lia) H) as (m & e & -> & Hmag).
    exists m, e. split; [reflexivity | lia].
Qed.

Lemma goals_per_game_shape (scorer : PlayerBaseline) (gpg : float) :
  goals_per_game scorer = Ok gpg -> float_eq_int gpg 0 = false ->
  exists m e,
    gpg = S754_finite (xorb (goals scorer <? 0) (games_played scorer <? 0)) m e
    /\ Zpos (digits2_pos m) <= 53 /\ e <= 971.
Proof.
  unfold goals_per_game. destruct (games_played scorer =? 0).
  - intros [= <-]. discriminate.
  - intros H Hnz. destruct (int_truediv_shape _ _ _ H) as [Hshape Hsign].
    destruct (float_eq_int_0_false gpg Hshape Hnz) as (s & m & e & -> & Hd & He).
    simpl in Hsign. subst s. exists m, e. auto.
Qed.

Lemma expected_days_sign (s : bool) (m ma : positive) (e ea : Z) (rate : float) :
  float_truediv float_one (S754_finite s m e) = Ok rate ->
  float_sign_is s (float_mul rate (S754_finite false ma ea)).
Proof.
  intros H.
  assert (Hr : rate = SFdiv prec emax float_one (S754_finite s m e))
    by (unfold float_truediv in H; congruence).
  rewrite Hr. rewrite <- (xorb_false_r s) at 1.
  apply float_mul_sign. apply rate_sign.
Qed.

Lemma expected_days_positive (m ma : positive) (e ea : Z) (rate : float) :
  Zpos (digits2_pos m) <= 53 -> e <= 971 -> -49 <= Zpos (digits2_pos ma) + ea ->
  float_truediv float_one (S754_finite false m e) = Ok rate ->
  float_gt_int (float_mul rate (S754_finite false ma ea)) 0 = true.
Proof.
  intros Hd He Hma H.
  assert (Hr : rate = SFdiv prec emax float_one (S754_finite false m e))
    by (unfold float_truediv in H; congruence).
  rewrite Hr. clear H Hr.
  destruct (rate_mag false m e Hd He) as (mr & er & -> & Hmr).
  apply float_gt_int_0_positive.
  destruct (er <=? 971).
  - destruct (float_mul_mag false mr ma er ea Hmr Hma) as (mx & ex & ->).
    exists mx, ex. destruct (ex <=? 971); auto.
  - exists 1%positive, 0. right. reflexivity.
Qed.

(** ** Sizes of the provider's documents *)

Lemma list_sum_length {A : Type} (f : A -> nat) (l : list A) :
  (forall x, 1 <= f x)%nat -> (List.length l <= list_sum (map f l))%nat.
Proof.
  intros Hf. induction l as [|x l IH]; simpl; [lia|]. pose proof (Hf x). lia.
Qed.

Lemma json_size_pos (o : json) : (1 <= json_size o)%nat.
Proof. destruct o; simpl; lia. Qed.

Lemma string_chars_length (s : string) :
  List.length (string_chars s) = String.length s.
Proof. induction s; simpl; congruence. Qed.

Lemma py_iter_length (o : json) (items : list json) :
  py_iter o = Ok items -> (List.length items <= json_size o)%nat.
Proof.
  destruct o as [|b|n|s|l|fields]; simpl; try discriminate; intros [= <-].
  - rewrite string_chars_length. lia.
  - pose proof (list_sum_length json_size l json_size_pos). lia.
  - rewrite length_map.
    pose proof (list_sum_length (fun kv : string * json => let '(_, v) := kv in S (json_size v))
                                fields) as H.
    assert (H0 : forall kv : string * json,
               (1 <= (let '(_, v) := kv in S (json_size v)))%nat)
      by (intros [k v]; lia).
    specialize (H H0). lia.
Qed.

Lemma dict_lookup_size (fields : list (string * json)) (key : string) (v : json) :
  dict_lookup fields key = Some v -> (json_size v <= json_size (JObj fields))%nat.
Proof.
  simpl. induction fields as [|[k x] rest IH]; simpl; [discriminate|].
  destruct (String.eqb k key).
  - intros [= ->]. lia.
  - intros H. specialize (IH H). lia.
Qed.

Lemma py_get_size (o : json) (key : string) (v : json) :
  py_get o key (JArr []) = Ok v -> (json_size v <= json_size o)%nat.
Proof.
  destruct o; simpl; try discriminate.
  destruct (dict_lookup fields key) as [x|] eqn:E; intros [= <-].
  - apply (dict_lookup_size _ _ _ E).
  - simpl. lia.
Qed.

Lemma played_dates_of_length (entries : list json) :
  forall ds, played_dates_of entries = Ok ds -> List.length ds = List.length entries.
Proof.
  induction entries as [|entry rest IH]; simpl; intros ds H.
  - injection H as <-. reflexivity.
  - unfold rbind in H. destruct (entry_date entry); [|discriminate].
    destruct (played_dates_of rest) as [ds'|]; [|discriminate].
    injection H as <-. simpl. f_equal. apply IH. reflexivity.
Qed.

Lemma extract_dates_loop_length (blocks : list json) :
  forall acc ds, extract_dates_loop blocks acc = Ok ds ->
                 (List.length ds <= List.length acc + List.length blocks)%nat.
Proof.
  induction blocks as [|block rest IH]; simpl; intros acc ds H.
  - injection H as <-. lia.
  - destruct (rbind (py_getitem block "date") (fun s => _parse_date s)) as [d|e].
    + apply IH in H. rewrite length_app in H. simpl in H. lia.
    + destruct e; try discriminate. apply IH in H. lia.
Qed.

Section WorldBounds.

Variable W : Type.
Variable session_get : string -> W -> http_outcome * W.
Variable date_today : W -> date * W.

Lemma _get_json_response (url : string) (w w' : W) (data : json) :
  _get_json session_get url w = Ok (data, w') ->
  exists status_code, session_get url w = (Response status_code (Ok data), w').
Proof.
  unfold _get_json. destruct (session_get url w) as [[|status body] w1]; [discriminate|].
  destruct (negb (response_ok status)); [discriminate|].
  destruct body as [d|]; [|discriminate]. intros [= -> ->]. exists status. reflexivity.
Qed.

Lemma gates_cadence_length (today season_start : date)
      (current_season schedule_today : json) (scorer : PlayerBaseline)
      (w w' : W) (status : PlayerDueStatus) :
  responses_small session_get ->
  due_gates session_get today season_start current_season schedule_today
            scorer w status w' ->
  exists (dates : list date) (avg_days gpg rate : float),
    average_days_between_games dates = Ok avg_days
    /\ Z.of_nat (List.length dates) < 2 ^ 50
    /\ float_eq_int avg_days 0 = false
    /\ goals_per_game scorer = Ok gpg
    /\ float_eq_int gpg 0 = false
    /\ float_truediv float_one gpg = Ok rate
    /\ expected_days_between_goals status = float_mul rate avg_days.
Proof.
  intros Hsmall (game_log & w1 & last_goal & played_dates & team_schedule
                 & schedule_dates & avg_days & gpg & rate & next_game
                 & Hlog & Hlast & Hplayed & Hsched & Hdates & Havg & Havg0 & Hgpg
                 & Hgpg0 & Hrate & Hle & Hnext & Htruthy & Hopp & Hstart & Hp & Hd
                 & Hdays & Hexp).
  exists (list_or schedule_dates played_dates), avg_days, gpg, rate.
  repeat split; try assumption.
  unfold fetch_player_gamelog in Hlog. cbv zeta in Hlog.
  apply mbind_ok in Hlog. destruct Hlog as (data1 & wa & Hget1 & Hlog).
  apply lift_ok in Hlog. destruct Hlog as [Hdata1 _].
  apply _get_json_response in Hget1. destruct Hget1 as [st1 Hget1].
  unfold fetch_schedule_for_range in Hsched. cbv zeta in Hsched.
  apply mbind_ok in Hsched. destruct Hsched as (data2 & wb & Hget2 & Hsched).
  apply lift_ok in Hsched. destruct Hsched as [Hdata2 _].
  apply _get_json_response in Hget2. destruct Hget2 as [st2 Hget2].
  pose proof (Hsmall _ _ _ _ _ Hget1) as S1. pose proof (Hsmall _ _ _ _ _ Hget2) as S2.
  pose proof (py_get_size _ _ _ Hdata1) as G1. pose proof (py_get_size _ _ _ Hdata2) as G2.
  unfold games_played_dates, rbind in Hplayed.
  destruct (py_iter game_log) as [entries|] eqn:E1; [|discriminate].
  pose proof (py_iter_length _ _ E1) as L1.
  pose proof (played_dates_of_length _ _ Hplayed) as L1'.
  unfold _extract_schedule_dates, rbind in Hdates.
  destruct (py_iter team_schedule) as [blocks|] eqn:E2; [|discriminate].
  pose proof (py_iter_length _ _ E2) as L2.
  pose proof (extract_dates_loop_length _ _ _ Hdates) as L2'. simpl in L2'.
  unfold list_or. destruct schedule_dates; unfold date in *; simpl in *; lia.
Qed.

End WorldBounds.

(** ** The Due-Status Evaluator *)

Lemma for_return_some {A B : Type} (body : A -> result (option B)) (items : list A)
      (v : B) :
  for_return body items = Ok (Some v) ->
  exists x, In x items /\ body x = Ok (Some v).
Proof.
  induction items as [|x rest IH]; simpl; [discriminate|].
  unfold rbind. destruct (body x) as [[b|]|] eqn:E; try discriminate.
  - intros [= ->]. exists x. auto.
  - intros H. destruct (IH H) as (y & Hin & Hy). exists y. auto.
Qed.

Lemma _next_game_for_team_found (schedule_today next_game : json) (team_id : Z) :
  _next_game_for_team schedule_today team_id = Ok next_game ->
  py_truthy next_game = true ->
  team_plays_in schedule_today team_id.
Proof.
  unfold _next_game_for_team, rbind. intros H Htruthy.
  destruct (py_get schedule_today "dates" (JArr [])) as [dates|] eqn:Hdates; [|discriminate].
  destruct (py_iter dates) as [blocks|] eqn:Hblocks; [|discriminate].
  destruct (for_return (next_game_in_block team_id) blocks) as [[found|]|] eqn:Hfor;
    try discriminate.
  2:{ injection H as <-. discriminate. }
  clear H Htruthy.
  apply for_return_some in Hfor. destruct Hfor as (date_block & Hin1 & Hblock).
  unfold next_game_in_block, rbind in Hblock.
  destruct (py_get date_block "games" (JArr [])) as [games|] eqn:Hgames; [|discriminate].
  destruct (py_iter games) as [game_list|] eqn:Hlist; [|discriminate].
  apply for_return_some in Hblock. destruct Hblock as (game & Hin2 & Hgame).
  unfold next_game_in_game, rbind in Hgame.
  destruct (py_get game "teams" (JObj [])) as [teams|] eqn:Hteams; [|discriminate].
  apply for_return_some in Hgame. destruct Hgame as (side & Hin3 & Hside).
  unfold next_game_side, rbind in Hside.
  destruct (py_get teams side (JObj [])) as [side_entry|] eqn:Hentry; [|discriminate].
  destruct (py_get_none side_entry "team") as [team|] eqn:Hteam; [|discriminate].
  destruct (team_matches team team_id) as [[|]|] eqn:Hmatch; try discriminate.
  unfold team_matches, rbind in Hmatch.
  destruct (py_truthy team) eqn:Ht; [|discriminate].
  destruct (py_get_none team "id") as [team_ident|] eqn:Hid; [|discriminate].
  injection Hmatch as Hmatch.
  exists dates, games, teams, side_entry, team, team_ident, blocks, game_list,
    date_block, game, side.
  repeat split; assumption.
Qed.

Lemma next_game_found (schedule_today dates found : json) (blocks : list json)
      (team_id : Z) :
  py_get schedule_today "dates" (JArr []) = Ok dates ->
  py_iter dates = Ok blocks ->
  for_return (next_game_in_block team_id) blocks = Ok (Some found) ->
  exists opponent start_time,
    found = JObj [("opponent"%string, opponent); ("startTime"%string, start_time)]
    /\ game_of_team schedule_today team_id opponent start_time.
Proof.
  intros Hdates Hblocks Hfor.
  apply for_return_some in Hfor. destruct Hfor as (date_block & Hin1 & Hblock).
  unfold next_game_in_block, rbind in Hblock.
  destruct (py_get date_block "games" (JArr [])) as [games|] eqn:Hgames; [|discriminate].
  destruct (py_iter games) as [game_list|] eqn:Hlist; [|discriminate].
  apply for_return_some in Hblock. destruct Hblock as (game & Hin2 & Hgame).
  unfold next_game_in_game, rbind in Hgame.
  destruct (py_get game "teams" (JObj [])) as [teams|] eqn:Hteams; [|discriminate].
  apply for_return_some in Hgame. destruct Hgame as (side & Hin3 & Hside).
  unfold next_game_side, rbind in Hside.
  destruct (py_get teams side (JObj [])) as [side_entry|] eqn:Hentry; [|discriminate].
  destruct (py_get_none side_entry "team") as [team|] eqn:Hteam; [|discriminate].
  destruct (team_matches team team_id) as [[|]|] eqn:Hmatch; try discriminate.
  set (opponent_side := if String.eqb side "home" then "away"%string else "home"%string) in *.
  destruct (py_get teams opponent_side (JObj [])) as [opponent_entry|] eqn:Hoe;
    [|discriminate].
  destruct (py_get opponent_entry "team" (JObj [])) as [opponent_team|] eqn:Hot;
    [|discriminate].
  destruct (py_get opponent_team "name" (JStr "")) as [opponent|] eqn:Hon;
    [|discriminate].
  destruct (py_get game "gameDate" (JStr "")) as [start_time|] eqn:Hst; [|discriminate].
  injection Hside as <-.
  exists opponent, start_time. split; [reflexivity|].
  unfold team_matches, rbind in Hmatch.
  destruct (py_truthy team) eqn:Ht; [|discriminate].
  destruct (py_get_none team "id") as [team_ident|] eqn:Hid; [|discriminate].
  injection Hmatch as Hmatch.
  exists dates, games, teams, opponent_entry, opponent_team, blocks, game_list,
    date_block, game, side, opponent_side.
  repeat split; try assumption.
  - subst opponent_side. destruct Hin3 as [<-|[<-|[]]]; [left | right]; split; reflexivity.
  - exists teams, side_entry, team, team_ident. repeat split; assumption.
Qed.

Lemma _next_game_for_team_game (schedule_today next_game : json) (team_id : Z) :
  _next_game_for_team schedule_today team_id = Ok next_game ->
  next_game = JNull
  \/ exists opponent start_time,
       next_game = JObj [("opponent"%string, opponent); ("startTime"%string, start_time)]
       /\ game_of_team schedule_today team_id opponent start_time.
Proof.
  unfold _next_game_for_team, rbind. intros H.
  destruct (py_get schedule_today "dates" (JArr [])) as [dates|] eqn:Hdates; [|discriminate].
  destruct (py_iter dates) as [blocks|] eqn:Hblocks; [|discriminate].
  destruct (for_return (next_game_in_block team_id) blocks) as [[found|]|] eqn:Hfor;
    try discriminate; injection H as <-; [right | left; reflexivity].
  exact (next_game_found _ _ _ _ _ Hdates Hblocks Hfor).
Qed.

Section WorldTheorems.

Variable W : Type.
Variable session_get : string -> W -> http_outcome * W.
Variable date_today : W -> date * W.

Lemma gates_expected (today season_start : date)
      (current_season schedule_today : json) (scorer : PlayerBaseline)
      (w w' : W) (status : PlayerDueStatus) :
  due_gates session_get today season_start current_season schedule_today
            scorer w status w' ->
  float_sign_is (xorb (goals scorer <? 0) (games_played scorer <? 0))
                (expected_days_between_goals status)
  /\ int_gt_float (days_since_last_goal status)
                  (expected_days_between_goals status) = true
  /\ int_le_float (days_since_last_goal status)
                  (expected_days_between_goals status) = false.
Proof.
  intros (game_log & w1 & last_goal & played_dates & team_schedule
          & schedule_dates & avg_days & gpg & rate & next_game
          & Hlog & Hlast & Hplayed & Hsched & Hdates & Havg & Havg0 & Hgpg
          & Hgpg0 & Hrate & Hle & Hnext & Htruthy & Hopp & Hstart & Hp & Hd
          & Hdays & Hexp).
  rewrite Hdays, Hexp.
  destruct (average_shape_sign _ _ Havg) as [Hshape Hsign].
  destruct (float_eq_int_0_false _ Hshape Havg0) as (sa & ma & ea & -> & _ & _).
  simpl in Hsign. subst sa.
  destruct (goals_per_game_shape _ _ Hgpg Hgpg0) as (m & e & -> & _ & _).
  pose proof (expected_days_sign _ m ma e ea rate Hrate) as Hs.
  split; [exact Hs|]. split; [|exact Hle].
  apply (int_le_float_false_gt _ _ _ Hs Hle).
Qed.

(** C2.  Every record of a run has a drought strictly greater than the
    expected gap (and not less than or equal to it); a candidate that
    reaches the comparison with a drought less than or equal to the expected
    gap is skipped. *)
Theorem due_decision_strict :
  (forall (today : option date) (w w' : W) (records : list PlayerDueStatus),
      evaluate_due_players session_get date_today today w = Ok (records, w') ->
      Forall (fun status =>
                int_gt_float (days_since_last_goal status)
                             (expected_days_between_goals status) = true
                /\ int_le_float (days_since_last_goal status)
                                (expected_days_between_goals status) = false)
             records)
  /\ (forall (today season_start : date) (current_season schedule_today : json)
             (scorer : PlayerBaseline) (w w1 w2 : W) (game_log team_schedule : json)
             (last_goal : date) (played_dates schedule_dates : list date)
             (avg_days gpg rate : float),
         fetch_player_gamelog session_get (player_id scorer) current_season w
         = Ok (game_log, w1) ->
         last_goal_date game_log = Ok (Some last_goal) ->
         games_played_dates game_log = Ok played_dates ->
         fetch_schedule_for_range session_get (team_id scorer) season_start today w1
         = Ok (team_schedule, w2) ->
         _extract_schedule_dates team_schedule = Ok schedule_dates ->
         average_days_between_games (list_or schedule_dates played_dates)
         = Ok avg_days ->
         float_eq_int avg_days 0 = false ->
         goals_per_game scorer = Ok gpg ->
         float_eq_int gpg 0 = false ->
         float_truediv float_one gpg = Ok rate ->
         int_le_float (today - last_goal) (float_mul rate avg_days) = true ->
         evaluate_player session_get today season_start current_season
                         schedule_today scorer w = Ok (None, w2)).
Proof.
  split.
  - intros today w w' records H.
    destruct (evaluate_due_players_records _ _ _ _ _ _ _ H)
      as (day & season_start & cs & sched & w0 & w3 & w4 & _ & _ & Hall).
    eapply Forall_impl; [|exact Hall].
    intros status (_ & wa & wb & Hg). cbv beta.
    destruct (gates_expected _ _ _ _ _ _ _ _ Hg) as (_ & H1 & H2). auto.
  - intros today season_start cs sched scorer w w1 w2 game_log team_schedule
           last_goal played_dates schedule_dates avg_days gpg rate
           Hlog Hlast Hplayed Hsched Hdates Havg Havg0 Hgpg Hgpg0 Hrate Hle.
    unfold evaluate_player.
    rewrite (mbind_eq _ _ _ _ _ Hlog). cbv beta.
    rewrite (mbind_lift_eq _ _ _ _ Hlast). cbv beta iota.
    rewrite (mbind_lift_eq _ _ _ _ Hplayed). cbv beta.
    rewrite (mbind_eq _ _ _ _ _ Hsched). cbv beta.
    rewrite (mbind_lift_eq _ _ _ _ Hdates). cbv beta.
    rewrite (mbind_lift_eq _ _ _ _ Havg). cbv beta. rewrite Havg0.
    rewrite (mbind_lift_eq _ _ _ _ Hgpg). cbv beta. rewrite Hgpg0.
    rewrite (mbind_lift_eq _ _ _ _ Hgpg). cbv beta.
    rewrite (mbind_lift_eq _ _ _ _ Hrate). cbv beta zeta. rewrite Hle.
    reflexivity.
Qed.

(** C3.  Every record of a run has a drought strictly greater than the
    expected gap, and a game was found for its player's team in the schedule
    fetched for the evaluation date: the record's opponent is the team on
    the other side of that game, and its start time is that game's. *)
Theorem due_status_invariant (today : option date) (w w' : W)
        (records : list PlayerDueStatus) :
  evaluate_due_players session_get date_today today w = Ok (records, w') ->
  exists (day : date) (current_season season_dates schedule_today : json)
         (w0 w1 w2 w3 : W),
    (day, w0) = match today with Some d => (d, w) | None => date_today w end
    /\ get_current_season_id session_get w0 = Ok (current_season, w1)
    /\ get_season_dates session_get current_season w1 = Ok (season_dates, w2)
    /\ fetch_schedule_for_day session_get day w2 = Ok (schedule_today, w3)
    /\ Forall (fun status =>
                 int_gt_float (days_since_last_goal status)
                              (expected_days_between_goals status) = true
                 /\ team_plays_in schedule_today (team_id (player status))
                 /\ game_of_team schedule_today (team_id (player status))
                                 (next_game_opponent status)
                                 (next_game_start_time status)
                 /\ exists next_game,
                     _next_game_for_team schedule_today (team_id (player status))
                     = Ok next_game
                     /\ next_game <> JNull
                     /\ py_getitem next_game "opponent"
                        = Ok (next_game_opponent status)
                     /\ py_getitem next_game "startTime"
                        = Ok (next_game_start_time status))
              records.
Proof.
  intros H.
  destruct (evaluate_due_players_run _ _ _ _ _ _ _ H)
    as (day & season_start & cs & sd & sched & prev & teams & scorers
        & w0 & w1 & w2 & w3 & w4
        & Hday & Hcs & _ & Hsd & _ & Hfetch & _ & _ & Hloop).
  exists day, cs, sd, sched, w0, w1, w2, w3.
  split; [exact Hday|]. split; [exact Hcs|]. split; [exact Hsd|].
  split; [exact Hfetch|].
  apply (due_players_loop_forall _ _ _ _ _ _ _ _ _ _ _ _ Hloop); [constructor|].
  intros scorer wa status wb _ Hev. apply evaluate_player_gates in Hev.
  destruct (gates_expected _ _ _ _ _ _ _ _ Hev) as (_ & Hgt & _).
  destruct Hev as (game_log & wl & last_goal & played_dates & team_schedule
                   & schedule_dates & avg_days & gpg & rate & next_game
                   & Hlog & Hlast & Hplayed & Hsched & Hdates & Havg & Havg0 & Hgpg
                   & Hgpg0 & Hrate & Hle & Hnext & Htruthy & Hopp & Hstart & Hp & Hd
                   & Hdays & Hexp).
  rewrite Hp.
  split; [exact Hgt|]. split; [apply (_next_game_for_team_found _ _ _ Hnext Htruthy)|].
  split.
  - destruct (_next_game_for_team_game _ _ _ Hnext) as [->|(o & t & -> & Hgame)];
      [discriminate|].
    simpl in Hopp, Hstart. injection Hopp as <-. injection Hstart as <-.
    exact Hgame.
  - exists next_game. repeat split; try assumption.
    intros ->. discriminate.
Qed.

(** C10, amended.  Every record of a run whose player has a non-negative
    number of games played has a drought of at least one day and an expected
    gap that is not negative (no NaN, sign bit clear); the expected gap is
    strictly greater than 0 when no document of the provider has 2^50 nodes
    or more. *)
Theorem due_status_positive (today : option date) (w w' : W)
        (records : list PlayerDueStatus) :
  evaluate_due_players session_get date_today today w = Ok (records, w') ->
  Forall (fun status =>
            0 <= games_played (player status) ->
            1 <= days_since_last_goal status
            /\ float_sign_is false (expected_days_between_goals status)
            /\ (responses_small session_get ->
                float_gt_int (expected_days_between_goals status) 0 = true))
         records.
Proof.
  intros H.
  destruct (evaluate_due_players_records _ _ _ _ _ _ _ H)
    as (day & season_start & cs & sched & w0 & w3 & w4 & _ & _ & Hall).
  eapply Forall_impl; [|exact Hall].
  intros status (Hgoals & wa & wb & Hg) Hgames. cbv beta.
  destruct (gates_expected _ _ _ _ _ _ _ _ Hg) as (Hsign & Hgt & _).
  unfold DEFAULT_MIN_GOALS in Hgoals.
  assert (Hs : xorb (goals (player status) <? 0) (games_played (player status) <? 0)
               = false).
  { destruct (Z.ltb_spec (goals (player status)) 0); [lia|].
    destruct (Z.ltb_spec (games_played (player status)) 0); [lia|]. reflexivity. }
  rewrite Hs in Hsign.
  split; [exact (int_gt_float_nonneg _ _ Hsign Hgt)|]. split; [exact Hsign|].
  intros Hsmall.
  destruct (gates_cadence_length _ _ _ _ _ _ _ _ _ _ Hsmall Hg)
    as (dates & avg_days & gpg & rate & Havg & Hlen & Havg0 & Hgpg & Hgpg0 & Hrate & ->).
  destruct (average_mag _ _ Havg Havg0 Hlen) as (ma & ea & -> & Hmag).
  destruct (goals_per_game_shape _ _ Hgpg Hgpg0) as (m & e & -> & Hd & He).
  rewrite Hs in Hrate.
  apply (expected_days_positive m ma e ea rate Hd He Hmag Hrate).
Qed.

End WorldTheorems.

Lemma due_decision_strict_witness :
  evaluate_due_players
    (scenario_get (scenario_skaters 40 40) (scenario_gamelog "2024-01-10"))
    scenario_clock None tt
  = Ok ([scenario_status 40 10 float_3], tt)
  /\ int_gt_float 10 float_3 = true
  /\ int_le_float 3 float_3 = true
  /\ evaluate_player
       (scenario_get (scenario_skaters 40 40) (scenario_gamelog "2024-01-10"))
       738898 738803 (JStr "20232024") scenario_schedule_today (scenario_scorer 40) tt
     = Ok (None, tt).
Proof.
  pose proof (due_decision_strict unit
                (scenario_get (scenario_skaters 40 40) (scenario_gamelog "2024-01-10"))
                scenario_clock) as [Hstrict Hskip].
  assert (Hrun : evaluate_due_players
                   (scenario_get (scenario_skaters 40 40) (scenario_gamelog "2024-01-10"))
                   scenario_clock None tt
                 = Ok ([scenario_status 40 10 float_3], tt)) by reflexivity.
  split; [exact Hrun|].
  split.
  { pose proof (Hstrict None tt tt _ Hrun) as Hall.
    apply Forall_inv in Hall. exact (proj1 Hall). }
  split; [reflexivity|].
  eapply Hskip; reflexivity.
Defined.

Lemma due_status_invariant_witness :
  evaluate_due_players
    (scenario_get (scenario_skaters 40 40) (scenario_gamelog "2024-01-10"))
    scenario_clock None tt
  = Ok ([scenario_status 40 10 float_3], tt)
  /\ team_plays_in scenario_schedule_today 10
  /\ game_of_team scenario_schedule_today 10
                  (JStr "Boston") (JStr "2024-01-20T19:00:00Z").
Proof.
  assert (Hrun : evaluate_due_players
                   (scenario_get (scenario_skaters 40 40) (scenario_gamelog "2024-01-10"))
                   scenario_clock None tt
                 = Ok ([scenario_status 40 10 float_3], tt)) by reflexivity.
  split; [exact Hrun|].
  destruct (due_status_invariant unit _ _ None tt tt _ Hrun)
    as (day & cs & sd & sched & w0 & w1 & w2 & w3 & Hday & _ & _ & Hfetch & Hall).
  injection Hday as -> ->. destruct w2. injection Hfetch as <- _.
  apply Forall_inv in Hall.
  split; [exact (proj1 (proj2 Hall)) | exact (proj1 (proj2 (proj2 Hall)))].
Defined.

Lemma scenario_responses_small (skaters gamelog : json) :
  Z.of_nat (json_size skaters) < 2 ^ 50 ->
  Z.of_nat (json_size gamelog) < 2 ^ 50 ->
  responses_small (scenario_get skaters gamelog).
Proof.
  intros Hs Hg url w status data w' H. unfold scenario_get in H.
  destruct (String.prefix SEASONS_API url);
    [injection H as _ <- _; reflexivity|].
  destruct (String.prefix SKATER_SUMMARY_API url);
    [injection H as _ <- _; exact Hs|].
  destruct (String.prefix PLAYER_GAMELOG_API url);
    [injection H as _ <- _; exact Hg|].
  destruct (String.prefix _ url); injection H as _ <- _; reflexivity.
Qed.

Lemma due_status_positive_witness :
  responses_small
    (scenario_get (scenario_skaters 40 40) (scenario_gamelog "2024-01-10"))
  /\ evaluate_due_players
       (scenario_get (scenario_skaters 40 40) (scenario_gamelog "2024-01-10"))
       scenario_clock None tt
     = Ok ([scenario_status 40 10 float_3], tt)
  /\ 1 <= 10 /\ float_gt_int float_3 0 = true.
Proof.
  assert (Hsmall : responses_small
            (scenario_get (scenario_skaters 40 40) (scenario_gamelog "2024-01-10")))
    by (apply scenario_responses_small; reflexivity).
  assert (Hrun : evaluate_due_players
                   (scenario_get (scenario_skaters 40 40) (scenario_gamelog "2024-01-10"))
                   scenario_clock None tt
                 = Ok ([scenario_status 40 10 float_3], tt)) by reflexivity.
  split; [exact Hsmall|]. split; [exact Hrun|].
  pose proof (due_status_positive unit _ _ None tt tt _ Hrun) as Hall.
  apply Forall_inv in Hall.
  destruct Hall as (Hdays & _ & Hpos); [simpl; lia|].
  split; [exact Hdays | exact (Hpos Hsmall)].
Defined.

(** C10, as stated, fails: a scorer whose season totals carry a negative
    number of games played is emitted with a negative expected gap and a
    drought of zero days. *)
Lemma due_status_negative_games :
  evaluate_due_players
    (scenario_get (scenario_skaters 40 (-40)) (scenario_gamelog "2024-01-20"))
    scenario_clock None tt
  = Ok ([scenario_status (-40) 0 (S754_finite true 6755399441055744 (-51))], tt)
  /\ float_gt_int
       (expected_days_between_goals
          (scenario_status (-40) 0 (S754_finite true 6755399441055744 (-51)))) 0
     = false
  /\ days_since_last_goal
       (scenario_status (-40) 0 (S754_finite true 6755399441055744 (-51))) = 0.
Proof. repeat split; reflexivity. Qed.

(** ** The Goal-Drought Analyzer *)

Lemma max_of_spec (l : list Z) :
  forall x, In (max_of x l) (x :: l) /\ (forall y, In y (x :: l) -> y <= max_of x l).
Proof.
  unfold max_of. induction l as [|z l IH]; intros x; simpl.
  - split; [auto|]. intros y [<-|[]]. lia.
  - destruct (IH (Z.max x z)) as [Hin Hmax]. split.
    + destruct Hin as [Hin | Hin]; [|auto].
      rewrite <- Hin. destruct (Z.max_spec x z) as [[_ ->] | [_ ->]]; auto.
    + intros y Hy. 
      assert (Hxz : x <= Z.max x z /\ z <= Z.max x z) by lia.
      pose proof (Hmax (Z.max x z) (or_introl eq_refl)) as Hm.
      destruct Hy as [<- | [<- | Hy]]; [lia | lia |].
      apply Hmax. right. exact Hy.
Qed.







(** C1.  An entry of the game log without its date is not skipped: both
    computations raise [KeyError] on it (the first one when the entry has a
    goal), and so does the whole run; [_extract_schedule_dates] does skip a
    schedule block without its date. *)
Theorem game_log_missing_date_raises :
  (forall (before after : list json) (fields : list (string * json)) (ds : list date),
      played_dates_of before = Ok ds ->
      dict_lookup fields "gameDate" = None ->
      games_played_dates (JArr (before ++ JObj fields :: after))
      = Raise (KeyError "gameDate"))
  /\ (forall (before after : list json) (fields : list (string * json))
             (ds : list date) (n : Z),
         goal_games_of before = Ok ds ->
         dict_lookup fields "gameDate" = None ->
         entry_goals (JObj fields) = Ok n -> 0 < n ->
         last_goal_date (JArr (before ++ JObj fields :: after))
         = Raise (KeyError "gameDate"))
  /\ (forall (after : list json) (fields : list (string * json)),
         dict_lookup fields "date" = None ->
         _extract_schedule_dates (JArr (JObj fields :: after))
         = _extract_schedule_dates (JArr after))
  /\ evaluate_due_players
       (scenario_get (scenario_skaters 40 40) scenario_gamelog_undated)
       scenario_clock None tt
     = Raise (KeyError "gameDate").
Proof.
  split; [|split; [|split]].
  - intros before after fields ds Hbefore Hmissing. unfold games_played_dates. simpl.
    revert ds Hbefore. induction before as [|e before IH]; intros ds Hbefore; simpl.
    + unfold entry_date, rbind. simpl. rewrite Hmissing. reflexivity.
    + simpl in Hbefore. unfold rbind in *.
      destruct (entry_date e); [|discriminate].
      destruct (played_dates_of before) as [ds'|]; [|discriminate].
      rewrite (IH ds' eq_refl). reflexivity.
  - intros before after fields ds n Hbefore Hmissing Hgoals Hpos.
    unfold last_goal_date. simpl.
    assert (H : goal_games_of (before ++ JObj fields :: after)
                = Raise (KeyError "gameDate")).
    { revert ds Hbefore. induction before as [|e before IH]; intros ds Hbefore; simpl.
      - unfold rbind. rewrite Hgoals. destruct (Z.ltb_spec 0 n); [|lia].
        unfold entry_date. simpl. rewrite Hmissing. reflexivity.
      - simpl in Hbefore. unfold rbind in *.
        destruct (entry_goals e) as [m|]; [|discriminate].
        destruct (0 <? m).
        + destruct (entry_date e); [|discriminate].
          destruct (goal_games_of before) as [ds'|]; [|discriminate].
          rewrite (IH ds' eq_refl). reflexivity.
        + apply (IH ds Hbefore). }
    rewrite H. reflexivity.
  - intros after fields Hmissing. unfold _extract_schedule_dates. simpl.
    rewrite Hmissing. reflexivity.
  - reflexivity.
Qed.

(** ** The baseline's rate *)

(** C7.  Goals per game is 0.0 when no game was played, and the quotient of
    goals by games played otherwise; it never raises a division by zero, and
    it returns a float whenever the goal count is below 2^1022. *)
Theorem goals_per_game_spec (self : PlayerBaseline) :
  (games_played self = 0 -> goals_per_game self = Ok float_zero)
  /\ (games_played self <> 0 ->
      goals_per_game self = int_truediv (goals self) (games_played self))
  /\ goals_per_game self <> Raise ZeroDivisionError
  /\ (Z.abs (goals self) < 2 ^ 1022 -> exists q, goals_per_game self = Ok q).
Proof.
  unfold goals_per_game.
  destruct (Z.eqb_spec (games_played self) 0) as [Hz | Hnz].
  - split; [reflexivity|]. split; [congruence|]. split; [discriminate|]. eauto.
  - split; [congruence|]. split; [reflexivity|].
    split; [apply int_truediv_no_zero_division; exact Hnz|].
    apply int_truediv_returns. exact Hnz.
Qed.

Lemma goals_per_game_spec_witness :
  goals_per_game {| player_id := 1; name := JStr "A B"; team_id := 10;
                    team_abbrev := JStr "TOR"; goals := 0; games_played := 0 |}
  = Ok float_zero
  /\ goals_per_game (scenario_scorer 40) = Ok float_one.
Proof.
  split.
  - apply (goals_per_game_spec _). reflexivity.
  - rewrite (proj1 (proj2 (goals_per_game_spec (scenario_scorer 40))));
      [reflexivity | discriminate].
Defined.

(** ** The report *)

Lemma fold_left_append_rows (rows : list PlayerDueStatus) :
  forall lines : list string,
    fold_left (fun lines entry => lines ++ [format_row entry]) rows lines
    = lines ++ map format_row rows.
Proof.
  induction rows as [|r rows IH]; intros lines; simpl.
  - rewrite app_nil_r. reflexivity.
  - rewrite IH, <- app_assoc. reflexivity.
Qed.

Lemma count_newlines_app (a b : string) :
  count_newlines (a ++ b) = (count_newlines a + count_newlines b)%nat.
Proof. induction a as [|c a IH]; simpl; [reflexivity|]. rewrite IH. lia. Qed.

Lemma str_of_int_digit (d : Z) :
  0 <= d < 10 ->
  exists c, str_of_int d = String c EmptyString /\ is_digit c = true.
Proof.
  intros Hd.
  assert (H : d = 0 \/ d = 1 \/ d = 2 \/ d = 3 \/ d = 4 \/ d = 5 \/ d = 6 \/ d = 7
              \/ d = 8 \/ d = 9) by lia.
  repeat (destruct H as [-> | H]; [eexists; split; reflexivity|]).
  subst d. eexists; split; reflexivity.
Qed.

Lemma round_half_even_nonneg (num den : Z) :
  0 <= num -> 0 < den -> 0 <= round_half_even num den.
Proof.
  intros Hn Hd. unfold round_half_even.
  assert (0 <= num / den) by (apply Z.div_pos; lia).
  destruct (2 * (num mod den) ?= den); [destruct (Z.even (num / den))| |]; lia.
Qed.

Lemma tenths_nonneg (m : positive) (e : Z) : 0 <= tenths m e.
Proof.
  unfold tenths. destruct (Z.leb_spec 0 e).
  - assert (0 < 2 ^ e) by (apply Z.pow_pos_nonneg; lia). nia.
  - apply round_half_even_nonneg; [lia | apply Z.pow_pos_nonneg; lia].
Qed.

Lemma fixed1_shape (negative : bool) (t : Z) :
  0 <= t ->
  exists (sign : string) (whole : Z) (tenth : ascii),
    fixed1 negative t
    = (sign ++ str_of_int whole ++ "." ++ String tenth EmptyString)%string
    /\ (sign = EmptyString \/ sign = "-"%string)
    /\ 0 <= whole /\ is_digit tenth = true.
Proof.
  intros Ht. unfold fixed1.
  destruct (str_of_int_digit (t mod 10)) as (c & Hc & Hdig).
  { apply Z.mod_pos_bound. lia. }
  exists (if negative then "-"%string else EmptyString), (t / 10), c.
  rewrite Hc. split; [reflexivity|].
  split; [destruct negative; auto|]. split; [apply Z.div_pos; lia | exact Hdig].
Qed.

Local Open Scope string_scope.

(** C9, amended.  The formatter returns the literal sentence for an empty
    input; otherwise a title line, a line of column names, a separator line
    and one row per record, in order; a row is the name, the team
    abbreviation, the integer drought, the expected gap, the opponent and the
    start time joined by [" | "]; a finite expected gap is written with
    exactly one digit after the decimal point. *)
Theorem format_due_players_layout :
  format_due_players [] = "No players are past due based on last season's scoring rate."
  /\ (forall (entry : PlayerDueStatus) (rest : list PlayerDueStatus),
         format_due_players (entry :: rest)
         = join newline
             ("Past due goal scorers with games today:"
              :: "Player | Team | Days Since Last Goal | Expected Days | Opponent | Game Time"
              :: "------ | ---- | -------------------- | ------------- | -------- | ---------"
              :: map format_row (entry :: rest)))
  /\ (forall entry : PlayerDueStatus,
         format_row entry
         = join " | " [py_str (name (player entry));
                       py_str (team_abbrev (player entry));
                       str_of_int (days_since_last_goal entry);
                       format_1f (expected_days_between_goals entry);
                       py_str (next_game_opponent entry);
                       py_str (next_game_start_time entry)])
  /\ (forall x : float,
         float_shape x ->
         exists (sign : string) (whole : Z) (tenth : ascii),
           format_1f x = sign ++ str_of_int whole ++ "." ++ String tenth EmptyString
           /\ (sign = EmptyString \/ sign = "-")
           /\ (0 <= whole)%Z /\ is_digit tenth = true).
Proof.
  split; [reflexivity|]. split; [|split].
  - intros entry rest. unfold format_due_players.
    rewrite fold_left_append_rows. reflexivity.
  - intros entry. reflexivity.
  - intros x Hx. destruct x as [s|s| |s m e]; try contradiction; simpl format_1f.
    + apply fixed1_shape. lia.
    + apply fixed1_shape. apply tenths_nonneg.
Qed.

Lemma format_due_players_layout_witness :
  format_due_players [scenario_status 40 10 float_3]
  = join newline
      ["Past due goal scorers with games today:";
       "Player | Team | Days Since Last Goal | Expected Days | Opponent | Game Time";
       "------ | ---- | -------------------- | ------------- | -------- | ---------";
       "A B | TOR | 10 | 3.0 | Boston | 2024-01-20T19:00:00Z"]
  /\ float_shape float_3.
Proof.
  split.
  - rewrite (proj1 (proj2 format_due_players_layout)). reflexivity.
  - simpl. lia.
Defined.

(** C9, as stated, fails: the text for one record is not a header line, a
    separator line and the row, whatever the two lines are (it has one more
    line, the title); and an infinite expected gap is written [inf], without
    a decimal digit. *)
Lemma format_due_players_title_line :
  (forall header separator : string,
      count_newlines header = 0%nat -> count_newlines separator = 0%nat ->
      format_due_players [scenario_status 40 10 float_3]
      <> join newline [header; separator; format_row (scenario_status 40 10 float_3)])
  /\ format_row (scenario_status 40 10 (S754_infinity false))
     = "A B | TOR | 10 | inf | Boston | 2024-01-20T19:00:00Z".
Proof.
  split; [|reflexivity].
  intros header separator Hh Hs Heq.
  apply (f_equal count_newlines) in Heq.
  change (join newline [header; separator; format_row (scenario_status 40 10 float_3)])
    with (header ++ (newline ++ (separator
            ++ (newline ++ format_row (scenario_status 40 10 float_3))))) in Heq.
  rewrite !count_newlines_app, Hh, Hs in Heq.
  vm_compute in Heq. discriminate.
Qed.

Local Close Scope string_scope.

(** * Further properties of the pipeline *)

(** ** The calendar: ordinals and year, month, day *)

Lemma range_all_spec (f : Z -> bool) (n : nat) : forall lo,
  range_all f lo n = true -> forall z, lo <= z < lo + Z.of_nat n -> f z = true.
Proof.
  induction n as [|k IH]; intros lo H z Hz; [lia|].
  simpl in H. apply andb_prop in H. destruct H as [H0 H1].
  destruct (Z.eq_dec z lo) as [->|Hne]; [exact H0|].
  apply (IH (lo + 1) H1). lia.
Qed.

Lemma month_day_spec (leapyear : bool) (n : Z) :
  0 <= n < 365 ->
  exists m dd,
    month_day n leapyear = (m, dd) /\ 1 <= m <= 12 /\ 1 <= dd
    /\ dd <= _DAYS_IN_MONTH m + (if (m =? 2) && leapyear then 1 else 0)
    /\ _DAYS_BEFORE_MONTH m + (if (2 <? m) && leapyear then 1 else 0) + dd = n + 1.
Proof.
  intros Hn.
  assert (H : month_day_ok leapyear n = true).
  { apply (range_all_spec (month_day_ok leapyear) (Z.to_nat 365) 0); [|lia].
    destruct leapyear; vm_compute; reflexivity. }
  unfold month_day_ok in H. destruct (month_day n leapyear) as [m dd].
  repeat (apply andb_prop in H; destruct H as [H ?]).
  exists m, dd. repeat split; try lia.
Qed.

Lemma _is_leap_decomp (a b c e : Z) :
  0 <= b <= 3 -> 0 <= c <= 24 -> 0 <= e <= 3 ->
  _is_leap (400 * a + 100 * b + 4 * c + e + 1)
  = (e =? 3) && (negb (c =? 24) || (b =? 3)).
Proof.
  intros Hb Hc He. unfold _is_leap.
  destruct (Z.eqb_spec e 3), (Z.eqb_spec c 24), (Z.eqb_spec b 3);
  repeat match goal with
         | |- context [(?x =? 0)] => destruct (Z.eqb_spec x 0)
         end; simpl; try reflexivity; exfalso;
  Z.to_euclidean_division_equations; lia.
Qed.

Lemma _days_before_year_decomp (a b c e : Z) :
  0 <= b <= 3 -> 0 <= c <= 24 -> 0 <= e <= 3 ->
  _days_before_year (400 * a + 100 * b + 4 * c + e + 1)
  = 146097 * a + 36524 * b + 1461 * c + 365 * e.
Proof.
  intros Hb Hc He. unfold _days_before_year. cbv zeta.
  Z.to_euclidean_division_equations. lia.
Qed.

(** [_ord2ymd] as the year of the 400-, 100-, 4- and 1-year cycles followed
    by [month_day]. *)
Lemma _ord2ymd_eq (d : Z) :
  _ord2ymd d =
  let n0 := d - 1 in
  let a := n0 / 146097 in
  let r1 := n0 mod 146097 in
  let b := r1 / 36524 in
  let r2 := r1 mod 36524 in
  let c := r2 / 1461 in
  let r3 := r2 mod 1461 in
  let e := r3 / 365 in
  let n := r3 mod 365 in
  let year := a * 400 + 1 + b * 100 + c * 4 + e in
  if (e =? 4) || (b =? 4) then (year - 1, 12, 31)
  else
    let '(m, dd) := month_day n ((e =? 3) && (negb (c =? 24) || (b =? 3))) in
    (year, m, dd).
Proof.
  unfold _ord2ymd, month_day. cbv zeta.
  destruct (_ || _); [reflexivity|].
  destruct (_ <? _); reflexivity.
Qed.

Lemma _ord2ymd_valid (d : date) :
  valid_date d ->
  exists y m dd,
    _ord2ymd d = (y, m, dd) /\ 1 <= y <= 9999 /\ 1 <= m <= 12
    /\ 1 <= dd <= _days_in_month y m /\ _ymd2ord y m dd = d.
Proof.
  intros [Hlo Hhi]. rewrite _ord2ymd_eq. cbv zeta.
  set (n0 := d - 1).
  set (a := n0 / 146097). set (r1 := n0 mod 146097).
  set (b := r1 / 36524). set (r2 := r1 mod 36524).
  set (c := r2 / 1461). set (r3 := r2 mod 1461).
  set (e := r3 / 365). set (n := r3 mod 365).
  assert (H1 : n0 = 146097 * a + r1 /\ 0 <= r1 < 146097).
  { split; [apply Z.div_mod; lia | apply Z.mod_pos_bound; lia]. }
  assert (H2 : r1 = 36524 * b + r2 /\ 0 <= r2 < 36524).
  { split; [apply Z.div_mod; lia | apply Z.mod_pos_bound; lia]. }
  assert (H3 : r2 = 1461 * c + r3 /\ 0 <= r3 < 1461).
  { split; [apply Z.div_mod; lia | apply Z.mod_pos_bound; lia]. }
  assert (H4 : r3 = 365 * e + n /\ 0 <= n < 365).
  { split; [apply Z.div_mod; lia | apply Z.mod_pos_bound; lia]. }
  assert (Hn0 : n0 = d - 1) by reflexivity.
  clearbody n0 a r1 b r2 c r3 e n.
  destruct ((e =? 4) || (b =? 4)) eqn:Hsp.
  - exists (a * 400 + 1 + b * 100 + c * 4 + e - 1), 12, 31.
    split; [reflexivity|].
    assert (Hcase : (e = 4 /\ 0 <= b <= 3 /\ 0 <= c <= 23)
                    \/ (b = 4 /\ c = 0 /\ e = 0)).
    { apply orb_prop in Hsp. destruct Hsp as [He|Hb]; [left|right].
      - apply Z.eqb_eq in He. lia.
      - apply Z.eqb_eq in Hb. lia. }
    destruct Hcase as [(-> & Hb & Hc)|(-> & -> & ->)].
    + replace (a * 400 + 1 + b * 100 + c * 4 + 4 - 1)
        with (400 * a + 100 * b + 4 * c + 3 + 1) by ring.
      unfold _ymd2ord, _days_before_month, _days_in_month.
      rewrite _is_leap_decomp, _days_before_year_decomp by lia.
      replace (c =? 24) with false by (symmetry; apply Z.eqb_neq; lia).
      change (3 =? 3) with true. change (12 =? 2) with false.
      change (2 <? 12) with true.
      cbv beta iota delta [andb orb negb _DAYS_BEFORE_MONTH _DAYS_IN_MONTH].
      repeat split; lia.
    + replace (a * 400 + 1 + 4 * 100 + 0 * 4 + 0 - 1)
        with (400 * a + 100 * 3 + 4 * 24 + 3 + 1) by ring.
      unfold _ymd2ord, _days_before_month, _days_in_month.
      rewrite _is_leap_decomp, _days_before_year_decomp by lia.
      change (3 =? 3) with true. change (12 =? 2) with false.
      change (2 <? 12) with true. change (24 =? 24) with true.
      cbv beta iota delta [andb orb negb _DAYS_BEFORE_MONTH _DAYS_IN_MONTH].
      repeat split; lia.
  - apply orb_false_elim in Hsp. destruct Hsp as [He Hb].
    apply Z.eqb_neq in He, Hb.
    assert (Hb' : 0 <= b <= 3) by lia.
    assert (Hc' : 0 <= c <= 24) by lia.
    assert (He' : 0 <= e <= 3) by lia.
    destruct (month_day_spec ((e =? 3) && (negb (c =? 24) || (b =? 3))) n
                             (proj2 H4))
      as (m & dd & -> & Hm & Hdd & Hdim & Hsum).
    exists (a * 400 + 1 + b * 100 + c * 4 + e), m, dd.
    split; [reflexivity|].
    replace (a * 400 + 1 + b * 100 + c * 4 + e)
      with (400 * a + 100 * b + 4 * c + e + 1) by ring.
    unfold _ymd2ord, _days_before_month, _days_in_month.
    rewrite _is_leap_decomp, _days_before_year_decomp by lia.
    set (leap := (e =? 3) && (negb (c =? 24) || (b =? 3))) in *.
    clearbody leap.
    split; [lia|]. split; [lia|]. split; [|lia].
    split; [lia|].
    destruct (Z.eqb_spec m 2) as [->|Hm2];
      cbv beta iota delta [andb _DAYS_IN_MONTH] in Hdim |- *;
      [destruct leap; lia | lia].
Qed.

Lemma _days_before_year_step (y : Z) :
  _days_before_year (y + 1)
  = _days_before_year y + 365 + (if _is_leap y then 1 else 0).
Proof.
  unfold _days_before_year, _is_leap. cbv zeta.
  replace (y + 1 - 1) with y by ring.
  destruct (Z.eqb_spec (y mod 4) 0), (Z.eqb_spec (y mod 100) 0),
    (Z.eqb_spec (y mod 400) 0);
    cbv beta iota delta [andb orb negb];
    Z.to_euclidean_division_equations; lia.
Qed.

Lemma _days_before_year_mono (y y' : Z) :
  y <= y' -> _days_before_year y <= _days_before_year y'.
Proof.
  intros H. unfold _days_before_year. cbv zeta.
  Z.to_euclidean_division_equations. lia.
Qed.

Ltac months m Hm :=
  assert (m = 1 \/ m = 2 \/ m = 3 \/ m = 4 \/ m = 5 \/ m = 6 \/ m = 7 \/ m = 8
          \/ m = 9 \/ m = 10 \/ m = 11 \/ m = 12) as Hm by lia;
  destruct Hm as [Hm|[Hm|[Hm|[Hm|[Hm|[Hm|[Hm|[Hm|[Hm|[Hm|[Hm|Hm]]]]]]]]]]];
  subst m.

Ltac month_tables :=
  cbv beta iota delta [andb _DAYS_BEFORE_MONTH _DAYS_IN_MONTH Z.ltb Z.eqb Z.compare
                       Pos.compare Pos.compare_cont Pos.eqb] in *.

Lemma day_of_year_span (y m dd : Z) :
  1 <= m <= 12 -> 1 <= dd <= _days_in_month y m ->
  1 <= _days_before_month y m + dd <= 365 + (if _is_leap y then 1 else 0).
Proof.
  intros Hm Hdd. unfold _days_before_month, _days_in_month in *.
  destruct (_is_leap y); months m Hm'; month_tables; lia.
Qed.

Lemma day_of_year_inj (y m dd m' dd' : Z) :
  1 <= m <= 12 -> 1 <= dd <= _days_in_month y m ->
  1 <= m' <= 12 -> 1 <= dd' <= _days_in_month y m' ->
  _days_before_month y m + dd = _days_before_month y m' + dd' ->
  m = m' /\ dd = dd'.
Proof.
  intros Hm Hdd Hm' Hdd' H. unfold _days_before_month, _days_in_month in *.
  destruct (_is_leap y); months m Hx; months m' Hx'; month_tables; lia.
Qed.

Lemma _ymd2ord_span (y m dd : Z) :
  1 <= m <= 12 -> 1 <= dd <= _days_in_month y m ->
  _days_before_year y < _ymd2ord y m dd <= _days_before_year (y + 1).
Proof.
  intros Hm Hdd. rewrite _days_before_year_step. unfold _ymd2ord.
  pose proof (day_of_year_span y m dd Hm Hdd). lia.
Qed.

Lemma _ymd2ord_valid (y m dd : Z) :
  1 <= y <= 9999 -> 1 <= m <= 12 -> 1 <= dd <= _days_in_month y m ->
  valid_date (_ymd2ord y m dd).
Proof.
  intros Hy Hm Hdd. pose proof (_ymd2ord_span y m dd Hm Hdd) as H.
  pose proof (_days_before_year_mono 1 y ltac:(lia)) as H1.
  pose proof (_days_before_year_mono (y + 1) 10000 ltac:(lia)) as H2.
  change (_days_before_year 1) with 0 in H1.
  change (_days_before_year 10000) with 3652059 in H2.
  unfold valid_date. lia.
Qed.

Lemma _ymd2ord_inj (y m dd y' m' dd' : Z) :
  1 <= m <= 12 -> 1 <= dd <= _days_in_month y m ->
  1 <= m' <= 12 -> 1 <= dd' <= _days_in_month y' m' ->
  _ymd2ord y m dd = _ymd2ord y' m' dd' ->
  y = y' /\ m = m' /\ dd = dd'.
Proof.
  intros Hm Hdd Hm' Hdd' H.
  pose proof (_ymd2ord_span y m dd Hm Hdd) as S1.
  pose proof (_ymd2ord_span y' m' dd' Hm' Hdd') as S2.
  assert (Hy : y = y').
  { destruct (Z.lt_trichotomy y y') as [Hlt|[Heq|Hgt]]; [|exact Heq|].
    - pose proof (_days_before_year_mono (y + 1) y' ltac:(lia)). lia.
    - pose proof (_days_before_year_mono (y' + 1) y ltac:(lia)). lia. }
  subst y'. split; [reflexivity|].
  unfold _ymd2ord in H.
  apply (day_of_year_inj y m dd m' dd' Hm Hdd Hm' Hdd'). lia.
Qed.

Lemma _ord2ymd_ymd2ord (y m dd : Z) :
  1 <= y <= 9999 -> 1 <= m <= 12 -> 1 <= dd <= _days_in_month y m ->
  _ord2ymd (_ymd2ord y m dd) = (y, m, dd).
Proof.
  intros Hy Hm Hdd.
  destruct (_ord2ymd_valid _ (_ymd2ord_valid y m dd Hy Hm Hdd))
    as (y' & m' & dd' & -> & Hy' & Hm' & Hdd' & H).
  destruct (_ymd2ord_inj y' m' dd' y m dd Hm' Hdd' Hm Hdd H) as (-> & -> & ->).
  reflexivity.
Qed.

(** ** The Date Utilities: [_parse_date] and [isoformat] *)

Lemma year_text (y : Z) :
  1 <= y <= 9999 ->
  exists y1 y2 y3 y4 a b c e,
    zero_pad 4 (str_of_int y) = String y1 (String y2 (String y3 (String y4 EmptyString)))
    /\ digit_of y1 = Some a /\ digit_of y2 = Some b /\ digit_of y3 = Some c
    /\ digit_of y4 = Some e /\ a * 1000 + b * 100 + c * 10 + e = y.
Proof.
  intros Hy.
  assert (H : year_text_ok y = true).
  { apply (range_all_spec year_text_ok (Z.to_nat 9999) 1); [vm_compute; reflexivity | lia]. }
  unfold year_text_ok in H.
  destruct (zero_pad 4 (str_of_int y)) as [|y1 [|y2 [|y3 [|y4 [|? ?]]]]]; try discriminate.
  destruct (digit_of y1) as [a|] eqn:H1; [|discriminate].
  destruct (digit_of y2) as [b|] eqn:H2; [|discriminate].
  destruct (digit_of y3) as [c|] eqn:H3; [|discriminate].
  destruct (digit_of y4) as [e|] eqn:H4; [|discriminate].
  apply Z.eqb_eq in H.
  exists y1, y2, y3, y4, a, b, c, e. repeat split; assumption || reflexivity.
Qed.

Lemma month_day_text (m dd : Z) :
  1 <= m <= 12 -> 1 <= dd <= 31 ->
  exists rest,
    parse_month (zero_pad 2 (str_of_int m) ++ "-" ++ zero_pad 2 (str_of_int dd))%string
    = Some (m, rest)
    /\ parse_day rest = Some dd.
Proof.
  intros Hm Hdd.
  assert (H : range_all (fun m => range_all (month_day_text_ok m) 1 31) 1 12 = true)
    by (vm_compute; reflexivity).
  pose proof (range_all_spec _ 12 1 H m ltac:(simpl; lia)) as H1.
  cbv beta in H1.
  pose proof (range_all_spec _ 31 1 H1 dd ltac:(simpl; lia)) as H2.
  unfold month_day_text_ok in H2.
  destruct (parse_month _) as [[m' rest]|]; [|discriminate].
  apply andb_prop in H2. destruct H2 as [Hm' Hd].
  apply Z.eqb_eq in Hm'. subst m'.
  exists rest. split; [reflexivity|].
  destruct (parse_day rest) as [d'|]; [|discriminate].
  apply Z.eqb_eq in Hd. subst d'. reflexivity.
Qed.

Lemma _days_in_month_le (y m : Z) : _days_in_month y m <= 31.
Proof.
  unfold _days_in_month. destruct (_ && _); [lia|].
  unfold _DAYS_IN_MONTH.
  repeat match goal with
         | |- context [match ?x with _ => _ end] => destruct x
         end; lia.
Qed.

Lemma date_of_ymd_ok (y m dd : Z) :
  1 <= y <= 9999 -> 1 <= m <= 12 -> 1 <= dd <= _days_in_month y m ->
  date_of_ymd y m dd = Ok (_ymd2ord y m dd).
Proof.
  intros Hy Hm Hdd. unfold date_of_ymd.
  replace (1 <=? y) with true by (symmetry; apply Z.leb_le; lia).
  replace (y <=? 9999) with true by (symmetry; apply Z.leb_le; lia).
  replace (1 <=? m) with true by (symmetry; apply Z.leb_le; lia).
  replace (m <=? 12) with true by (symmetry; apply Z.leb_le; lia).
  replace (1 <=? dd) with true by (symmetry; apply Z.leb_le; lia).
  replace (dd <=? _days_in_month y m) with true by (symmetry; apply Z.leb_le; lia).
  reflexivity.
Qed.


Lemma date_of_ymd_raises (y m dd : Z) (e : exn) :
  date_of_ymd y m dd = Raise e -> e = ValueError.
Proof.
  unfold date_of_ymd.
  repeat match goal with
         | |- context [if ?c then _ else _] => destruct c
         end; congruence.
Qed.

Lemma _parse_date_raise_cases (date_str : json) (e : exn) :
  _parse_date date_str = Raise e ->
  (e = TypeError /\ forall s, date_str <> JStr s)
  \/ (e = ValueError /\ exists s, date_str = JStr s).
Proof.
  destruct date_str as [|b|n|s|items|fields]; simpl;
    try (intros [= <-]; left; split; [reflexivity | intros s; discriminate]).
  intros H. right. split; [|exists s; reflexivity].
  destruct (parse_ymd s) as [[[y m] dd]|]; [|congruence].
  apply (date_of_ymd_raises _ _ _ _ H).
Qed.

(** X1.  Round trip: every date of the calendar (0001-01-01 to 9999-12-31),
    written by [isoformat] as the schedule requests write it, is read back
    by [_parse_date] as the same date. *)
Theorem parse_date_isoformat (d : date) :
  valid_date d -> _parse_date (JStr (isoformat d)) = Ok d.
Proof.
  intros Hd.
  destruct (_ord2ymd_valid d Hd) as (y & m & dd & Hord & Hy & Hm & Hdd & Heq).
  unfold isoformat. rewrite Hord.
  destruct (year_text y Hy)
    as (y1 & y2 & y3 & y4 & a & b & c & e & -> & H1 & H2 & H3 & H4 & Hsum).
  pose proof (_days_in_month_le y m) as Hle.
  destruct (month_day_text m dd Hm ltac:(lia)) as (rest & Hpm & Hpd).
  unfold _parse_date.
  change (parse_ymd
            (String y1 (String y2 (String y3 (String y4 EmptyString))) ++ "-"
             ++ zero_pad 2 (str_of_int m) ++ "-" ++ zero_pad 2 (str_of_int dd))%string)
    with (match digit_of y1, digit_of y2, digit_of y3, digit_of y4 with
          | Some a, Some b, Some c, Some d =>
              match parse_month (zero_pad 2 (str_of_int m) ++ "-"
                                 ++ zero_pad 2 (str_of_int dd))%string with
              | Some (month, rest') =>
                  match parse_day rest' with
                  | Some day => Some (a * 1000 + b * 100 + c * 10 + d, month, day)
                  | None => None
                  end
              | None => None
              end
          | _, _, _, _ => None
          end).
  rewrite H1, H2, H3, H4, Hpm, Hpd, Hsum.
  rewrite (date_of_ymd_ok y m dd Hy Hm Hdd). rewrite Heq. reflexivity.
Qed.

Lemma parse_date_isoformat_witness :
  valid_date 738905 /\ isoformat 738905 = "2024-01-20"%string
  /\ _parse_date (JStr (isoformat 738905)) = Ok 738905.
Proof.
  assert (H : valid_date 738905) by (unfold valid_date; lia).
  split; [exact H|]. split; [reflexivity|].
  exact (parse_date_isoformat 738905 H).
Defined.

(** *** The texts of the format *)


Ltac digits k Hk :=
  assert (k = 0 \/ k = 1 \/ k = 2 \/ k = 3 \/ k = 4 \/ k = 5 \/ k = 6 \/ k = 7
          \/ k = 8 \/ k = 9) as Hk by lia;
  destruct Hk as [Hk|[Hk|[Hk|[Hk|[Hk|[Hk|[Hk|[Hk|[Hk|Hk]]]]]]]]];
  subst k.






Lemma spellings_read (m dd : Z) (mt dt : string) :
  1 <= m <= 12 -> 1 <= dd <= 31 ->
  In mt (month_spellings m) -> In dt (day_spellings dd) ->
  exists rest,
    parse_month (mt ++ "-" ++ dt)%string = Some (m, rest) /\ parse_day rest = Some dd.
Proof.
  intros Hm Hdd Hmt Hdt.
  assert (H : range_all (fun m => range_all (spellings_ok m) 1 31) 1 12 = true)
    by (vm_compute; reflexivity).
  pose proof (range_all_spec _ 12 1 H m ltac:(simpl; lia)) as H1.
  cbv beta in H1.
  pose proof (range_all_spec _ 31 1 H1 dd ltac:(simpl; lia)) as H2.
  unfold spellings_ok in H2. rewrite forallb_forall in H2.
  pose proof (H2 mt Hmt) as H3. rewrite forallb_forall in H3.
  pose proof (H3 dt Hdt) as H4.
  destruct (parse_month _) as [[m' rest]|]; [|discriminate].
  apply andb_prop in H4. destruct H4 as [Hm' Hd].
  apply Z.eqb_eq in Hm'. subst m'.
  exists rest. split; [reflexivity|].
  destruct (parse_day rest) as [d'|]; [|discriminate].
  apply Z.eqb_eq in Hd. subst d'. reflexivity.
Qed.

Lemma _parse_date_text (y m dd : Z) (s : string) :
  calendar_date y m dd -> date_text y m dd s ->
  _parse_date (JStr s) = Ok (_ymd2ord y m dd).
Proof.
  intros (Hy & Hm & Hdd) (mt & dt & Hmt & Hdt & ->).
  destruct (year_text y Hy)
    as (y1 & y2 & y3 & y4 & a & b & c & e & -> & H1 & H2 & H3 & H4 & Hsum).
  pose proof (_days_in_month_le y m) as Hle.
  destruct (spellings_read m dd mt dt Hm ltac:(lia) Hmt Hdt) as (rest & Hpm & Hpd).
  unfold _parse_date.
  change (parse_ymd
            (String y1 (String y2 (String y3 (String y4 EmptyString))) ++ "-"
             ++ mt ++ "-" ++ dt)%string)
    with (match digit_of y1, digit_of y2, digit_of y3, digit_of y4 with
          | Some a, Some b, Some c, Some d =>
              match parse_month (mt ++ "-" ++ dt)%string with
              | Some (month, rest') =>
                  match parse_day rest' with
                  | Some day => Some (a * 1000 + b * 100 + c * 10 + d, month, day)
                  | None => None
                  end
              | None => None
              end
          | _, _, _, _ => None
          end).
  rewrite H1, H2, H3, H4, Hpm, Hpd, Hsum.
  apply (date_of_ymd_ok y m dd Hy Hm Hdd).
Qed.


(** X2.  Every text of the format [%Y-%m-%d] for a date of the calendar,
    with the year in four digits and the month and the day written with or
    without a leading zero (a single-digit day also after a space), is read
    by [_parse_date] as the date whose year, month and day are the ones
    written; the date lies in the calendar's range. *)
Theorem parse_date_components (y m dd : Z) (s : string) :
  calendar_date y m dd -> date_text y m dd s ->
  _parse_date (JStr s) = Ok (_ymd2ord y m dd)
  /\ valid_date (_ymd2ord y m dd)
  /\ _ord2ymd (_ymd2ord y m dd) = (y, m, dd).
Proof.
  intros Hc Ht. split; [apply _parse_date_text; assumption|].
  destruct Hc as (Hy & Hm & Hdd).
  split; [apply _ymd2ord_valid | apply _ord2ymd_ymd2ord]; assumption.
Qed.

Lemma parse_date_components_witness :
  calendar_date 2024 1 5 /\ date_text 2024 1 5 "2024-1-5"
  /\ _parse_date (JStr "2024-1-5") = Ok 738890
  /\ _ord2ymd 738890 = (2024, 1, 5)
  /\ _parse_date (JStr "2024-01- 5") = Ok 738890.
Proof.
  assert (Hc : calendar_date 2024 1 5) by (repeat split; vm_compute; discriminate).
  assert (Ht : date_text 2024 1 5 "2024-1-5").
  { exists "1"%string, "5"%string.
    split; [left; reflexivity|]. split; [left; reflexivity | reflexivity]. }
  assert (Ht' : date_text 2024 1 5 "2024-01- 5").
  { exists "01"%string, " 5"%string.
    split; [right; left; reflexivity|].
    split; [right; right; left; reflexivity | reflexivity]. }
  split; [exact Hc|]. split; [exact Ht|].
  destruct (parse_date_components 2024 1 5 "2024-1-5" Hc Ht) as (H1 & _ & H2).
  split; [exact H1|]. split; [exact H2|].
  exact (proj1 (parse_date_components 2024 1 5 "2024-01- 5" Hc Ht')).
Defined.



(** ** The schedule dates *)

Lemma extract_dates_loop_app (pre rest : list json) :
  forall acc ds,
    extract_dates_loop pre acc = Ok ds ->
    extract_dates_loop (pre ++ rest) acc = extract_dates_loop rest ds.
Proof.
  induction pre as [|block pre IH]; intros acc ds H; simpl in *.
  - injection H as <-. reflexivity.
  - destruct (s <- py_getitem block "date" ;; _parse_date s) as [d|[]];
      try discriminate; apply IH; exact H.
Qed.

Lemma extract_dates_loop_dated (blocks : list json) (found : list (option date)) :
  Forall2 (fun block od =>
             exists fields, block = JObj fields
               /\ match dict_lookup fields "date" with
                  | None => od = None
                  | Some v => exists d, _parse_date v = Ok d /\ od = Some d
                  end) blocks found ->
  forall acc, extract_dates_loop blocks acc = Ok (acc ++ flat_map option_list found).
Proof.
  induction 1 as [|block od blocks found (fields & -> & Hb) _ IH]; intros acc; simpl.
  - rewrite app_nil_r. reflexivity.
  - destruct (dict_lookup fields "date") as [v|].
    + destruct Hb as (d & Hd & ->). simpl. rewrite Hd, IH, <- app_assoc. reflexivity.
    + subst od. simpl. apply IH.
Qed.

(** X4.  On a list of blocks whose dates all parse, [_extract_schedule_dates]
    returns the dates of the blocks that have a ["date"] key, in the order
    of the blocks; a block without the key contributes nothing. *)
Theorem extract_schedule_dates_in_order (blocks : list json)
        (found : list (option date)) :
  Forall2 (fun block od =>
             exists fields, block = JObj fields
               /\ match dict_lookup fields "date" with
                  | None => od = None
                  | Some v => exists d, _parse_date v = Ok d /\ od = Some d
                  end) blocks found ->
  _extract_schedule_dates (JArr blocks) = Ok (flat_map option_list found).
Proof.
  intros H. unfold _extract_schedule_dates. simpl.
  apply (extract_dates_loop_dated blocks found H []).
Qed.

Lemma extract_schedule_dates_in_order_witness :
  _extract_schedule_dates (JArr scenario_blocks) = Ok [738886; 738889].
Proof.
  apply (extract_schedule_dates_in_order scenario_blocks [Some 738886; None; Some 738889]).
  constructor; [eexists; split; [reflexivity|]; simpl; eexists; split; reflexivity|].
  constructor; [eexists; split; [reflexivity|]; reflexivity|].
  constructor; [eexists; split; [reflexivity|]; simpl; eexists; split; reflexivity|].
  constructor.
Defined.

(** X5.  A block whose date does not parse is not skipped: the exception of
    [_parse_date] leaves [_extract_schedule_dates], whatever follows the
    block. *)
Theorem extract_schedule_dates_bad_date (pre post : list json)
        (fields : list (string * json)) (ds : list date) (v : json) (e : exn) :
  _extract_schedule_dates (JArr pre) = Ok ds ->
  dict_lookup fields "date" = Some v ->
  _parse_date v = Raise e ->
  _extract_schedule_dates (JArr (pre ++ JObj fields :: post)) = Raise e.
Proof.
  unfold _extract_schedule_dates. simpl. intros Hpre Hv He.
  rewrite (extract_dates_loop_app pre _ [] ds Hpre). simpl. rewrite Hv. simpl.
  rewrite He.
  destruct (_parse_date_raise_cases v e He) as [[-> _]|[-> _]]; reflexivity.
Qed.

Lemma extract_schedule_dates_bad_date_witness :
  _extract_schedule_dates
    (JArr (scenario_blocks ++ JObj scenario_bad_block :: scenario_blocks))
  = Raise ValueError.
Proof.
  apply (extract_schedule_dates_bad_date scenario_blocks scenario_blocks
           scenario_bad_block [738886; 738889] (JStr "2024-02-30") ValueError);
    reflexivity.
Defined.

(** ** The game log *)

Lemma goal_games_incl_played (entries : list json) :
  forall gs ps,
    goal_games_of entries = Ok gs -> played_dates_of entries = Ok ps ->
    incl gs ps.
Proof.
  induction entries as [|entry rest IH]; intros gs ps Hg Hp; simpl in *.
  - injection Hg as <-. intros d [].
  - unfold rbind in *.
    destruct (entry_date entry) as [d|]; [|discriminate].
    destruct (played_dates_of rest) as [ps'|]; [|discriminate].
    injection Hp as <-.
    destruct (entry_goals entry) as [n|]; [|discriminate].
    destruct (0 <? n).
    + destruct (goal_games_of rest) as [gs'|]; [|discriminate].
      injection Hg as <-. intros x [<-|Hx]; [left; reflexivity|].
      right. apply (IH gs' ps' eq_refl eq_refl). exact Hx.
    + intros x Hx. right. apply (IH gs ps' Hg eq_refl). exact Hx.
Qed.

(** X6.  The last goal date of a game log is one of its game dates, and it
    is not later than the latest game played. *)
Theorem last_goal_date_is_game_date (game_log : json) (last_goal : date)
        (played_dates : list date) :
  last_goal_date game_log = Ok (Some last_goal) ->
  games_played_dates game_log = Ok played_dates ->
  In last_goal played_dates
  /\ exists latest, In latest played_dates /\ last_goal <= latest
                    /\ forall d, In d played_dates -> d <= latest.
Proof.
  unfold last_goal_date, games_played_dates, rbind.
  destruct (py_iter game_log) as [entries|]; [|discriminate].
  destruct (goal_games_of entries) as [[|g gs]|] eqn:Hg; try discriminate.
  intros [= <-] Hp.
  pose proof (goal_games_incl_played entries _ _ Hg Hp) as Hincl.
  destruct (max_of_spec gs g) as [Hin _].
  assert (Hlast : In (max_of g gs) played_dates) by (apply Hincl; exact Hin).
  split; [exact Hlast|].
  destruct played_dates as [|p ps]; [destruct Hlast|].
  destruct (max_of_spec ps p) as [Hin' Hmax'].
  exists (max_of p ps). split; [exact Hin'|]. split; [apply Hmax'; exact Hlast|].
  exact Hmax'.
Qed.

Lemma last_goal_date_is_game_date_witness :
  last_goal_date scenario_five_games = Ok (Some 738894)
  /\ games_played_dates scenario_five_games
     = Ok [738886; 738888; 738890; 738892; 738894]
  /\ In 738894 [738886; 738888; 738890; 738892; 738894].
Proof.
  split; [reflexivity|]. split; [reflexivity|].
  exact (proj1 (last_goal_date_is_game_date scenario_five_games 738894
                  [738886; 738888; 738890; 738892; 738894] eq_refl eq_refl)).
Defined.

(** ** The cadence from the extremes *)

Lemma Sorted_hd_le (a : Z) (l : list Z) :
  Sorted Z.le (a :: l) -> forall x, In x (a :: l) -> a <= x.
Proof.
  intros Hs. apply Sorted_StronglySorted in Hs; [|intros x y z; apply Z.le_trans].
  inversion Hs as [|? ? _ Hall]; subst. rewrite Forall_forall in Hall.
  intros x [<-|Hx]; [lia | apply Hall; exact Hx].
Qed.

Lemma Sorted_last_ge (l : list Z) :
  forall a, Sorted Z.le (a :: l) -> forall x, In x (a :: l) -> x <= last l a.
Proof.
  induction l as [|b l IH]; intros a Hs x Hx.
  - destruct Hx as [<-|[]]. simpl. lia.
  - rewrite last_cons_default.
    inversion Hs as [|? ? Hs' Hhd]; subst. inversion Hhd; subst.
    destruct Hx as [<-|Hx].
    + pose proof (IH b Hs' b (or_introl eq_refl)). lia.
    + apply (IH b Hs' x Hx).
Qed.

Lemma average_extremes (dates : list date) (lo hi : date) :
  (2 <= List.length dates)%nat ->
  In lo dates -> In hi dates ->
  (forall d, In d dates -> lo <= d <= hi) ->
  average_days_between_games dates
  = int_truediv (hi - lo) (Z.of_nat (List.length dates) - 1).
Proof.
  intros Hlen Hlo Hhi Hall. rewrite (average_unfold dates Hlen).
  rewrite gaps_length, sorted_length. unfold date in *.
  replace (Z.of_nat (List.length dates - 1)) with (Z.of_nat (List.length dates) - 1)
    by lia.
  pose proof (sorted_perm dates) as Hp. pose proof (sorted_Sorted dates) as Hs.
  pose proof (sorted_length dates) as Hl.
  destruct (sorted dates) as [|a l] eqn:E; [simpl in Hl; unfold date in *; lia|].
  rewrite sum_gaps. f_equal.
  assert (Hin : forall x, In x (a :: l) <-> In x dates).
  { intros x. split; intros Hx.
    - apply Permutation_in with (a :: l); [symmetry|]; assumption.
    - apply Permutation_in with dates; assumption. }
  pose proof (Sorted_hd_le a l Hs lo (proj2 (Hin lo) Hlo)) as H1.
  pose proof (Hall a (proj1 (Hin a) (or_introl eq_refl))) as H2.
  pose proof (Sorted_last_ge l a Hs hi (proj2 (Hin hi) Hhi)) as H3.
  pose proof (Hall _ (proj1 (Hin _) (last_In a l))) as H4.
  lia.
Qed.

(** X7.  The cadence of two dates or more depends only on the earliest
    date, the latest date and the number of dates: it is the span between
    the extremes divided by the number of dates minus one. *)
Theorem average_days_between_games_extremes (dates : list date) (lo hi : date) :
  (2 <= List.length dates)%nat ->
  In lo dates -> In hi dates ->
  (forall d, In d dates -> lo <= d <= hi) ->
  average_days_between_games dates
  = int_truediv (hi - lo) (Z.of_nat (List.length dates) - 1).
Proof. apply average_extremes. Qed.

Lemma average_days_between_games_extremes_witness :
  average_days_between_games [738895; 738890; 738900] = int_truediv 10 2
  /\ int_truediv 10 2 = Ok float_5.
Proof.
  split; [|reflexivity].
  apply (average_days_between_games_extremes [738895; 738890; 738900] 738890 738900).
  - simpl. lia.
  - right. left. reflexivity.
  - right. right. left. reflexivity.
  - intros d [<-|[<-|[<-|[]]]]; lia.
Defined.

Lemma list_extremes (a : Z) (l : list Z) :
  exists lo hi, In lo (a :: l) /\ In hi (a :: l)
                /\ forall d, In d (a :: l) -> lo <= d <= hi.
Proof.
  revert a. induction l as [|b l IH]; intros a.
  - exists a, a. split; [left; reflexivity|]. split; [left; reflexivity|].
    intros d [<-|[]]. lia.
  - destruct (IH b) as (lo & hi & Hlo & Hhi & Hall).
    exists (Z.min a lo), (Z.max a hi). split; [|split].
    + destruct (Z.min_spec a lo) as [[_ ->]|[_ ->]]; [left; reflexivity | right; exact Hlo].
    + destruct (Z.max_spec a hi) as [[_ ->]|[_ ->]]; [right; exact Hhi | left; reflexivity].
    + intros d [<-|Hd]; [lia|]. pose proof (Hall d Hd). lia.
Qed.

Lemma float_eq_int_finite (s : bool) (m : positive) (e : Z) :
  float_eq_int (S754_finite s m e) 0 = false.
Proof.
  unfold float_eq_int, float_cmp_int.
  destruct (Z.leb_spec 0 e) as [He|He].
  - pose proof (Z.pow_pos_nonneg 2 e ltac:(lia) He) as Hp.
    destruct s;
      match goal with
      | |- context [(?x ?= ?y)] => destruct (Z.compare_spec x y) as [H|H|H]
      end; try reflexivity; exfalso; nia.
  - rewrite Z.mul_0_l. destruct s; reflexivity.
Qed.

(** X8.  The cadence is zero, which makes the orchestrator skip the player,
    exactly when all the dates are the same day (in particular when there
    are fewer than two); the list is assumed to have at most 2^1074 dates,
    beyond which a quotient could round to zero. *)
Theorem average_days_zero_iff (dates : list date) (avg : float) :
  Z.of_nat (List.length dates) <= 2 ^ 1074 ->
  average_days_between_games dates = Ok avg ->
  (float_eq_int avg 0 = true
   <-> forall d d', In d dates -> In d' dates -> d = d').
Proof.
  intros Hlen Havg.
  destruct (Nat.ltb_spec (List.length dates) 2) as [Hfew|Hmany].
  - unfold average_days_between_games in Havg.
    destruct (Nat.ltb_spec (List.length dates) 2); [|lia].
    injection Havg as <-. split; [|reflexivity]. intros _.
    destruct dates as [|a [|b l]]; simpl in Hfew; try lia.
    + intros d d' [].
    + intros d d' [<-|[]] [<-|[]]. reflexivity.
  - destruct dates as [|a l]; [simpl in Hmany; lia|].
    destruct (list_extremes a l) as (lo & hi & Hlo & Hhi & Hall).
    rewrite (average_extremes _ lo hi Hmany Hlo Hhi Hall) in Havg.
    set (n := Z.of_nat (List.length (a :: l)) - 1) in *.
    assert (Hn : 0 < n < 2 ^ 1074) by (subst n; unfold date in *; lia).
    pose proof (Hall lo Hlo) as Hlohi.
    split.
    + intros Hz d d' Hd Hd'.
      destruct (Z.eq_dec hi lo) as [Heq|Hne].
      * pose proof (Hall d Hd). pose proof (Hall d' Hd'). lia.
      * exfalso.
        assert (Hpos : 0 < hi - lo) by lia.
        pose proof (Zdigits2_pos (hi - lo) Hpos) as Hda.
        pose proof (Zdigits2_le n 1074 ltac:(lia) ltac:(lia) ltac:(lia)) as Hdb.
        destruct (int_truediv_pos_mag (hi - lo) n avg Hpos ltac:(lia) ltac:(lia) Havg)
          as (m & e & -> & _).
        rewrite (float_eq_int_finite false m e) in Hz. discriminate.
    + intros Heq. assert (hi = lo) by (apply Heq; assumption).
      replace (hi - lo) with 0 in Havg by lia.
      unfold int_truediv in Havg. destruct n; try lia.
      injection Havg as <-. reflexivity.
Qed.

Lemma average_days_zero_iff_witness :
  average_days_between_games [738890; 738890] = Ok float_zero
  /\ (float_eq_int float_zero 0 = true
      <-> forall d d', In d [738890; 738890] -> In d' [738890; 738890] -> d = d').
Proof.
  assert (H : average_days_between_games [738890; 738890] = Ok float_zero)
    by reflexivity.
  split; [exact H|].
  apply (average_days_zero_iff [738890; 738890] float_zero); [|exact H].
  change (2 ^ 1 <= 2 ^ 1074). apply Z.pow_le_mono_r; lia.
Defined.

(** ** The game of the day *)

Lemma team_plays_in_sides (schedule_today : json) (team_id : Z) :
  team_plays_in schedule_today team_id
  <-> exists (dates games : json) (blocks game_list : list json)
             (date_block game : json) (side : string),
      py_get schedule_today "dates" (JArr []) = Ok dates
      /\ py_iter dates = Ok blocks /\ In date_block blocks
      /\ py_get date_block "games" (JArr []) = Ok games
      /\ py_iter games = Ok game_list /\ In game game_list
      /\ In side ["home"; "away"]%string
      /\ side_has_team game side team_id.
Proof.
  split.
  - intros (dates & games & teams & side_entry & team & team_ident & blocks
            & game_list & date_block & game & side & H1 & H2 & H3 & H4 & H5 & H6
            & H7 & H8 & H9 & H10 & H11 & H12 & H13).
    exists dates, games, blocks, game_list, date_block, game, side.
    repeat split; try assumption.
    exists teams, side_entry, team, team_ident. repeat split; assumption.
  - intros (dates & games & blocks & game_list & date_block & game & side
            & H1 & H2 & H3 & H4 & H5 & H6 & H7
            & teams & side_entry & team & team_ident & H8 & H9 & H10 & H11 & H12 & H13).
    exists dates, games, teams, side_entry, team, team_ident, blocks, game_list,
      date_block, game, side.
    repeat split; assumption.
Qed.

Lemma for_return_none {A B : Type} (body : A -> result (option B)) (items : list A) :
  for_return body items = Ok None ->
  forall x, In x items -> body x = Ok None.
Proof.
  induction items as [|y rest IH]; simpl; [intros _ x []|].
  unfold rbind. destruct (body y) as [[b|]|] eqn:E; try discriminate.
  intros H x [<-|Hx]; [exact E | apply IH; assumption].
Qed.

Lemma next_game_side_none (game teams : json) (team_id : Z) (side : string) :
  py_get game "teams" (JObj []) = Ok teams ->
  next_game_side game teams team_id side = Ok None ->
  ~ side_has_team game side team_id.
Proof.
  intros Hteams H (teams' & side_entry & team & team_ident
                   & H1 & H2 & H3 & H4 & H5 & H6).
  assert (teams' = teams) by congruence. subst teams'.
  unfold next_game_side, team_matches, rbind in H.
  rewrite H2, H3, H4, H5, H6 in H.
  repeat match type of H with
         | match ?x with _ => _ end = _ => destruct x; try discriminate H
         end.
Qed.

Lemma _next_game_for_team_none (schedule_today : json) (team_id : Z) :
  _next_game_for_team schedule_today team_id = Ok JNull ->
  ~ team_plays_in schedule_today team_id.
Proof.
  intros H Hplays. apply team_plays_in_sides in Hplays.
  destruct Hplays as (dates & games & blocks & game_list & date_block & game & side
                      & H1 & H2 & H3 & H4 & H5 & H6 & H7 & H8).
  unfold _next_game_for_team, rbind in H. rewrite H1, H2 in H.
  destruct (for_return (next_game_in_block team_id) blocks) as [[found|]|] eqn:Hfor;
    try discriminate.
  { destruct (next_game_found _ _ _ _ _ H1 H2 Hfor) as (o & t & -> & _).
    discriminate. }
  pose proof (for_return_none _ _ Hfor date_block H3) as Hblock.
  unfold next_game_in_block, rbind in Hblock. rewrite H4, H5 in Hblock.
  pose proof (for_return_none _ _ Hblock game H6) as Hgame.
  unfold next_game_in_game, rbind in Hgame.
  destruct (py_get game "teams" (JObj [])) as [teams|] eqn:Hteams; [|discriminate].
  pose proof (for_return_none _ _ Hgame side H7) as Hside.
  exact (next_game_side_none game teams team_id side Hteams Hside H8).
Qed.

(** X9.  When [_next_game_for_team] returns, it returns [None] exactly when
    no game of the schedule has the team on a side: it misses no game. *)
Theorem next_game_for_team_none_iff (schedule_today next_game : json) (team_id : Z) :
  _next_game_for_team schedule_today team_id = Ok next_game ->
  (py_truthy next_game = true <-> team_plays_in schedule_today team_id).
Proof.
  intros H. split.
  - apply (_next_game_for_team_found _ _ _ H).
  - intros Hplays.
    destruct (_next_game_for_team_game _ _ _ H) as [->|(o & t & -> & _)];
      [|reflexivity].
    exfalso. exact (_next_game_for_team_none _ _ H Hplays).
Qed.

Lemma next_game_for_team_none_iff_witness :
  _next_game_for_team scenario_schedule_today 10 = Ok scenario_next_game
  /\ team_plays_in scenario_schedule_today 10
  /\ _next_game_for_team scenario_schedule_today 99 = Ok JNull
  /\ ~ team_plays_in scenario_schedule_today 99.
Proof.
  assert (H10 : _next_game_for_team scenario_schedule_today 10 = Ok scenario_next_game)
    by reflexivity.
  assert (H99 : _next_game_for_team scenario_schedule_today 99 = Ok JNull)
    by reflexivity.
  split; [exact H10|]. split.
  - apply (proj1 (next_game_for_team_none_iff _ _ _ H10)). reflexivity.
  - split; [exact H99|]. intros Hplays.
    apply (proj2 (next_game_for_team_none_iff _ _ _ H99)) in Hplays. discriminate.
Defined.

(** X10.  What [_next_game_for_team] returns is [None] or a dict with
    exactly the keys ["opponent"] and ["startTime"]: the name of the team on
    the other side of a game that has the team on one side, and that game's
    date. *)
Theorem next_game_for_team_opponent (schedule_today next_game : json) (team_id : Z) :
  _next_game_for_team schedule_today team_id = Ok next_game ->
  next_game = JNull
  \/ exists opponent start_time,
       next_game = JObj [("opponent"%string, opponent); ("startTime"%string, start_time)]
       /\ game_of_team schedule_today team_id opponent start_time.
Proof. apply _next_game_for_team_game. Qed.

Lemma next_game_for_team_opponent_witness :
  _next_game_for_team scenario_schedule_today 6
  = Ok (JObj [("opponent"%string, JStr "Toronto");
              ("startTime"%string, JStr "2024-01-20T19:00:00Z")])
  /\ (JObj [("opponent"%string, JStr "Toronto");
            ("startTime"%string, JStr "2024-01-20T19:00:00Z")] = JNull
      \/ exists opponent start_time,
           JObj [("opponent"%string, JStr "Toronto");
                 ("startTime"%string, JStr "2024-01-20T19:00:00Z")]
           = JObj [("opponent"%string, opponent); ("startTime"%string, start_time)]
           /\ game_of_team scenario_schedule_today 6 opponent start_time).
Proof.
  assert (H : _next_game_for_team scenario_schedule_today 6
              = Ok (JObj [("opponent"%string, JStr "Toronto");
                          ("startTime"%string, JStr "2024-01-20T19:00:00Z")]))
    by reflexivity.
  split; [exact H|]. exact (next_game_for_team_opponent _ _ _ H).
Defined.

(** ** The teams playing today *)

Lemma for_fold_members {A : Type} (body : list json -> A -> result (list json))
      (P : A -> Z -> Prop) :
  (forall acc x acc', body acc x = Ok acc' ->
     forall team_id, int_in_set team_id acc' = true
                     <-> int_in_set team_id acc = true \/ P x team_id) ->
  forall items acc acc',
    for_fold body items acc = Ok acc' ->
    forall team_id, int_in_set team_id acc' = true
                    <-> int_in_set team_id acc = true
                        \/ exists x, In x items /\ P x team_id.
Proof.
  intros Hbody. induction items as [|x rest IH]; intros acc acc' H team_id; simpl in H.
  - injection H as <-. split; [auto|]. intros [H|(x & [] & _)]. exact H.
  - unfold rbind in H. destruct (body acc x) as [acc1|] eqn:E; [|discriminate].
    rewrite (IH acc1 acc' H team_id), (Hbody acc x acc1 E team_id). split.
    + intros [[H1|H1]|(y & Hy & Py)]; [left; exact H1 | right | right].
      * exists x. split; [left; reflexivity | exact H1].
      * exists y. split; [right; exact Hy | exact Py].
    + intros [H1|(y & [<-|Hy] & Py)]; [left; left; exact H1 | left; right; exact Py |].
      right. exists y. split; assumption.
Qed.

Lemma playing_side_members (game : json) (acc : list json) (side : string)
      (acc' : list json) :
  playing_side game acc side = Ok acc' ->
  forall team_id, int_in_set team_id acc' = true
                  <-> int_in_set team_id acc = true \/ side_has_team game side team_id.
Proof.
  unfold playing_side, rbind. intros H team_id.
  destruct (py_get game "teams" (JObj [])) as [teams|] eqn:Hteams; [|discriminate].
  destruct (py_get teams side (JObj [])) as [side_entry|] eqn:Hentry; [|discriminate].
  destruct (py_get_none side_entry "team") as [team|] eqn:Hteam; [|discriminate].
  destruct (py_truthy team) eqn:Ht.
  - destruct (py_get_none team "id") as [team_ident|] eqn:Hid; [|discriminate].
    assert (Hacc : acc' = team_ident :: acc).
    { unfold set_add in H. destruct team_ident; congruence. }
    subst acc'. unfold int_in_set. simpl. rewrite orb_true_iff. split.
    + intros [Heq|Hin]; [right | left; exact Hin].
      exists teams, side_entry, team, team_ident. repeat split; assumption.
    + intros [Hin|(teams' & side_entry' & team' & team_ident' & H1 & H2 & H3 & H4 & H5 & H6)];
        [right; exact Hin | left].
      congruence.
  - injection H as <-. split; [auto|].
    intros [Hin|(teams' & side_entry' & team' & team_ident' & H1 & H2 & H3 & H4 & H5 & H6)];
      [exact Hin|].
    congruence.
Qed.

Lemma playing_game_members (acc : list json) (game : json) (acc' : list json) :
  for_fold (playing_side game) ["home"; "away"]%string acc = Ok acc' ->
  forall team_id,
    int_in_set team_id acc' = true
    <-> int_in_set team_id acc = true
        \/ exists side, In side ["home"; "away"]%string
                        /\ side_has_team game side team_id.
Proof.
  apply (for_fold_members (playing_side game)
           (fun side team_id => side_has_team game side team_id)
           (playing_side_members game)).
Qed.

Lemma playing_block_members (acc : list json) (date_block : json) (acc' : list json) :
  playing_block acc date_block = Ok acc' ->
  forall team_id,
    int_in_set team_id acc' = true
    <-> int_in_set team_id acc = true
        \/ exists games game_list game side,
             py_get date_block "games" (JArr []) = Ok games
             /\ py_iter games = Ok game_list /\ In game game_list
             /\ In side ["home"; "away"]%string
             /\ side_has_team game side team_id.
Proof.
  unfold playing_block, rbind. intros H team_id.
  destruct (py_get date_block "games" (JArr [])) as [games|] eqn:Hgames; [|discriminate].
  destruct (py_iter games) as [game_list|] eqn:Hlist; [|discriminate].
  rewrite (for_fold_members
             (fun acc game => for_fold (playing_side game) ["home"; "away"]%string acc)
             (fun game team_id =>
                exists side, In side ["home"; "away"]%string
                             /\ side_has_team game side team_id)
             playing_game_members game_list acc acc' H team_id).
  split; (intros [Hin|Hx]; [left; exact Hin | right]).
  - destruct Hx as (game & Hg & side & Hs & Hside).
    exists games, game_list, game, side. repeat split; assumption.
  - destruct Hx as (games' & game_list' & game & side & H1 & H2 & H3 & H4 & H5).
    assert (games' = games) by congruence. subst games'.
    assert (game_list' = game_list) by congruence. subst game_list'.
    exists game. split; [exact H3|]. exists side. split; assumption.
Qed.

Lemma teams_playing_today_members (schedule_today : json) (teams_playing : list json) :
  teams_playing_today_of schedule_today = Ok teams_playing ->
  forall team_id, int_in_set team_id teams_playing = true
                  <-> team_plays_in schedule_today team_id.
Proof.
  unfold teams_playing_today_of, rbind. intros H team_id.
  destruct (py_get schedule_today "dates" (JArr [])) as [dates|] eqn:Hdates; [|discriminate].
  destruct (py_iter dates) as [blocks|] eqn:Hblocks; [|discriminate].
  rewrite team_plays_in_sides.
  rewrite (for_fold_members playing_block
             (fun date_block team_id =>
                exists games game_list game side,
                  py_get date_block "games" (JArr []) = Ok games
                  /\ py_iter games = Ok game_list /\ In game game_list
                  /\ In side ["home"; "away"]%string
                  /\ side_has_team game side team_id)
             playing_block_members blocks [] teams_playing H team_id).
  split.
  - intros [Hin|(date_block & Hb & games & game_list & game & side & H1 & H2 & H3 & H4 & H5)];
      [discriminate|].
    exists dates, games, blocks, game_list, date_block, game, side.
    repeat split; assumption.
  - intros (dates' & games & blocks' & game_list & date_block & game & side
            & H1 & H2 & H3 & H4 & H5 & H6 & H7 & H8).
    assert (dates' = dates) by congruence. subst dates'.
    assert (blocks' = blocks) by congruence. subst blocks'.
    right. exists date_block. split; [exact H3|].
    exists games, game_list, game, side. repeat split; assumption.
Qed.

(** X11.  The set [teams_playing_today] that the orchestrator builds holds
    a team identifier exactly when a game of the day's schedule has a team
    with that identifier on its home or away side. *)
Theorem teams_playing_today_spec (schedule_today : json) (teams_playing : list json)
        (team_id : Z) :
  teams_playing_today_of schedule_today = Ok teams_playing ->
  (int_in_set team_id teams_playing = true
   <-> team_plays_in schedule_today team_id).
Proof. intros H. apply (teams_playing_today_members _ _ H). Qed.

Lemma teams_playing_today_spec_witness :
  teams_playing_today_of scenario_schedule_today = Ok [JInt 6; JInt 10]
  /\ team_plays_in scenario_schedule_today 6
  /\ ~ team_plays_in scenario_schedule_today 99.
Proof.
  assert (H : teams_playing_today_of scenario_schedule_today = Ok [JInt 6; JInt 10])
    by reflexivity.
  split; [exact H|]. split.
  - apply (proj1 (teams_playing_today_spec _ _ 6 H)). reflexivity.
  - intros Hplays. apply (proj2 (teams_playing_today_spec _ _ 99 H)) in Hplays.
    discriminate.
Defined.

(** X12.  For a team that is in the set [teams_playing_today], as every
    baseline player's team is, [_next_game_for_team] on the same schedule
    never returns [None]: the orchestrator's test [if not next_game] does
    not drop a player. *)
Theorem next_game_guard_never_fires (schedule_today next_game : json)
        (teams_playing : list json) (team_id : Z) :
  teams_playing_today_of schedule_today = Ok teams_playing ->
  int_in_set team_id teams_playing = true ->
  _next_game_for_team schedule_today team_id = Ok next_game ->
  py_truthy next_game = true.
Proof.
  intros Hset Hin Hnext.
  apply (teams_playing_today_members _ _ Hset) in Hin.
  destruct (_next_game_for_team_game _ _ _ Hnext) as [->|(o & t & -> & _)];
    [|reflexivity].
  exfalso. exact (_next_game_for_team_none _ _ Hnext Hin).
Qed.

Lemma next_game_guard_never_fires_witness :
  teams_playing_today_of scenario_schedule_today = Ok [JInt 6; JInt 10]
  /\ int_in_set 10 [JInt 6; JInt 10] = true
  /\ _next_game_for_team scenario_schedule_today 10 = Ok scenario_next_game
  /\ py_truthy scenario_next_game = true.
Proof.
  split; [reflexivity|]. split; [reflexivity|]. split; [reflexivity|].
  exact (next_game_guard_never_fires scenario_schedule_today scenario_next_game
           [JInt 6; JInt 10] 10 eq_refl eq_refl eq_refl).
Defined.

(** ** The scorers of the previous season *)

(** X13.  The loop of [fetch_top_goal_scorers] reads the goal count of
    every entry and keeps, in the provider's order, exactly the entries
    whose count is at least [min_goals]; an entry below the threshold is
    skipped before any other of its keys is read. *)
Theorem fetch_top_goal_scorers_threshold (entries : list json) (min_goals : Z) :
  forall players,
    top_scorers_loop entries min_goals = Ok players ->
    exists all_goals,
      Forall2 (fun entry g => entry_goals entry = Ok g) entries all_goals
      /\ map goals players = filter (fun g => min_goals <=? g) all_goals
      /\ Forall (fun p => min_goals <= goals p) players.
Proof.
  induction entries as [|entry rest IH]; intros players H; simpl in H.
  - injection H as <-. exists []. repeat split; constructor.
  - unfold rbind in H.
    destruct (py_get entry "goals" (JInt 0)) as [g|] eqn:Hg; [|discriminate].
    destruct (py_int g) as [n|] eqn:Hn; [|discriminate].
    assert (Hgoals : entry_goals entry = Ok n).
    { unfold entry_goals, rbind. rewrite Hg. exact Hn. }
    destruct (Z.ltb_spec n min_goals) as [Hlt|Hge].
    + destruct (IH players H) as (all_goals & Hall & Hmap & Hmin).
      exists (n :: all_goals). split; [constructor; assumption|].
      split; [|exact Hmin].
      simpl. destruct (Z.leb_spec min_goals n); [lia | exact Hmap].
    + repeat match type of H with
             | match ?x with _ => _ end = _ => destruct x eqn:?; try discriminate H
             end.
      injection H as <-.
      destruct (IH _ eq_refl) as (all_goals & Hall & Hmap & Hmin).
      exists (n :: all_goals). split; [constructor; assumption|].
      split; [|constructor; [exact Hge | exact Hmin]].
      simpl. destruct (Z.leb_spec min_goals n); [|lia]. f_equal. exact Hmap.
Qed.

Lemma fetch_top_goal_scorers_threshold_witness :
  top_scorers_loop scenario_skater_entries 40
  = Ok [{| player_id := 8478402; name := JStr "A B"; team_id := 10;
           team_abbrev := JStr "TOR"; goals := 45; games_played := 80 |}]
  /\ exists all_goals,
       Forall2 (fun entry g => entry_goals entry = Ok g)
               scenario_skater_entries all_goals
       /\ [45] = filter (fun g => 40 <=? g) all_goals
       /\ Forall (fun p => 40 <= goals p)
                 [{| player_id := 8478402; name := JStr "A B"; team_id := 10;
                     team_abbrev := JStr "TOR"; goals := 45; games_played := 80 |}].
Proof.
  split; [reflexivity|].
  exact (fetch_top_goal_scorers_threshold scenario_skater_entries 40 _ eq_refl).
Defined.

(** ** Runs of the orchestrator *)

Lemma subsequence_filter {A : Type} (f : A -> bool) (l : list A) :
  subsequence (filter f l) l.
Proof.
  induction l as [|x l IH]; simpl; [constructor|].
  destruct (f x); [apply subsequence_keep | apply subsequence_skip]; exact IH.
Qed.

Lemma subsequence_trans {A : Type} (l1 l2 l3 : list A) :
  subsequence l1 l2 -> subsequence l2 l3 -> subsequence l1 l3.
Proof.
  intros H12 H23. revert l1 H12.
  induction H23 as [|x l2 l3 _ IH|x l2 l3 _ IH]; intros l1 H12.
  - exact H12.
  - apply subsequence_skip. apply IH. exact H12.
  - inversion H12; subst;
      [apply subsequence_skip | apply subsequence_keep]; apply IH; assumption.
Qed.

Section WorldExtras.

Variable W : Type.
Variable session_get : string -> W -> http_outcome * W.
Variable date_today : W -> date * W.

(** X14.  When the first request of a run, for the current season, is
    answered with a client or server error status, or cannot be made, the
    run raises [NhlApiError] with the message of [_get_json] and returns no
    record. *)
Theorem evaluate_due_players_api_error (today : option date) (w w0 : W) (day : date) :
  (day, w0) = match today with Some d => (d, w) | None => date_today w end ->
  (forall status_code body w1,
      session_get (SEASONS_API ++ "/current")%string w0
      = (Response status_code body, w1) ->
      400 <= status_code < 600 ->
      evaluate_due_players session_get date_today today w
      = Raise (NhlApiError ("Failed to fetch " ++ SEASONS_API ++ "/current" ++ ": "
                            ++ str_of_int status_code)%string))
  /\ (forall w1,
         session_get (SEASONS_API ++ "/current")%string w0 = (RequestException, w1) ->
         evaluate_due_players session_get date_today today w
         = Raise (NhlApiError
                    ("Network error while reaching NHL stats API. "
                     ++ "Check your internet connection or DNS and try again.")%string)).
Proof.
  intros Hday.
  assert (Hrun : forall e,
             _get_json session_get (SEASONS_API ++ "/current")%string w0 = Raise e ->
             evaluate_due_players session_get date_today today w = Raise e).
  { intros e He. unfold evaluate_due_players, mbind at 1.
    destruct today as [d|].
    - injection Hday as -> ->. unfold mret, get_current_season_id, mbind.
      rewrite He. reflexivity.
    - rewrite <- Hday. unfold get_current_season_id, mbind. rewrite He. reflexivity. }
  split.
  - intros status_code body w1 Hget Hstatus. apply Hrun.
    unfold _get_json. rewrite Hget. unfold response_ok.
    destruct (Z.leb_spec 400 status_code); [|lia].
    destruct (Z.ltb_spec status_code 600); [|lia]. reflexivity.
  - intros w1 Hget. apply Hrun. unfold _get_json. rewrite Hget. reflexivity.
Qed.

(** X15.  Every record of a run is consistent with the evaluation date: its
    drought is the evaluation date minus its last goal date, its player has
    at least 40 goals last season and a number of games played that is not
    zero. *)
Theorem due_record_consistent (today : option date) (w w' : W)
        (records : list PlayerDueStatus) :
  evaluate_due_players session_get date_today today w = Ok (records, w') ->
  exists (day : date) (w0 : W),
    (day, w0) = match today with Some d => (d, w) | None => date_today w end
    /\ Forall (fun status =>
                 days_since_last_goal status = day - due_last_goal_date status
                 /\ DEFAULT_MIN_GOALS <= goals (player status)
                 /\ games_played (player status) <> 0)
              records.
Proof.
  intros H.
  destruct (evaluate_due_players_records _ _ _ _ _ _ _ H)
    as (day & season_start & cs & sched & w0 & w3 & w4 & Hday & _ & Hall).
  exists day, w0. split; [exact Hday|].
  eapply Forall_impl; [|exact Hall].
  intros status (Hgoals & wa & wb & Hg). cbv beta.
  destruct Hg as (game_log & w1 & last_goal & played_dates & team_schedule
                  & schedule_dates & avg_days & gpg & rate & next_game
                  & Hlog & Hlast & Hplayed & Hsched & Hdates & Havg & Havg0 & Hgpg
                  & Hgpg0 & Hrate & Hle & Hnext & Htruthy & Hopp & Hstart & Hp & Hd
                  & Hdays & Hexp).
  split; [rewrite Hdays, Hd; reflexivity|]. split; [exact Hgoals|].
  intros Hzero. unfold goals_per_game in Hgpg. rewrite Hzero in Hgpg.
  injection Hgpg as <-. discriminate.
Qed.

Lemma due_players_loop_order (today season_start : date)
      (current_season schedule_today : json) (baselines : list PlayerBaseline) :
  forall (due_players records : list PlayerDueStatus) (w w' : W),
    due_players_loop session_get today season_start current_season schedule_today
                     baselines due_players w = Ok (records, w') ->
    exists added, records = (due_players ++ added)%list
                  /\ subsequence (map player added) baselines.
Proof.
  induction baselines as [|scorer rest IH]; intros due_players records w w' H.
  - simpl in H. apply mret_ok in H. destruct H as [-> _].
    exists []. split; [rewrite app_nil_r; reflexivity | constructor].
  - simpl in H. bind_inv H status w1 Hstatus.
    destruct (IH _ _ _ _ H) as (added & -> & Hsub).
    destruct status as [s|].
    + exists (s :: added). split; [rewrite <- app_assoc; reflexivity|].
      apply evaluate_player_gates in Hstatus.
      destruct Hstatus as (? & ? & ? & ? & ? & ? & ? & ? & ? & ?
                           & _ & _ & _ & _ & _ & _ & _ & _ & _ & _ & _ & _ & _ & _ & _
                           & Hp & _).
      simpl. rewrite Hp. apply subsequence_keep. exact Hsub.
    + exists added. split; [reflexivity|]. apply subsequence_skip. exact Hsub.
Qed.

(** X16.  The records of a run follow the order of the skater summary that
    the run fetched for the previous season (the identifier derived from
    the current season's by [get_previous_season_id]), with at most one
    record for each of its entries: their players are a subsequence of the
    scorers fetched. *)
Theorem due_records_in_provider_order (today : option date) (w w' : W)
        (records : list PlayerDueStatus) :
  evaluate_due_players session_get date_today today w = Ok (records, w') ->
  exists (day : date) (current_season season_dates schedule_today : json)
         (previous_season : string) (scorers : list PlayerBaseline)
         (w0 w1 w2 w3 w4 : W),
    (day, w0) = match today with Some d => (d, w) | None => date_today w end
    /\ get_current_season_id session_get w0 = Ok (current_season, w1)
    /\ get_previous_season_id current_season = Ok previous_season
    /\ get_season_dates session_get current_season w1 = Ok (season_dates, w2)
    /\ fetch_schedule_for_day session_get day w2 = Ok (schedule_today, w3)
    /\ fetch_top_goal_scorers session_get (JStr previous_season) DEFAULT_MIN_GOALS w3
       = Ok (scorers, w4)
    /\ subsequence (map player records) scorers.
Proof.
  intros H.
  destruct (evaluate_due_players_run _ _ _ _ _ _ _ H)
    as (day & season_start & cs & sd & sched & prev & teams & scorers
        & w0 & w1 & w2 & w3 & w4
        & Hday & Hcs & Hprev & Hsd & _ & Hfetch & _ & Hscorers & Hloop).
  exists day, cs, sd, sched, prev, scorers, w0, w1, w2, w3, w4.
  repeat (split; [assumption|]).
  destruct (due_players_loop_order _ _ _ _ _ _ _ _ _ Hloop) as (added & -> & Hsub).
  simpl. apply (subsequence_trans _ _ _ Hsub). apply subsequence_filter.
Qed.

End WorldExtras.

Lemma evaluate_due_players_api_error_witness :
  evaluate_due_players scenario_unavailable scenario_clock None tt
  = Raise (NhlApiError
             "Failed to fetch https://statsapi.web.nhl.com/api/v1/seasons/current: 503")
  /\ evaluate_due_players scenario_offline scenario_clock (Some 738905) tt
     = Raise (NhlApiError
                ("Network error while reaching NHL stats API. "
                 ++ "Check your internet connection or DNS and try again.")%string).
Proof.
  split.
  - apply (proj1 (evaluate_due_players_api_error unit scenario_unavailable
                    scenario_clock None tt tt 738905 eq_refl) 503 (Ok JNull) tt);
      [reflexivity | lia].
  - apply (proj2 (evaluate_due_players_api_error unit scenario_offline
                    scenario_clock (Some 738905) tt tt 738905 eq_refl) tt).
    reflexivity.
Defined.

Lemma due_record_consistent_witness :
  evaluate_due_players
    (scenario_get (scenario_skaters 40 40) (scenario_gamelog "2024-01-10"))
    scenario_clock None tt
  = Ok ([scenario_status 40 10 float_3], tt)
  /\ days_since_last_goal (scenario_status 40 10 float_3)
     = 738905 - due_last_goal_date (scenario_status 40 10 float_3)
  /\ DEFAULT_MIN_GOALS <= goals (player (scenario_status 40 10 float_3))
  /\ games_played (player (scenario_status 40 10 float_3)) <> 0.
Proof.
  assert (Hrun : evaluate_due_players
                   (scenario_get (scenario_skaters 40 40) (scenario_gamelog "2024-01-10"))
                   scenario_clock None tt
                 = Ok ([scenario_status 40 10 float_3], tt)) by reflexivity.
  split; [exact Hrun|].
  destruct (due_record_consistent unit _ _ None tt tt _ Hrun)
    as (day & w0 & Hday & Hall).
  injection Hday as -> ->.
  apply Forall_inv in Hall. exact Hall.
Defined.

Lemma due_records_in_provider_order_witness :
  evaluate_due_players
    (scenario_get (scenario_skaters 40 40) (scenario_gamelog "2024-01-10"))
    scenario_clock None tt
  = Ok ([scenario_status 40 10 float_3], tt)
  /\ get_previous_season_id (JStr "20232024") = Ok "20232023"%string
  /\ fetch_top_goal_scorers
       (scenario_get (scenario_skaters 40 40) (scenario_gamelog "2024-01-10"))
       (JStr "20232023") DEFAULT_MIN_GOALS tt
     = Ok ([scenario_scorer 40], tt)
  /\ subsequence (map player [scenario_status 40 10 float_3]) [scenario_scorer 40].
Proof.
  assert (Hrun : evaluate_due_players
                   (scenario_get (scenario_skaters 40 40) (scenario_gamelog "2024-01-10"))
                   scenario_clock None tt
                 = Ok ([scenario_status 40 10 float_3], tt)) by reflexivity.
  split; [exact Hrun|]. split; [reflexivity|]. split; [reflexivity|].
  destruct (due_records_in_provider_order unit _ _ None tt tt _ Hrun)
    as (day & cs & sd & sched & prev & scorers & w0 & w1 & w2 & w3 & w4
        & Hday & Hcs & Hprev & _ & _ & Hscorers & Hsub).
  injection Hday as -> ->. destruct w1, w3.
  injection Hcs as <-. injection Hprev as <-. injection Hscorers as <-.
  exact Hsub.
Defined.
